(** * Ocean-hazard signal pipeline: a shallow embedding and its properties

    The development follows the Python sources file by file:

    - [PyText], [Re]      : the string and regular-expression operations the
                            sources call ([str.lower], [in], [re.search], ...)
    - [Processors]        : nlp-engine/processors.py
    - [NlpMain]           : nlp-engine/main.py
    - [Py]                : exceptions, [try]/[except], a printing log
    - [Models]            : backend/models.py (the rows of the database)
    - [AlertService]      : backend/alert_service.py
    - [Incois]            : backend/incois_integration.py
    - [Schemas]           : backend/schemas.py
    - [BackendMain]       : backend/main.py
    - [System]            : the operations above as steps on one world
    - [Fixtures]          : concrete inputs for the examples

    The properties follow the definitions, component by component.

    Python [float]s are IEEE binary64 numbers and are modelled by Rocq's
    primitive floats, which are the same numbers; [datetime]s are integers
    (microseconds), [timedelta(hours=h)] is [h * 3_600_000_000].  Text is
    modelled over 8-bit characters, with the ASCII character classes: the
    text functions are those of Python on ASCII text. *)

From Stdlib Require Import Bool Arith ZArith List String Ascii Floats Uint63 Lia.
From Stdlib Require Import DecimalString.
From Stdlib Require Import Sorting.Permutation Sorting.Sorted FloatAxioms SpecFloat.
Import ListNotations.

#[local] Set Warnings "-inexact-float".
#[local] Open Scope string_scope.
#[local] Open Scope list_scope.
#[local] Open Scope nat_scope.

(* ================================================================== *)
(** * Python text primitives *)

Module PyText.

Definition code (c : ascii) : nat := nat_of_ascii c.

(** [\s] on ASCII text: tab, newline, vertical tab, form feed, carriage
    return, the four separators 0x1c-0x1f and the space. *)
Definition is_space (c : ascii) : bool :=
  let n := code c in
  ((9 <=? n) && (n <=? 13)) || ((28 <=? n) && (n <=? 32)).

Definition is_upper (c : ascii) : bool :=
  let n := code c in (65 <=? n) && (n <=? 90).

Definition is_lower (c : ascii) : bool :=
  let n := code c in (97 <=? n) && (n <=? 122).

Definition is_digit (c : ascii) : bool :=
  let n := code c in (48 <=? n) && (n <=? 57).

(** [\w] on ASCII text. *)
Definition is_word (c : ascii) : bool :=
  is_upper c || is_lower c || is_digit c || (code c =? 95).

Definition lower_char (c : ascii) : ascii :=
  if is_upper c then ascii_of_nat (code c + 32) else c.

(** [str.lower] *)
Fixpoint lower (s : string) : string :=
  match s with
  | EmptyString => EmptyString
  | String c s' => String (lower_char c) (lower s')
  end.

(** [needle in s] *)
Fixpoint contains (needle s : string) : bool :=
  String.prefix needle s
  || match s with
     | EmptyString => false
     | String _ s' => contains needle s'
     end.

(** Truth value of a string: [not text] is [is_empty text]. *)
Definition is_empty (s : string) : bool :=
  match s with EmptyString => true | _ => false end.

Fixpoint lstrip (s : string) : string :=
  match s with
  | EmptyString => EmptyString
  | String c s' => if is_space c then lstrip s' else s
  end.

Fixpoint rstrip (s : string) : string :=
  match s with
  | EmptyString => EmptyString
  | String c s' =>
      let r := rstrip s' in
      if is_space c && is_empty r then EmptyString else String c r
  end.

(** [str.strip] *)
Definition strip (s : string) : string := rstrip (lstrip s).

(** The character at offset [n], if any. *)
Definition char_at (n : nat) (s : string) : option ascii := String.get n s.

Definition nonspace_at (n : nat) (s : string) : bool :=
  match char_at n s with Some c => negb (is_space c) | None => false end.

Definition word_at (n : nat) (s : string) : bool :=
  match char_at n s with Some c => is_word c | None => false end.

End PyText.

(* ================================================================== *)
(** * The fragment of [re] used by the hazard patterns *)

Module Re.
Import PyText.

(** Literals, alternation, concatenation, [\b] and [.*] are all that the
    pattern table of [HazardAnalyzer] uses. *)
Inductive regex : Type :=
| Lit (s : string)
| Alt (r1 r2 : regex)
| Cat (r1 r2 : regex)
| WordBoundary
| DotStar.

(** A match position is the remaining text together with the character
    just before it ([None] at the start of the text). *)
Definition cont : Type := option ascii -> string -> bool.

(** Literal text under [re.IGNORECASE]. *)
Fixpoint lit (l : string) (prev : option ascii) (s : string) (k : cont)
  : bool :=
  match l with
  | EmptyString => k prev s
  | String pc l' =>
      match s with
      | EmptyString => false
      | String c s' =>
          if Ascii.eqb (lower_char c) (lower_char pc)
          then lit l' (Some c) s' k
          else false
      end
  end.

(** [.*]: any run of characters other than a newline. *)
Fixpoint dot_star (prev : option ascii) (s : string) (k : cont) : bool :=
  k prev s
  || match s with
     | EmptyString => false
     | String c s' =>
         if Ascii.eqb c "010"%char then false else dot_star (Some c) s' k
     end.

Definition word_before (prev : option ascii) : bool :=
  match prev with Some c => is_word c | None => false end.

Definition word_here (s : string) : bool :=
  match s with String c _ => is_word c | EmptyString => false end.

(** Backtracking matcher in continuation-passing style: [matches r prev s k]
    holds when [r] matches a prefix of [s] after which [k] accepts. *)
Fixpoint matches (r : regex) (prev : option ascii) (s : string) (k : cont)
  : bool :=
  match r with
  | Lit l => lit l prev s k
  | Alt r1 r2 => matches r1 prev s k || matches r2 prev s k
  | Cat r1 r2 => matches r1 prev s (fun p' s' => matches r2 p' s' k)
  | WordBoundary =>
      if xorb (word_before prev) (word_here s) then k prev s else false
  | DotStar => dot_star prev s k
  end.

Fixpoint search_from (r : regex) (prev : option ascii) (s : string) : bool :=
  matches r prev s (fun _ _ => true)
  || match s with
     | EmptyString => false
     | String c s' => search_from r (Some c) s'
     end.

(** [re.search(pattern, text, re.IGNORECASE)] as a truth value;
    [re.findall] returns a non-empty list exactly when it holds. *)
Definition search (r : regex) (text : string) : bool :=
  search_from r None text.

(** [\b(a|b|...)\b] *)
Fixpoint alts (ws : list string) : regex :=
  match ws with
  | [] => Lit ""
  | [w] => Lit w
  | w :: ws' => Alt (Lit w) (alts ws')
  end.

Definition word_group (ws : list string) : regex :=
  Cat WordBoundary (Cat (alts ws) WordBoundary).

End Re.

(* ================================================================== *)
(** * nlp-engine/processors.py *)

Module Processors.
Import PyText Re.

(** ** Floats *)

(** [float(n)] for a small non-negative [int]. *)
Definition float_of_nat (n : nat) : float :=
  PrimFloat.of_uint63 (Uint63.of_Z (Z.of_nat n)).

(** The builtin [min(a, b)]: the first argument unless the second is
    strictly smaller. *)
Definition py_min (a b : float) : float :=
  if PrimFloat.ltb b a then b else a.

(** ** SocialMediaProcessor *)

(** [self.hazard_keywords] *)
Definition hazard_keywords : list (string * list string) :=
  [ ("tsunami", ["tsunami"; "tidal wave"; "seismic wave"; "ocean wave"]);
    ("storm_surge",
      ["storm surge"; "storm tide"; "coastal flooding"; "storm water"]);
    ("high_waves", ["high waves"; "big waves"; "rough seas"; "wave height"]);
    ("flooding",
      ["flood"; "flooding"; "inundation"; "water level"; "rising water"]);
    ("coastal_current",
      ["current"; "rip current"; "undertow"; "strong current"]);
    ("abnormal_tide",
      ["tide"; "tidal"; "high tide"; "low tide"; "tide level"]);
    ("general",
      ["hazard"; "danger"; "warning"; "alert"; "emergency"; "disaster"]) ].

(** [d[key]] on a table that has the key. *)
Definition table_get {V} (key : string) (d : list (string * list V))
  : list V :=
  match find (fun kv => String.eqb (fst kv) key) d with
  | Some kv => snd kv
  | None => []
  end.

(** [re.sub(r'http\S+|www\S+|https\S+', '', text)].  A match starts at
    [http] or [www] followed by a non-space character and runs to the end
    of the run of non-space characters; the third alternative can only
    match where the first does. *)
Definition url_starts (s : string) : bool :=
  (String.prefix "http" s && nonspace_at 4 s)
  || (String.prefix "www" s && nonspace_at 3 s).

Fixpoint remove_urls (inside : bool) (s : string) : string :=
  match s with
  | EmptyString => EmptyString
  | String c s' =>
      if inside && negb (is_space c) then remove_urls true s'
      else if url_starts s then remove_urls true s'
      else String c (remove_urls false s')
  end.

(** [re.sub(r'@\w+|#\w+', '', text)]: the marker goes, and the word after
    it goes with it. *)
Definition mention_starts (s : string) : bool :=
  (String.prefix "@" s || String.prefix "#" s) && word_at 1 s.

Fixpoint remove_mentions (inside : bool) (s : string) : string :=
  match s with
  | EmptyString => EmptyString
  | String c s' =>
      if inside && is_word c then remove_mentions true s'
      else if mention_starts s then remove_mentions true s'
      else String c (remove_mentions false s')
  end.

(** [re.sub(r'\s+', ' ', text)] *)
Fixpoint collapse_spaces (inside : bool) (s : string) : string :=
  match s with
  | EmptyString => EmptyString
  | String c s' =>
      if is_space c
      then if inside then collapse_spaces true s'
           else String " " (collapse_spaces true s')
      else String c (collapse_spaces false s')
  end.

(** [re.sub(r'[^\w\s.,!?]', '', text)] *)
Definition basic_char (c : ascii) : bool :=
  is_word c || is_space c
  || Ascii.eqb c "." || Ascii.eqb c "," || Ascii.eqb c "!" || Ascii.eqb c "?".

Fixpoint keep_basic (s : string) : string :=
  match s with
  | EmptyString => EmptyString
  | String c s' =>
      if basic_char c then String c (keep_basic s') else keep_basic s'
  end.

Definition preprocess_text (text : string) : string :=
  if is_empty text then ""
  else
    let text := lower text in
    let text := remove_urls false text in
    let text := remove_mentions false text in
    let text := strip (collapse_spaces false text) in
    keep_basic text.

(** ** HazardAnalyzer *)

(** [self.hazard_patterns], in the order of the dictionary. *)
Definition hazard_patterns : list (string * list regex) :=
  [ ("tsunami",
      [ word_group ["tsunami"; "tidal wave"; "seismic wave"];
        Cat (word_group ["wave height"; "wave size"])
            (Cat DotStar (word_group ["high"; "large"; "big"; "massive"]));
        Cat WordBoundary
            (Cat (alts ["earthquake"; "seismic"])
                 (Cat DotStar (word_group ["ocean"; "sea"; "coastal"]))) ]);
    ("storm_surge",
      [ word_group ["storm surge"; "storm tide"];
        word_group ["coastal flooding"; "shore flooding"];
        Cat WordBoundary
            (Cat (alts ["water level"; "sea level"])
                 (Cat DotStar
                      (word_group ["rising"; "increasing"; "high"]))) ]);
    ("high_waves",
      [ word_group ["high waves"; "big waves"; "rough seas"];
        Cat WordBoundary
            (Cat (alts ["wave height"; "wave size"])
                 (Cat DotStar (word_group ["high"; "large"; "big"])));
        Cat WordBoundary
            (Cat (alts ["dangerous"; "hazardous"])
                 (Cat DotStar (word_group ["waves"; "seas"]))) ]);
    ("flooding",
      [ word_group ["flood"; "flooding"; "inundation"];
        word_group ["water level"; "water rising"];
        word_group ["submerged"; "underwater"; "waterlogged"] ]);
    ("coastal_current",
      [ word_group ["current"; "rip current"; "undertow"];
        word_group ["strong current"; "dangerous current"];
        Cat WordBoundary
            (Cat (alts ["swimming"; "drowning"])
                 (Cat DotStar (word_group ["current"; "undertow"]))) ]) ].

Definition positive_keywords : list string :=
  ["safe"; "calm"; "normal"; "peaceful"; "clear"].
Definition negative_keywords : list string :=
  ["dangerous"; "hazardous"; "risky"; "threatening"; "alarming"].
Definition urgency_keywords : list string :=
  ["urgent"; "immediate"; "emergency"; "critical"; "warning"].

(** [list(set(xs))]: the distinct elements of [xs].  Python leaves the
    order of a set unspecified; only membership is used below. *)
Definition list_of_set (xs : list string) : list string :=
  nodup string_dec xs.

(** The first loop of [extract_hazard_keywords]: one [append] for every
    pattern that finds something. *)
Fixpoint tags_of_patterns (hazard_type : string) (patterns : list regex)
    (text : string) (acc : list string) : list string :=
  match patterns with
  | [] => acc
  | pattern :: rest =>
      tags_of_patterns hazard_type rest text
        (if search pattern text then acc ++ [hazard_type] else acc)
  end.

Fixpoint tags_of_groups (groups : list (string * list regex))
    (text : string) (acc : list string) : list string :=
  match groups with
  | [] => acc
  | (hazard_type, patterns) :: rest =>
      tags_of_groups rest text (tags_of_patterns hazard_type patterns text acc)
  end.

Fixpoint tags_of_general (keywords : list string) (text : string)
    (acc : list string) : list string :=
  match keywords with
  | [] => acc
  | keyword :: rest =>
      tags_of_general rest text
        (if contains keyword (lower text)
         then acc ++ ["general_hazard"] else acc)
  end.

Definition extract_hazard_keywords (text : string) : list string :=
  let acc := tags_of_groups hazard_patterns text [] in
  let acc := tags_of_general (table_get "general" hazard_keywords) text acc in
  list_of_set acc.

(** The pattern loop of [calculate_hazard_probability].  The [break]
    leaves the inner loop only. *)
Fixpoint pattern_loop_inner (patterns : list regex) (text : string)
    (probability : float) : float :=
  match patterns with
  | [] => probability
  | pattern :: rest =>
      if search pattern text
      then (probability + 0.2)%float          (* break *)
      else pattern_loop_inner rest text probability
  end.

Fixpoint pattern_loop (groups : list (string * list regex)) (text : string)
    (probability : float) : float :=
  match groups with
  | [] => probability
  | (_, patterns) :: rest =>
      pattern_loop rest text (pattern_loop_inner patterns text probability)
  end.

(** [sum(1 for keyword in keywords if keyword in text.lower())] *)
Fixpoint count_keywords (keywords : list string) (text : string) : nat :=
  match keywords with
  | [] => 0
  | keyword :: rest =>
      (if contains keyword (lower text) then 1 else 0)
      + count_keywords rest text
  end.

(** *** Vocabulary for the properties of the pattern loop *)

(** Some pattern of the group finds something in the text. *)
Definition group_matches (text : string) (group : string * list regex)
  : bool :=
  existsb (fun pattern => search pattern text) (snd group).

(** The number of hazard types with a pattern that matches. *)
Definition matching_groups (groups : list (string * list regex))
    (text : string) : nat :=
  List.length (filter (group_matches text) groups).

Definition add_bonus (probability : float) : float :=
  (probability + 0.2)%float.

(** The pattern step as the specification words it: one bonus if any
    pattern of any hazard type matches. *)
Definition pattern_bonus_once (groups : list (string * list regex))
    (text : string) (probability : float) : float :=
  if existsb (group_matches text) groups then add_bonus probability
  else probability.

(** The probability as a function of what the text contributes: whether
    there is a keyword tag, how many hazard types match, how many urgency
    words occur and whether the sentiment is negative. *)
Definition probability_of (tagged : bool) (groups urgency : nat)
    (negative : bool) : float :=
  let probability := 0.0%float in
  let probability :=
    if tagged then (probability + 0.3)%float else probability in
  let probability := Nat.iter groups add_bonus probability in
  let probability :=
    (probability + py_min (float_of_nat urgency * 0.1) 0.3)%float in
  let probability :=
    if negative then (probability + 0.2)%float else probability in
  py_min probability 1.0%float.

(** [lo <= x <= hi] on floats. *)
Definition between (lo hi x : float) : bool :=
  PrimFloat.leb lo x && PrimFloat.leb x hi.

Section WithSentimentAnalyzer.

(** [self.processor.sentiment_analyzer.polarity_scores(text)['compound']]
    of the vaderSentiment package, which is not part of the repository. *)
Variable polarity_compound : string -> float.

Definition calculate_sentiment (text : string) : float :=
  if is_empty text then 0.0%float
  else polarity_compound text.

Definition calculate_hazard_probability (text : string)
    (hazard_keywords : list string) : float :=
  if is_empty text then 0.0%float
  else
    let probability := 0.0%float in
    let probability :=
      match hazard_keywords with
      | [] => probability
      | _ :: _ => (probability + 0.3)%float
      end in
    let probability := pattern_loop hazard_patterns text probability in
    let urgency_count := count_keywords urgency_keywords text in
    let probability :=
      (probability + py_min (float_of_nat urgency_count * 0.1) 0.3)%float in
    let sentiment := calculate_sentiment text in
    let probability :=
      if PrimFloat.ltb sentiment (-0.1)%float
      then (probability + 0.2)%float
      else probability in
    py_min probability 1.0%float.

End WithSentimentAnalyzer.

End Processors.


(* ================================================================== *)
(** * Python control flow: exceptions over a mutable world *)

Module Py.

(** What pydantic reports about a field of a model: the object has no
    such attribute and the field has no default, or the attribute's value
    is not accepted by the field's annotation. *)
Inductive problem : Type :=
| Missing
| Invalid.

(** The exceptions that the modelled code can meet. *)
Inductive exn : Type :=
| NameError (name : string)
| ValueError (msg : string)
| HTTPException (status_code : nat) (detail : string)
| ConnectionError (service : string)
| ValidationError (model : string) (errors : list (string * problem))
| PermissionError (filename : string).

Inductive outcome (A : Type) : Type :=
| Return (a : A)
| Raise (e : exn).
Arguments Return {A} a.
Arguments Raise {A} e.

(** A statement runs in a world [W] and either returns or raises. *)
Definition M (W A : Type) : Type := W -> outcome A * W.

Definition ret {W A} (a : A) : M W A := fun w => (Return a, w).

Definition bind {W A B} (m : M W A) (k : A -> M W B) : M W B :=
  fun w =>
    match m w with
    | (Return a, w') => k a w'
    | (Raise e, w') => (Raise e, w')
    end.

Definition raise {W A} (e : exn) : M W A := fun w => (Raise e, w).

Definition get {W} : M W W := fun w => (Return w, w).

Definition modify {W} (f : W -> W) : M W unit := fun w => (Return tt, f w).

(** [try: body  except Exception as e: handler(e)] *)
Definition try_except {W A} (body : M W A) (handler : exn -> M W A)
  : M W A :=
  fun w =>
    match body w with
    | (Return a, w') => (Return a, w')
    | (Raise e, w') => handler e w'
    end.

(** [try: body  finally: cleanup] *)
Definition try_finally {W A} (body : M W A) (cleanup : M W unit) : M W A :=
  fun w =>
    match body w with
    | (r, w') =>
        match cleanup w' with
        | (Return _, w'') => (r, w'')
        | (Raise e, w'') => (Raise e, w'')
        end
    end.

(** [for x in xs: body(x)] *)
Fixpoint for_each {W A} (xs : list A) (body : A -> M W unit) : M W unit :=
  match xs with
  | [] => ret tt
  | x :: rest => bind (body x) (fun _ => for_each rest body)
  end.

Definition run {W A} (m : M W A) (w : W) : W := snd (m w).
Definition value {W A} (m : M W A) (w : W) : outcome A := fst (m w).

Module Notations.
Notation "x <- m ;; k" := (bind m (fun x => k))
  (at level 61, m at next level, right associativity).
Notation "m ;;; k" := (bind m (fun _ => k))
  (at level 61, right associativity).
End Notations.

End Py.

(* ================================================================== *)
(** * The rows of the database (models.py of both services) and the world *)

Module Models.

(** [datetime] values, in microseconds. *)
Definition datetime : Type := Z.

(** [timedelta(hours=h)] *)
Definition hours (h : Z) : Z := (h * 3600000000)%Z.

Record User : Type := mkUser {
  user_id_of : nat;                       (* id *)
  username : string;
  email : string;
  role : string;
  language : string;
  (** Not a column of the table: [_send_notifications] looks the
      attribute up with [hasattr]; [None] when it is missing or null. *)
  phone_number : option string
}.

Record HazardReport : Type := mkHazardReport {
  report_id : nat;                        (* id *)
  report_user_id : nat;
  report_title : string;
  description : string;
  hazard_type : string;
  severity : string;
  location : float * float;               (* POINT(longitude latitude) *)
  h3_index : option string;
  media_urls : list string;
  is_verified : bool;
  verified_by : option nat;
  verified_at : option datetime;
  report_created_at : datetime;
  report_updated_at : datetime
}.

Record SocialMediaPost : Type := mkSocialMediaPost {
  row_id : nat;                           (* id *)
  platform : string;
  post_id : string;
  content : string;
  author : option string;
  post_location : option (float * float);
  post_hazard_keywords : list string;
  sentiment_score : float;
  hazard_probability : float;
  engagement_metrics : list (string * Z);
  post_created_at : datetime;
  processed_at : datetime
}.

Record Alert : Type := mkAlert {
  alert_id_of : nat;                      (* id *)
  alert_type : string;
  title : string;
  message : string;
  affected_area : option string;
  alert_severity : string;
  source : string;
  is_active : bool;
  created_at : datetime;
  expires_at : option datetime
}.

Record UserAlert : Type := mkUserAlert {
  ua_id : nat;                            (* id *)
  ua_user_id : nat;
  ua_alert_id : nat;
  is_read : bool
}.

(** Values sent through [json.dumps]. *)
Inductive json : Type :=
| JStr (s : string)
| JInt (n : Z)
| JFloat (x : float)
| JTime (t : datetime)
| JNull.

(** The database, the Redis channel, the clock, the console and the
    directory of uploaded files.  Every table has its own sequence of
    identifiers. *)
Record World : Type := mkWorld {
  users : list User;
  hazard_reports : list HazardReport;
  social_media_posts : list SocialMediaPost;
  alerts : list Alert;
  user_alerts : list UserAlert;
  next_report_id : nat;
  next_post_id : nat;
  next_alert_id : nat;
  next_user_alert_id : nat;
  published : list (string * list (string * json));
  ticks : nat;                             (* clock readings taken so far *)
  stdout : list string;
  uploads : list (string * string)         (* files written: path, bytes *)
}.

Definition with_hazard_reports (f : list HazardReport -> list HazardReport)
    (n : nat) (w : World) : World :=
  mkWorld (users w) (f (hazard_reports w)) (social_media_posts w) (alerts w)
    (user_alerts w) n (next_post_id w) (next_alert_id w)
    (next_user_alert_id w) (published w) (ticks w) (stdout w)
    (uploads w).

Definition with_social_media_posts
    (f : list SocialMediaPost -> list SocialMediaPost) (n : nat) (w : World)
  : World :=
  mkWorld (users w) (hazard_reports w) (f (social_media_posts w)) (alerts w)
    (user_alerts w) (next_report_id w) n (next_alert_id w)
    (next_user_alert_id w) (published w) (ticks w) (stdout w)
    (uploads w).

Definition with_alerts (f : list Alert -> list Alert) (n : nat) (w : World)
  : World :=
  mkWorld (users w) (hazard_reports w) (social_media_posts w) (f (alerts w))
    (user_alerts w) (next_report_id w) (next_post_id w) n
    (next_user_alert_id w) (published w) (ticks w) (stdout w)
    (uploads w).

Definition with_user_alerts (f : list UserAlert -> list UserAlert) (n : nat)
    (w : World) : World :=
  mkWorld (users w) (hazard_reports w) (social_media_posts w) (alerts w)
    (f (user_alerts w)) (next_report_id w) (next_post_id w)
    (next_alert_id w) n (published w) (ticks w) (stdout w)
    (uploads w).

Definition with_published (m : string * list (string * json)) (w : World)
  : World :=
  mkWorld (users w) (hazard_reports w) (social_media_posts w) (alerts w)
    (user_alerts w) (next_report_id w) (next_post_id w) (next_alert_id w)
    (next_user_alert_id w) (published w ++ [m]) (ticks w) (stdout w)
    (uploads w).

Definition with_tick (w : World) : World :=
  mkWorld (users w) (hazard_reports w) (social_media_posts w) (alerts w)
    (user_alerts w) (next_report_id w) (next_post_id w) (next_alert_id w)
    (next_user_alert_id w) (published w) (S (ticks w)) (stdout w)
    (uploads w).

Definition with_stdout (line : string) (w : World) : World :=
  mkWorld (users w) (hazard_reports w) (social_media_posts w) (alerts w)
    (user_alerts w) (next_report_id w) (next_post_id w) (next_alert_id w)
    (next_user_alert_id w) (published w) (ticks w) (stdout w ++ [line])
    (uploads w).

(** [print] of several lines in a row. *)
Definition with_lines (lines : list string) (w : World) : World :=
  fold_left (fun w line => with_stdout line w) lines w.

(** [open(path, "wb")] followed by [write(content)]: the file is created,
    or an older file of that name is replaced. *)
Definition with_upload (path content : string) (w : World) : World :=
  mkWorld (users w) (hazard_reports w) (social_media_posts w) (alerts w)
    (user_alerts w) (next_report_id w) (next_post_id w) (next_alert_id w)
    (next_user_alert_id w) (published w) (ticks w) (stdout w)
    (filter (fun entry => negb (String.eqb (fst entry) path)) (uploads w)
       ++ [(path, content)]).

Definition empty_world : World :=
  mkWorld [] [] [] [] [] 1 1 1 1 [] 0 [] [].

Section Effects.
Import Py.

(** The readings of the system clock, in the order they are taken. *)
Variable clock : nat -> datetime.
(** Whether the Redis server answers. *)
Variable redis_up : bool.

(** [datetime.utcnow()] *)
Definition utcnow : M World datetime :=
  fun w => (Return (clock (ticks w)), with_tick w).

(** [print(line)] *)
Definition print (line : string) : M World unit :=
  modify (with_stdout line).

(** [redis_client.publish(channel, json.dumps(payload))] *)
Definition redis_publish (channel : string)
    (payload : list (string * json)) : M World unit :=
  if redis_up then modify (with_published (channel, payload))
  else raise (ConnectionError "redis").

End Effects.

(** The first line of the text of a [ValidationError]. *)
Definition validation_title (model : string) (n : nat) : string :=
  (NilEmpty.string_of_uint (Nat.to_uint n)
   ++ (if Nat.eqb n 1 then " validation error for "
       else " validation errors for ")
   ++ model)%string.

(** The text of an exception in a log line. *)
Definition exn_text (e : Py.exn) : string :=
  match e with
  | Py.NameError name => "name '" ++ name ++ "' is not defined"
  | Py.ValueError msg => msg
  | Py.HTTPException _ detail => detail
  | Py.ConnectionError service => "Error connecting to " ++ service
  | Py.ValidationError model errors =>
      validation_title model (List.length errors)
  | Py.PermissionError filename =>
      "[Errno 13] Permission denied: '" ++ filename ++ "'"
  end%string.

End Models.

(* ================================================================== *)
(** * nlp-engine/main.py *)

Module NlpMain.
Import PyText Processors Py Py.Notations Models.

(** A post as the collectors hand it over ([post_data]); the optional
    keys are read with [dict.get]. *)
Record PostData : Type := mkPostData {
  pd_platform : string;
  pd_post_id : string;
  pd_content : string;
  pd_author : option string;
  pd_location : option (float * float);
  pd_engagement_metrics : option (list (string * Z))
}.

(** The answer of the [/analyze/text] endpoint. *)
Record TextAnalysis : Type := mkTextAnalysis {
  ta_text : string;
  ta_processed_text : string;
  ta_hazard_keywords : list string;
  ta_sentiment_score : float;
  ta_hazard_probability : float;
  ta_is_hazard_related : bool
}.

(** [query(SocialMediaPost).filter(platform == p, post_id == i).first()] *)
Definition same_post (p i : string) (row : SocialMediaPost) : bool :=
  String.eqb (platform row) p && String.eqb (post_id row) i.

Definition existing_post (p i : string) (w : World)
  : option SocialMediaPost :=
  find (same_post p i) (social_media_posts w).

Section WithServices.

Variable polarity_compound : string -> float.
Variable clock : nat -> datetime.
Variable redis_up : bool.

Definition analyze_text (text : string) : TextAnalysis :=
  let processed_text := preprocess_text text in
  let hazard_keywords := extract_hazard_keywords processed_text in
  let sentiment_score :=
    calculate_sentiment polarity_compound processed_text in
  let hazard_probability :=
    calculate_hazard_probability polarity_compound processed_text
      hazard_keywords in
  mkTextAnalysis text processed_text hazard_keywords sentiment_score
    hazard_probability (PrimFloat.ltb 0.5 hazard_probability).

(** [db.add(social_post); db.commit()]: the row gets the next
    identifier and the two column defaults read the clock. *)
Definition add_social_post (post_data : PostData)
    (hazard_keywords : list string) (sentiment_score : float)
    (hazard_probability : float) : M World unit :=
  created <- utcnow clock ;;
  processed <- utcnow clock ;;
  modify (fun w =>
    with_social_media_posts
      (fun rows =>
         rows ++ [mkSocialMediaPost (next_post_id w)
                    (pd_platform post_data) (pd_post_id post_data)
                    (pd_content post_data) (pd_author post_data)
                    (pd_location post_data) hazard_keywords
                    sentiment_score hazard_probability
                    (match pd_engagement_metrics post_data with
                     | Some m => m
                     | None => []
                     end)
                    created processed])
      (S (next_post_id w)) w).

Definition process_single_post (post_data : PostData) : M World unit :=
  try_finally
    (try_except
       (w <- get ;;
        match existing_post (pd_platform post_data)
                            (pd_post_id post_data) w with
        | Some _ => ret tt
        | None =>
            let processed_text :=
              preprocess_text (pd_content post_data) in
            let hazard_keywords :=
              extract_hazard_keywords processed_text in
            let sentiment_score :=
              calculate_sentiment polarity_compound processed_text in
            let hazard_probability :=
              calculate_hazard_probability polarity_compound
                processed_text hazard_keywords in
            (* Only store posts with some hazard relevance *)
            if PrimFloat.ltb 0.2 hazard_probability then
              add_social_post post_data hazard_keywords sentiment_score
                hazard_probability ;;;
              now <- utcnow clock ;;
              redis_publish redis_up "new_social_post"
                [ ("platform", JStr (pd_platform post_data));
                  ("content",
                    JStr (String.substring 0 100 (pd_content post_data)
                          ++ "...")%string);
                  ("hazard_probability", JFloat hazard_probability);
                  ("sentiment_score", JFloat sentiment_score);
                  ("created_at", JTime now) ]
            else ret tt
        end)
       (fun e => print ("Error processing post: " ++ exn_text e)%string))
    (ret tt)                                         (* db.close() *).

(** The loop of [collect_and_process_social_media] over the posts that
    the collectors returned. *)
Definition process_posts (all_posts : list PostData) : M World unit :=
  for_each all_posts process_single_post.

End WithServices.

(** *** Vocabulary for the properties of ingestion *)

(** Stored rows with a given identity. *)
Definition stored (p i : string) (w : World) : list SocialMediaPost :=
  filter (same_post p i) (social_media_posts w).

Definition post_text (post_data : PostData) : string :=
  preprocess_text (pd_content post_data).

Definition post_keywords (post_data : PostData) : list string :=
  extract_hazard_keywords (post_text post_data).

Definition post_sentiment (polarity : string -> float)
    (post_data : PostData) : float :=
  calculate_sentiment polarity (post_text post_data).

(** The hazard probability that [process_single_post] computes. *)
Definition post_probability (polarity : string -> float)
    (post_data : PostData) : float :=
  calculate_hazard_probability polarity (post_text post_data)
    (post_keywords post_data).

(** The test [hazard_probability > 0.2]. *)
Definition above_threshold (polarity : string -> float)
    (post_data : PostData) : bool :=
  PrimFloat.ltb 0.2 (post_probability polarity post_data).

(** The row that a post is stored as in world [w]. *)
Definition signal_of (polarity : string -> float) (clock : nat -> datetime)
    (w : World) (post_data : PostData) : SocialMediaPost :=
  mkSocialMediaPost (next_post_id w) (pd_platform post_data)
    (pd_post_id post_data) (pd_content post_data) (pd_author post_data)
    (pd_location post_data) (post_keywords post_data)
    (post_sentiment polarity post_data)
    (post_probability polarity post_data)
    (match pd_engagement_metrics post_data with
     | Some m => m
     | None => []
     end)
    (clock (ticks w)) (clock (S (ticks w))).

End NlpMain.


(* ================================================================== *)
(** * backend/alert_service.py *)

Module AlertService.
Import PyText Py Py.Notations Models.

(** [str(n)] *)
Definition str_of_nat (n : nat) : string :=
  NilEmpty.string_of_uint (Nat.to_uint n).

Definition upper_char (c : ascii) : ascii :=
  if is_lower c then ascii_of_nat (code c - 32) else c.

(** [str.title] *)
Fixpoint title_from (after_letter : bool) (s : string) : string :=
  match s with
  | EmptyString => EmptyString
  | String c s' =>
      let letter := is_upper c || is_lower c in
      String (if after_letter then lower_char c else upper_char c)
             (title_from letter s')
  end.

Definition str_title (s : string) : string := title_from false s.

(** The names bound at the top level of alert_service.py: its imports,
    its class and its two functions. *)
Definition module_names : list string :=
  [ "asyncio"; "json"; "datetime"; "timedelta"; "List"; "Dict"; "Any";
    "Optional"; "Session"; "text"; "redis"; "Client"; "smtplib";
    "MIMEText"; "MIMEMultipart"; "get_db"; "Alert"; "User"; "HazardReport";
    "UserAlert"; "AlertResponse"; "AlertService"; "periodic_alert_cleanup";
    "process_report_alerts" ].

(** Reading a name that the function does not bind: it is looked up in
    the module (no builtin is called [db]) and raises [NameError] when
    the module does not bind it either. *)
Definition load_global (names : list string) (name : string)
  : M World unit :=
  if existsb (String.eqb name) names then ret tt
  else raise (NameError name).

Record Template : Type := mkTemplate {
  tpl_title : string;
  tpl_message : string;
  tpl_priority : string
}.

(** [self.alert_templates] *)
Definition alert_templates : list (string * Template) :=
  [ ("tsunami",
      mkTemplate "Tsunami Alert"
        "A tsunami alert has been issued for your area. Please move to higher ground immediately."
        "critical");
    ("storm_surge",
      mkTemplate "Storm Surge Warning"
        "Storm surge conditions are expected. Avoid coastal areas and follow evacuation orders."
        "high");
    ("high_waves",
      mkTemplate "High Wave Warning"
        "Dangerous wave conditions are expected. Stay away from beaches and coastal areas."
        "medium");
    ("flooding",
      mkTemplate "Coastal Flooding Alert"
        "Coastal flooding is expected. Avoid low-lying areas and follow local authorities."
        "high") ].

(** [self.alert_templates.get(hazard_type, default)] *)
Definition template_for (hazard_type : string) : Template :=
  match find (fun kv => String.eqb (fst kv) hazard_type) alert_templates with
  | Some kv => snd kv
  | None =>
      mkTemplate (str_title hazard_type ++ " Alert")
        ("A " ++ hazard_type ++ " has been reported in your area.")
        "medium"
  end%string.

Inductive channel : Type := Email | SMS | Push.

(** [hasattr(user, 'phone_number') and user.phone_number] *)
Definition has_phone (user : User) : bool :=
  match phone_number user with
  | Some number => negb (is_empty number)
  | None => false
  end.

Definition phone_text (user : User) : string :=
  match phone_number user with Some number => number | None => "None" end.

(** The lines that the three channels print. *)
Definition email_line (user : User) (alert : Alert) : string :=
  ("Sending email alert to " ++ email user ++ ": " ++ title alert)%string.
Definition sms_line (user : User) (alert : Alert) : string :=
  ("Sending SMS alert to " ++ phone_text user ++ ": " ++ title alert)%string.
Definition push_line (user : User) (alert : Alert) : string :=
  ("Sending push notification to user " ++ str_of_nat (user_id_of user)
     ++ ": " ++ title alert)%string.

Definition email_error_line (user : User) (e : exn) : string :=
  ("Error sending email to " ++ email user ++ ": " ++ exn_text e)%string.
Definition sms_error_line (user : User) (e : exn) : string :=
  ("Error sending SMS to " ++ phone_text user ++ ": " ++ exn_text e)%string.
Definition push_error_line (user : User) (e : exn) : string :=
  ("Error sending push notification to user "
     ++ str_of_nat (user_id_of user) ++ ": " ++ exn_text e)%string.

Definition service_name (c : channel) : string :=
  match c with
  | Email => "email_service"
  | SMS => "sms_service"
  | Push => "push_service"
  end.

Section WithServices.

Variable clock : nat -> datetime.
Variable redis_up : bool.
(** Whether the delivery service of a channel accepts a message for a
    user.  In the source the call of the service is a placeholder
    comment inside the [try] of each channel. *)
Variable channel_up : channel -> User -> bool.

Definition deliver (c : channel) (user : User) : M World unit :=
  if channel_up c user then ret tt
  else raise (ConnectionError (service_name c)).

Definition _send_email_notification (user : User) (alert : Alert)
  : M World unit :=
  try_except
    (print (email_line user alert) ;;; deliver Email user)
    (fun e => print (email_error_line user e)).

Definition _send_sms_notification (user : User) (alert : Alert)
  : M World unit :=
  try_except
    (print (sms_line user alert) ;;; deliver SMS user)
    (fun e => print (sms_error_line user e)).

Definition _send_push_notification (user : User) (alert : Alert)
  : M World unit :=
  try_except
    (print (push_line user alert) ;;; deliver Push user)
    (fun e => print (push_error_line user e)).

Definition _send_notifications (alert : Alert) (users : list User)
  : M World unit :=
  for_each users (fun user =>
    try_except
      (_send_email_notification user alert ;;;
       (if has_phone user then _send_sms_notification user alert
        else ret tt) ;;;
       _send_push_notification user alert)
      (fun e =>
         print ("Error sending notification to user "
                  ++ str_of_nat (user_id_of user) ++ ": "
                  ++ exn_text e)%string)).

(** [db.add(user_alert)] for every user, then [db.commit()] *)
Fixpoint add_user_alerts (us : list User) (alert : Alert) (w : World)
  : World :=
  match us with
  | [] => w
  | user :: rest =>
      add_user_alerts rest alert
        (with_user_alerts
           (fun rows =>
              rows ++ [mkUserAlert (next_user_alert_id w)
                         (user_id_of user) (alert_id_of alert) false])
           (S (next_user_alert_id w)) w)
  end.

Definition _notify_users (alert : Alert) : M World unit :=
  try_except
    (w <- get ;;
     let us := users w in
     modify (add_user_alerts us alert) ;;;
     _send_notifications alert us)
    (fun e => print ("Error notifying users: " ++ exn_text e)%string).

Definition _publish_alert (alert : Alert) : M World unit :=
  try_except
    (redis_publish redis_up "new_alert"
       [ ("id", JInt (Z.of_nat (alert_id_of alert)));
         ("alert_type", JStr (alert_type alert));
         ("title", JStr (title alert));
         ("message", JStr (message alert));
         ("severity", JStr (alert_severity alert));
         ("source", JStr (source alert));
         ("created_at", JTime (created_at alert));
         ("expires_at",
           match expires_at alert with
           | Some t => JTime t
           | None => JNull
           end) ])
    (fun e =>
       print ("Error publishing alert to Redis: " ++ exn_text e)%string).

(** The row that [create_alert] builds in world [w]. *)
Definition new_alert (w : World) (alert_type title message
    severity : string) (affected_area : option string) (source : string)
  : Alert :=
  mkAlert (next_alert_id w) alert_type title message affected_area
    severity source true (clock (ticks w))
    (Some (clock (S (ticks w)) + hours 24)%Z).

(** The clock is read once for [created_at] and once more for
    [expires_at]. *)
Definition create_alert (alert_type title message severity : string)
    (affected_area : option string) (source : string) : M World Alert :=
  try_finally
    (try_except
       (t_created <- utcnow clock ;;
        t_expires <- utcnow clock ;;
        w <- get ;;
        let alert :=
          mkAlert (next_alert_id w) alert_type title message
            affected_area severity source true t_created
            (Some (t_expires + hours 24)%Z) in
        modify (with_alerts (fun rows => rows ++ [alert])
                  (S (next_alert_id w))) ;;;
        _notify_users alert ;;;
        _publish_alert alert ;;;
        ret alert)
       (fun e => raise e))                    (* db.rollback(); raise e *)
    (ret tt)                                  (* db.close() *).

(** [query(UserAlert).filter(user_id == u, alert_id == a)] *)
Definition same_user_alert (u a : nat) (row : UserAlert) : bool :=
  (ua_user_id row =? u) && (ua_alert_id row =? a).

(** [user_alert.is_read = True] on the row that [first()] returned. *)
Fixpoint read_first (u a : nat) (rows : list UserAlert)
  : list UserAlert :=
  match rows with
  | [] => []
  | row :: rest =>
      if same_user_alert u a row
      then mkUserAlert (ua_id row) (ua_user_id row) (ua_alert_id row) true
           :: rest
      else row :: read_first u a rest
  end.

Definition mark_alert_read (user_id alert_id : nat) : M World unit :=
  try_finally
    (try_except
       (w <- get ;;
        match find (same_user_alert user_id alert_id) (user_alerts w) with
        | Some _ =>
            modify (fun w =>
              with_user_alerts (read_first user_id alert_id)
                (next_user_alert_id w) w)
        | None => ret tt
        end)
       (fun e =>
          print ("Error marking alert as read: " ++ exn_text e)%string))
    (ret tt).

(** *** Vocabulary for the properties of read receipts and fanout *)

(** A row after [user_alert.is_read = True]. *)
Definition mark_read_row (row : UserAlert) : UserAlert :=
  mkUserAlert (ua_id row) (ua_user_id row) (ua_alert_id row) true.

(** What one user's round of [_send_notifications] prints: the line of
    every channel that is tried and, after it, the line of its failure. *)
Definition channel_error (c : channel) : exn :=
  ConnectionError (service_name c).

Definition user_lines (alert : Alert) (user : User) : list string :=
  [email_line user alert]
  ++ (if channel_up Email user then []
      else [email_error_line user (channel_error Email)])
  ++ (if has_phone user
      then [sms_line user alert]
           ++ (if channel_up SMS user then []
               else [sms_error_line user (channel_error SMS)])
      else [])
  ++ [push_line user alert]
  ++ (if channel_up Push user then []
      else [push_error_line user (channel_error Push)]).

(** The filter of the suppression query. *)
Definition similar_alert (hazard_type : string) (now : datetime)
    (row : Alert) : bool :=
  String.eqb (alert_type row) hazard_type
  && is_active row
  && (now - hours 1 <=? created_at row)%Z.

(** The body reads [db], a name that the method never binds. *)
Definition generate_alert_from_report (report : HazardReport)
  : M World (option Alert) :=
  try_except
    (if negb (existsb (String.eqb (severity report)) ["high"; "critical"])
     then ret None
     else
       load_global module_names "db" ;;;
       now <- utcnow clock ;;
       w <- get ;;
       match find (similar_alert (hazard_type report) now) (alerts w) with
       | Some existing_alert => ret (Some existing_alert)
       | None =>
           let template := template_for (hazard_type report) in
           alert <- create_alert (hazard_type report)
                      (tpl_title template)
                      (tpl_message template ++ " Location: "
                         ++ report_title report)%string
                      (severity report) None "crowdsourced" ;;
           ret (Some alert)
       end)
    (fun e =>
       print ("Error generating alert from report: " ++ exn_text e)%string
       ;;; ret None).

(** [alert.is_active = False] on the rows of the sweep's query. *)
Definition expired (now : datetime) (row : Alert) : bool :=
  match expires_at row with
  | Some t => (t <? now)%Z && is_active row
  | None => false
  end.

Definition deactivate (row : Alert) : Alert :=
  mkAlert (alert_id_of row) (alert_type row) (title row) (message row)
    (affected_area row) (alert_severity row) (source row) false
    (created_at row) (expires_at row).

Definition cleanup_expired_alerts : M World unit :=
  try_finally
    (try_except
       (now <- utcnow clock ;;
        w <- get ;;
        let expired_alerts := filter (expired now) (alerts w) in
        modify (with_alerts
                  (map (fun row =>
                          if expired now row then deactivate row else row))
                  (next_alert_id w)) ;;;
        print ("Deactivated " ++ str_of_nat (List.length expired_alerts)
                 ++ " expired alerts")%string)
       (fun e =>
          print ("Error cleaning up expired alerts: "
                   ++ exn_text e)%string))
    (ret tt).

(** [process_report_alerts]: the verified high and critical reports of
    the last hour, each handed to [generate_alert_from_report]. *)
Definition recent_report (now : datetime) (r : HazardReport) : bool :=
  existsb (String.eqb (severity r)) ["high"; "critical"]
  && (now - hours 1 <=? report_created_at r)%Z
  && is_verified r.

Definition process_report_alerts : M World unit :=
  try_finally
    (try_except
       (now <- utcnow clock ;;
        w <- get ;;
        for_each (filter (recent_report now) (hazard_reports w))
          (fun report => generate_alert_from_report report ;;; ret tt))
       (fun e =>
          print ("Error processing report alerts: " ++ exn_text e)%string))
    (ret tt).

End WithServices.

End AlertService.

(* ================================================================== *)
(** * backend/incois_integration.py *)

Module Incois.
Import PyText Py Py.Notations Models.

(** The names bound at the top level of incois_integration.py. *)
Definition module_names : list string :=
  [ "httpx"; "asyncio"; "datetime"; "timedelta"; "List"; "Dict"; "Any";
    "Optional"; "Session"; "text"; "json"; "os"; "load_dotenv"; "get_db";
    "Alert"; "User"; "HazardReport"; "AlertResponse"; "INCOISIntegration";
    "AlertProcessor"; "periodic_incois_sync"; "get_incois_alerts";
    "trigger_incois_sync"; "get_alert_summary" ].

(** One item of the list that [fetch_incois_alerts] returns. *)
Record AlertData : Type := mkAlertData {
  ad_alert_type : string;
  ad_title : string;
  ad_message : string;
  ad_severity : string;
  ad_source : string;
  ad_affected_area : option string;
  ad_created_at : datetime;
  ad_expires_at : datetime
}.

Definition severity_mapping : list (string * string) :=
  [ ("low", "low"); ("moderate", "medium"); ("high", "high");
    ("severe", "critical"); ("extreme", "critical") ].

Definition _map_severity (incois_severity : string) : string :=
  match find (fun kv => String.eqb (fst kv) (lower incois_severity))
             severity_mapping with
  | Some kv => snd kv
  | None => "medium"
  end.

Definition _calculate_expiry (now : datetime) (duration_hours : Z)
  : datetime :=
  (now + hours duration_hours)%Z.

(** The filter of the duplicate check of [store_alerts]. *)
Definition same_feed_alert (alert_data : AlertData) (row : Alert) : bool :=
  String.eqb (alert_type row) (ad_alert_type alert_data)
  && String.eqb (title row) (ad_title alert_data)
  && String.eqb (source row) "incois".

Definition _send_push_notifications (alert : Alert) (us : list User)
  : M World unit :=
  print ("Sending alert notification to "
           ++ AlertService.str_of_nat (List.length us) ++ " users: "
           ++ title alert)%string.

(** The loop builds [UserAlert] rows, a class this module never imports. *)
Definition _notify_affected_users (alert : Alert) : M World unit :=
  try_except
    (w <- get ;;
     let us := users w in
     for_each us (fun user =>
       AlertService.load_global module_names "UserAlert" ;;;
       modify (fun w =>
         with_user_alerts
           (fun rows =>
              rows ++ [mkUserAlert (next_user_alert_id w)
                         (user_id_of user) (alert_id_of alert) false])
           (S (next_user_alert_id w)) w)) ;;;
     _send_push_notifications alert us)
    (fun e => print ("Error notifying users: " ++ exn_text e)%string).

Definition store_alerts (feed : list AlertData) : M World unit :=
  for_each feed (fun alert_data =>
    try_except
      (w <- get ;;
       match find (same_feed_alert alert_data) (alerts w) with
       | Some _ => ret tt
       | None =>
           let alert :=
             mkAlert (next_alert_id w) (ad_alert_type alert_data)
               (ad_title alert_data) (ad_message alert_data)
               (ad_affected_area alert_data) (ad_severity alert_data)
               (ad_source alert_data) true (ad_created_at alert_data)
               (Some (ad_expires_at alert_data)) in
           modify (with_alerts (fun rows => rows ++ [alert])
                     (S (next_alert_id w))) ;;;
           _notify_affected_users alert
       end)
      (fun e => print ("Error storing alert: " ++ exn_text e)%string)).

(** ** AlertProcessor *)

(** [d[key] = d.get(key, 0) + 1] on a dictionary, which keeps its keys
    in the order of their first insertion. *)
Fixpoint count_up (key : string) (d : list (string * nat))
  : list (string * nat) :=
  match d with
  | [] => [(key, 1)]
  | (k, n) :: rest =>
      if String.eqb k key then (k, n + 1) :: rest
      else (k, n) :: count_up key rest
  end.

Fixpoint tally (keys : list string) (d : list (string * nat))
  : list (string * nat) :=
  match keys with
  | [] => d
  | key :: rest => tally rest (count_up key d)
  end.

(** [xs.index(x)] *)
Fixpoint index_from (i : nat) (x : string) (xs : list string)
  : outcome nat :=
  match xs with
  | [] => Raise (ValueError ("'" ++ x ++ "' is not in list")%string)
  | y :: rest => if String.eqb y x then Return i else index_from (S i) x rest
  end.

Definition list_index (xs : list string) (x : string) : outcome nat :=
  index_from 0 x xs.

(** The builtin [max(items, key=key)]: the key of every item is computed
    in turn, and the first item with the largest key wins. *)
Fixpoint max_loop {A} (key : A -> outcome nat) (items : list A)
    (maxitem : A) (maxval : nat) : outcome A :=
  match items with
  | [] => Return maxitem
  | item :: rest =>
      match key item with
      | Raise e => Raise e
      | Return val =>
          if maxval <? val then max_loop key rest item val
          else max_loop key rest maxitem maxval
      end
  end.

Definition py_max {A} (key : A -> outcome nat) (items : list A)
  : outcome A :=
  match items with
  | [] => Raise (ValueError "max() arg is an empty sequence")
  | item :: rest =>
      match key item with
      | Raise e => Raise e
      | Return val => max_loop key rest item val
      end
  end.

Definition severity_order : list string :=
  ["low"; "medium"; "high"; "critical"].

(** The dictionary that [generate_alert_summary] returns; the two
    optional entries are absent for an empty list of alerts. *)
Record Summary : Type := mkSummary {
  total_alerts : nat;
  by_severity : list (string * nat);
  by_type : list (string * nat);
  most_common_type : option string;
  highest_severity : option string
}.

Definition generate_alert_summary (alert_rows : list Alert)
  : outcome Summary :=
  match alert_rows with
  | [] => Return (mkSummary 0 [] [] None None)
  | _ :: _ =>
      let by_severity := tally (map alert_severity alert_rows) [] in
      let by_type := tally (map alert_type alert_rows) [] in
      match
        (match by_type with
         | [] => Return None
         | _ :: _ =>
             match py_max (fun kv => Return (snd kv)) by_type with
             | Return kv => Return (Some (fst kv))
             | Raise e => Raise e
             end
         end)
      with
      | Raise e => Raise e
      | Return most_common =>
          match
            (match by_severity with
             | [] => Return None
             | _ :: _ =>
                 match py_max (list_index severity_order)
                              (map fst by_severity) with
                 | Return s => Return (Some s)
                 | Raise e => Raise e
                 end
             end)
          with
          | Raise e => Raise e
          | Return highest =>
              Return (mkSummary (List.length alert_rows) by_severity by_type
                        most_common highest)
          end
      end
  end.

End Incois.

(* ================================================================== *)
(** * backend/schemas.py *)

Module Schemas.
Import Py Py.Notations Models.

(** What an attribute of a row can hold. *)
Inductive value : Type :=
| VNone
| VBool (b : bool)
| VInt (n : Z)
| VFloat (x : float)
| VStr (s : string)
| VTime (t : datetime)
| VStrs (items : list string)
| VPoint (p : float * float).

(** The annotations of the fields of the models. *)
Inductive annotation : Type :=
| TStr
| TInt
| TFloat
| TBool
| TDatetime
| TEnum (members : list string)
| TListStr
| TOptional (t : annotation).

Record field : Type := mkField {
  field_name : string;
  field_type : annotation;
  field_default : option value
}.

(** [class HazardType(str, Enum)] *)
Definition HazardType : list string :=
  [ "tsunami"; "storm_surge"; "high_waves"; "swell_surge";
    "coastal_current"; "flooding"; "abnormal_tide"; "other" ].

(** [class SeverityLevel(str, Enum)] *)
Definition SeverityLevel : list string :=
  [ "low"; "medium"; "high"; "critical" ].

(** [class HazardReportBase(BaseModel)] *)
Definition HazardReportBase : list field :=
  [ mkField "title" TStr None;
    mkField "description" TStr None;
    mkField "hazard_type" (TEnum HazardType) None;
    mkField "severity" (TEnum SeverityLevel) (Some (VStr "medium")) ].

(** [class HazardReportResponse(HazardReportBase)]: the fields of the base
    class come first. *)
Definition HazardReportResponse : list field :=
  HazardReportBase
  ++ [ mkField "id" TInt None;
       mkField "user_id" TInt None;
       mkField "latitude" TFloat None;
       mkField "longitude" TFloat None;
       mkField "media_urls" (TOptional TListStr) (Some (VStrs []));
       mkField "is_verified" TBool None;
       mkField "verified_by" (TOptional TInt) None;
       mkField "verified_at" (TOptional TDatetime) None;
       mkField "created_at" TDatetime None ].

Definition nullable {A} (inject : A -> value) (o : option A) : value :=
  match o with
  | Some a => inject a
  | None => VNone
  end.

(** The columns of a [HazardReport] object of models.py by name, as
    [getattr] finds them.  (The relationships [user] and [verifier] are
    attributes too; no field of a model has their name.) *)
Definition hazard_report_attributes (r : HazardReport)
  : list (string * value) :=
  [ ("id", VInt (Z.of_nat (report_id r)));
    ("user_id", VInt (Z.of_nat (report_user_id r)));
    ("title", VStr (report_title r));
    ("description", VStr (description r));
    ("hazard_type", VStr (hazard_type r));
    ("severity", VStr (severity r));
    ("location", VPoint (location r));
    ("h3_index", nullable VStr (h3_index r));
    ("media_urls", VStrs (media_urls r));
    ("is_verified", VBool (is_verified r));
    ("verified_by", nullable (fun n => VInt (Z.of_nat n)) (verified_by r));
    ("verified_at", nullable VTime (verified_at r));
    ("created_at", VTime (report_created_at r));
    ("updated_at", VTime (report_updated_at r)) ].

(** An instance of a model: its fields with their validated values. *)
Definition instance : Type := list (string * value).

(** [getattr(obj, name)]; [None] stands for the [AttributeError]. *)
Definition getattr (attributes : list (string * value)) (name : string)
  : option value :=
  option_map snd (find (fun kv => String.eqb (fst kv) name) attributes).

(** Whether a string is the value of a member of an enumeration. *)
Definition member (s : string) (members : list string) : bool :=
  existsb (String.eqb s) members.

Definition is_nil {A} (xs : list A) : bool :=
  match xs with
  | [] => true
  | _ => false
  end.

Section WithPydantic.

(** What pydantic makes of a value whose type is not the annotation's (an
    integer read as a float, a numeric string as a number): the converted
    value, or [None] when it reports the value. *)
Variable convert : annotation -> value -> option value.

(** The validation of a value against an annotation.  A value of the
    annotated type is accepted as it is; a string is a member of an
    enumeration of strings when it is the value of one of its members. *)
Fixpoint validate (t : annotation) (v : value) : option value :=
  match t, v with
  | TStr, VStr _ => Some v
  | TInt, VInt _ => Some v
  | TFloat, VFloat _ => Some v
  | TBool, VBool _ => Some v
  | TDatetime, VTime _ => Some v
  | TListStr, VStrs _ => Some v
  | TEnum members, VStr s =>
      if member s members then Some v else None
  | TEnum _, _ => None
  | TOptional _, VNone => Some VNone
  | TOptional t', _ => validate t' v
  | _, _ => convert t v
  end.

(** One field read from the attributes of an object: its value, or what
    is reported about it.  A missing attribute falls back on the default
    of the field. *)
Definition read_field (attributes : list (string * value)) (f : field)
  : value + problem :=
  match getattr attributes (field_name f) with
  | Some v =>
      match validate (field_type f) v with
      | Some v' => inl v'
      | None => inr Invalid
      end
  | None =>
      match field_default f with
      | Some d => inl d
      | None => inr Missing
      end
  end.

(** All fields are read, in their order; the errors are collected. *)
Fixpoint errors_of (fields : list field) (attributes : list (string * value))
  : list (string * problem) :=
  match fields with
  | [] => []
  | f :: rest =>
      match read_field attributes f with
      | inr p => (field_name f, p) :: errors_of rest attributes
      | inl _ => errors_of rest attributes
      end
  end.

Fixpoint values_of (fields : list field) (attributes : list (string * value))
  : instance :=
  match fields with
  | [] => []
  | f :: rest =>
      match read_field attributes f with
      | inl v => (field_name f, v) :: values_of rest attributes
      | inr _ => values_of rest attributes
      end
  end.

(** [Model.from_orm(obj)] of a model whose [Config] has
    [from_attributes = True], the name of the setting in pydantic 2: the
    fields are read from the attributes of the object; the result is the
    instance, or the [ValidationError] with everything that is
    reported. *)
Definition from_orm {W} (model : string) (fields : list field)
    (attributes : list (string * value)) : M W instance :=
  if is_nil (errors_of fields attributes)
  then ret (values_of fields attributes)
  else raise (ValidationError model (errors_of fields attributes)).

End WithPydantic.

End Schemas.

(* ================================================================== *)
(** * backend/main.py *)

Module BackendMain.
Import PyText Py Py.Notations Models.

Definition valid_hazard_types : list string :=
  [ "tsunami"; "storm_surge"; "high_waves"; "swell_surge";
    "coastal_current"; "flooding"; "abnormal_tide"; "other" ].

(** [x in xs] on a list of strings *)
Definition str_in (x : string) (xs : list string) : bool :=
  existsb (String.eqb x) xs.

(** The text of a list of strings inside an f-string. *)
Definition list_repr (xs : list string) : string :=
  ("[" ++ String.concat ", " (map (fun x => "'" ++ x ++ "'") xs) ++ "]")%string.

Definition invalid_hazard_type : exn :=
  HTTPException 400
    ("Invalid hazard type. Must be one of: "
       ++ list_repr valid_hazard_types)%string.

(** An uploaded file: its name and its bytes. *)
Record UploadFile : Type := mkUploadFile {
  filename : string;
  file_bytes : string
}.

Section WithServices.

Variable clock : nat -> datetime.
Variable redis_up : bool.
(** Whether the stored procedure [generate_hotspots()] runs through. *)
Variable hotspots_up : bool.
(** [str(t.timestamp())] *)
Variable timestamp_text : datetime -> string.
(** Whether a file can be created under [uploads/]. *)
Variable uploads_writable : bool.
(** The conversions of pydantic between types. *)
Variable convert : Schemas.annotation -> Schemas.value -> option Schemas.value.

(** [f"uploads/{datetime.utcnow().timestamp()}_{file.filename}"] *)
Definition upload_path (now : datetime) (f : UploadFile) : string :=
  ("uploads/" ++ timestamp_text now ++ "_" ++ filename f)%string.

(** The row that [create_hazard_report] stores in world [w]: with an
    upload the clock is read once for the file name; then the defaults of
    [created_at] and of [updated_at] read it, one after the other, when
    the row is inserted. *)
Definition new_report (w : World) (title description hazard_type
    severity : string) (latitude longitude : float)
    (file : option UploadFile) (current_user : User) : HazardReport :=
  match file with
  | Some f =>
      mkHazardReport (next_report_id w) (user_id_of current_user) title
        description hazard_type severity (longitude, latitude) None
        [upload_path (clock (ticks w)) f]
        false None None (clock (S (ticks w))) (clock (S (S (ticks w))))
  | None =>
      mkHazardReport (next_report_id w) (user_id_of current_user) title
        description hazard_type severity (longitude, latitude) None []
        false None None (clock (ticks w)) (clock (S (ticks w)))
  end.

(** [os.makedirs(...)], [open(file_path, "wb")] and the writing of the
    content that was read from the upload. *)
Definition save_upload (file_path content : string) : M World unit :=
  if uploads_writable then modify (with_upload file_path content)
  else raise (PermissionError file_path).

Definition generate_hotspots_async : M World unit :=
  try_except
    (if hotspots_up then ret tt
     else raise (ConnectionError "generate_hotspots"))
    (fun e => print ("Error generating hotspots: " ++ exn_text e)%string).

Definition create_hazard_report (title description hazard_type
    severity : string) (latitude longitude : float)
    (file : option UploadFile) (current_user : User)
  : M World Schemas.instance :=
  (* Validate hazard type *)
  if negb (str_in hazard_type valid_hazard_types)
  then raise invalid_hazard_type
  else
    (* Handle file upload *)
    media_urls <-
      match file with
      | Some f =>
          now <- utcnow clock ;;
          save_upload (upload_path now f) (file_bytes f) ;;;
          ret [upload_path now f]
      | None => ret []
      end ;;
    (* Create hazard report *)
    created <- utcnow clock ;;
    updated <- utcnow clock ;;
    w <- get ;;
    let report :=
      mkHazardReport (next_report_id w) (user_id_of current_user) title
        description hazard_type severity (longitude, latitude) None
        media_urls false None None created updated in
    modify (with_hazard_reports (fun rows => rows ++ [report])
              (S (next_report_id w))) ;;;
    generate_hotspots_async ;;;
    redis_publish redis_up "new_report"
      [ ("id", JInt (Z.of_nat (report_id report)));
        ("title", JStr title);
        ("hazard_type", JStr hazard_type);
        ("severity", JStr severity);
        ("latitude", JFloat latitude);
        ("longitude", JFloat longitude);
        ("created_at", JTime created) ] ;;;
    Schemas.from_orm convert "HazardReportResponse"
      Schemas.HazardReportResponse (Schemas.hazard_report_attributes report).

End WithServices.

End BackendMain.

(* ================================================================== *)
(** * The operations of the system on its world *)

Module System.
Import Py Py.Notations Models.

(** The entry points of the sources that write to the database. *)
Inductive operation : Type :=
| CreateAlert (alert_type title message severity : string)
    (affected_area : option string) (source : string)
| GenerateAlertFromReport (report : HazardReport)
| ProcessReportAlerts
| CleanupExpiredAlerts
| MarkAlertRead (user_id alert_id : nat)
| StoreAlerts (feed : list Incois.AlertData)
| ProcessSinglePost (post_data : NlpMain.PostData)
| CreateHazardReport (title description hazard_type severity : string)
    (latitude longitude : float) (file : option BackendMain.UploadFile)
    (current_user : User).

Section WithServices.

Variable polarity_compound : string -> float.
Variable clock : nat -> datetime.
Variable redis_up : bool.
Variable channel_up : AlertService.channel -> User -> bool.
Variable hotspots_up : bool.
Variable timestamp_text : datetime -> string.
Variable uploads_writable : bool.
Variable convert : Schemas.annotation -> Schemas.value -> option Schemas.value.

Definition perform (op : operation) : M World unit :=
  match op with
  | CreateAlert alert_type title message severity affected_area source =>
      AlertService.create_alert clock redis_up channel_up alert_type
        title message severity affected_area source ;;; ret tt
  | GenerateAlertFromReport report =>
      AlertService.generate_alert_from_report clock redis_up channel_up
        report ;;; ret tt
  | ProcessReportAlerts =>
      AlertService.process_report_alerts clock redis_up channel_up
  | CleanupExpiredAlerts => AlertService.cleanup_expired_alerts clock
  | MarkAlertRead user_id alert_id =>
      AlertService.mark_alert_read user_id alert_id
  | StoreAlerts feed => Incois.store_alerts feed
  | ProcessSinglePost post_data =>
      NlpMain.process_single_post polarity_compound clock redis_up
        post_data
  | CreateHazardReport title description hazard_type severity latitude
      longitude file current_user =>
      BackendMain.create_hazard_report clock redis_up hotspots_up
        timestamp_text uploads_writable convert title description hazard_type
        severity latitude longitude file current_user ;;; ret tt
  end.

(** A run of the system: one operation after the other; an operation
    that raises fails its own request only. *)
Definition perform_all (ops : list operation) : M World unit :=
  for_each ops (fun op => try_except (perform op) (fun _ => ret tt)).

End WithServices.

(** What may happen to a row of the alerts table: nothing, or the sweep
    deactivates it. *)
Definition row_step (row row' : Alert) : Prop :=
  row' = row \/ row' = AlertService.deactivate row.

(** Every row of [w] is still there in [w'], at the same place. *)
Definition evolves (w w' : World) : Prop :=
  forall i row,
    nth_error (alerts w) i = Some row ->
    exists row', nth_error (alerts w') i = Some row' /\ row_step row row'.

(** A statement under which the alerts table only evolves. *)
Definition keeps {A} (m : M World A) : Prop :=
  forall w, evolves w (snd (m w)).

End System.

(* ================================================================== *)
(** * Concrete inputs used by the examples *)

Module Fixtures.
Import Models NlpMain.

(** A sentiment analyzer that scores every text the same. *)
Definition constant_sentiment (score : float) : string -> float :=
  fun _ => score.

(** A clock that advances by one microsecond at every reading. *)
Definition ticking_clock (start : datetime) : nat -> datetime :=
  fun n => (start + Z.of_nat n)%Z.

Definition tsunami_text : string :=
  "Tsunami warning issued for coastal areas. Evacuate immediately!".

Definition beach_text : string :=
  "Beautiful sunny day at the beach. Perfect for swimming.".

Definition tsunami_post : PostData :=
  mkPostData "twitter" "1001" tsunami_text (Some "42") None None.

Definition beach_post : PostData :=
  mkPostData "twitter" "1002" beach_text (Some "43") None None.

Definition asha : User :=
  mkUser 42 "asha" "asha@example.org" "citizen" "en" (Some "+911234567890").

Definition ravi : User :=
  mkUser 43 "ravi" "ravi@example.org" "citizen" "en" None.

(** The email service is down for one user and up for everybody else;
    the other channels work. *)
Definition email_down_for (uid : nat)
  : AlertService.channel -> User -> bool :=
  fun c user =>
    match c with
    | AlertService.Email => negb (user_id_of user =? uid)
    | _ => true
    end.

Definition tsunami_alert : Alert :=
  mkAlert 7 "tsunami" "Tsunami Alert" "Move to higher ground." None
    "critical" "crowdsourced" true 0%Z (Some (hours 24)).

(** A verified report of a tsunami, of high severity. *)
Definition tsunami_report : HazardReport :=
  mkHazardReport 5 42 "Marina Beach" "The sea is receding fast" "tsunami"
    "high" (80.28%float, 13.05%float) None [] true (Some 43) (Some 0%Z) 0%Z
    0%Z.

(** Ten minutes, in microseconds. *)
Definition ten_minutes : datetime := 600000000%Z.

Definition all_channels_up : AlertService.channel -> User -> bool :=
  fun _ _ => true.

(** A world with the two users and one unread [UserAlert] row for user 42
    and alert 7. *)
Definition small_world : World :=
  mkWorld [asha; ravi] [] [] [tsunami_alert] [mkUserAlert 1 42 7 false]
    1 1 8 2 [] 0 [] [].

Definition alert_of_severity (n : nat) (s : string) : Alert :=
  mkAlert n "high_waves" "High Wave Warning" "Stay away from beaches." None
    s "incois" true 0%Z (Some (hours 24)).

End Fixtures.

(* ================================================================== *)
(** * nlp-engine/processors.py: trends over stored posts *)

Module Trends.
Import PyText Processors Py Models.

(** A post as the trend methods look at it: an attribute that is missing
    or [None] is [None] here. *)
Record PostView : Type := mkPostView {
  view_hazard_keywords : option (list string);
  view_sentiment_score : option float
}.

Definition view_of (row : SocialMediaPost) : PostView :=
  mkPostView (Some (post_hazard_keywords row)) (Some (sentiment_score row)).

(** [all_keywords.extend(post.hazard_keywords)] for every post that has
    keywords. *)
Fixpoint all_keywords (posts : list PostView) : list string :=
  match posts with
  | [] => []
  | post :: rest =>
      match view_hazard_keywords post with
      | Some (k :: ks) => (k :: ks) ++ all_keywords rest
      | _ => all_keywords rest
      end
  end.

(** [sorted(items, key=lambda x: x[1], reverse=True)]: the sort is stable,
    so items with equal counts keep their order. *)
Fixpoint insert_desc (x : string * nat) (l : list (string * nat))
  : list (string * nat) :=
  match l with
  | [] => [x]
  | y :: rest =>
      if snd x <? snd y then y :: insert_desc x rest else x :: y :: rest
  end.

Definition sorted_desc (l : list (string * nat)) : list (string * nat) :=
  fold_right insert_desc [] l.

(** The slice [xs[:limit]]; a negative limit counts from the end. *)
Definition slice_to {A} (limit : Z) (xs : list A) : list A :=
  if (0 <=? limit)%Z then firstn (Z.to_nat limit) xs
  else firstn (List.length xs - Z.to_nat (- limit)) xs.

Record TrendingKeyword : Type := mkTrendingKeyword {
  keyword : string;
  count : nat;
  frequency : float
}.

Definition extract_trending_keywords (posts : list PostView) (limit : Z)
  : list TrendingKeyword :=
  let keyword_counts := Incois.tally (all_keywords posts) [] in
  let sorted_keywords := sorted_desc keyword_counts in
  map (fun kv =>
         mkTrendingKeyword (fst kv) (snd kv)
           (match posts with
            | [] => 0%float
            | _ :: _ =>
                (float_of_nat (snd kv) / float_of_nat (List.length posts))%float
            end))
      (slice_to limit sorted_keywords).

(** [float(z)] for an [int] of either sign. *)
Definition float_of_Z (z : Z) : float :=
  if (z <? 0)%Z then (- float_of_nat (Z.to_nat (- z)))%float
  else float_of_nat (Z.to_nat z).

(** The sentiment scores that are not [None]. *)
Fixpoint sentiments_of (posts : list PostView) : list float :=
  match posts with
  | [] => []
  | post :: rest =>
      match view_sentiment_score post with
      | Some s => s :: sentiments_of rest
      | None => sentiments_of rest
      end
  end.

(** [sum(1 for s in sentiments if test(s))] *)
Definition count_if (test : float -> bool) (xs : list float) : nat :=
  List.length (filter test xs).

(** [sum(sentiments)] *)
Definition float_sum (xs : list float) : float :=
  fold_left PrimFloat.add xs 0%float.

(** The dictionary of [analyze_sentiment_trends]; without a score it has
    the two default entries only. *)
Inductive SentimentTrends : Type :=
| NoSentiment
| Sentiment (average_sentiment : float) (total_posts positive_posts
    negative_posts : nat) (neutral_posts : Z)
    (positive negative neutral : float).

Definition analyze_sentiment_trends (posts : list PostView)
  : SentimentTrends :=
  match posts with
  | [] => NoSentiment
  | _ :: _ =>
      let sentiments := sentiments_of posts in
      match sentiments with
      | [] => NoSentiment
      | _ :: _ =>
          let total := List.length sentiments in
          let avg_sentiment :=
            (float_sum sentiments / float_of_nat total)%float in
          let positive_count :=
            count_if (fun s => PrimFloat.ltb 0.1 s) sentiments in
          let negative_count :=
            count_if (fun s => PrimFloat.ltb s (-0.1)) sentiments in
          let neutral_count :=
            (Z.of_nat total - Z.of_nat positive_count
             - Z.of_nat negative_count)%Z in
          Sentiment avg_sentiment total positive_count negative_count
            neutral_count
            (float_of_nat positive_count / float_of_nat total)%float
            (float_of_nat negative_count / float_of_nat total)%float
            (float_of_Z neutral_count / float_of_nat total)%float
      end
  end.

End Trends.

(* ================================================================== *)
(** * backend/incois_integration.py: the feed and the risk of an alert *)

Module IncoisFeed.
Import PyText Py Py.Notations Models Incois.

(** One item of [data['alerts']]; a key that is missing is [None]. *)
Record RawAlert : Type := mkRawAlert {
  raw_title : option string;
  raw_description : option string;
  raw_severity : option string;
  raw_coordinates : option (list (float * float));     (* (lat, lon) *)
  raw_duration : option Z
}.

Definition get_or {A} (value : option A) (default : A) : A :=
  match value with Some v => v | None => default end.

Section WithServices.

Variable clock : nat -> datetime.
(** [str(x)] of a float inside an f-string. *)
Variable float_text : float -> string.

Definition _create_affected_area (coordinates : list (float * float))
  : option string :=
  if List.length coordinates <? 3 then None
  else
    let coord_pairs :=
      map (fun c => (float_text (snd c) ++ " " ++ float_text (fst c))%string)
          coordinates in
    Some ("POLYGON((" ++ String.concat ", " coord_pairs ++ "))")%string.

(** One round of the loop of [_process_incois_data]: the clock is read for
    [created_at] and again inside [_calculate_expiry]. *)
Definition process_item (alert_type : string) (alert_data : RawAlert)
  : M World AlertData :=
  let title :=
    get_or (raw_title alert_data)
           (AlertService.str_title alert_type ++ " Alert")%string in
  let message := get_or (raw_description alert_data) "" in
  let severity := _map_severity (get_or (raw_severity alert_data) "medium") in
  let affected_area :=
    _create_affected_area (get_or (raw_coordinates alert_data) []) in
  created <- utcnow clock ;;
  now <- utcnow clock ;;
  ret (mkAlertData alert_type title message severity "incois" affected_area
         created (_calculate_expiry now (get_or (raw_duration alert_data) 24%Z))).

Fixpoint process_items (alert_type : string) (items : list RawAlert)
  : M World (list AlertData) :=
  match items with
  | [] => ret []
  | alert_data :: rest =>
      processed_alert <- process_item alert_type alert_data ;;
      others <- process_items alert_type rest ;;
      ret (processed_alert :: others)
  end.

(** [data] is the decoded answer; [None] when it has no ['alerts'] key. *)
Definition _process_incois_data (data : option (list RawAlert))
    (alert_type : string) : M World (list AlertData) :=
  match data with
  | Some items => process_items alert_type items
  | None => ret []
  end.

End WithServices.

(** ** AlertProcessor.analyze_alert_risk *)

Definition risk_thresholds : list (string * float) :=
  [ ("low", 0.3%float); ("medium", 0.5%float); ("high", 0.7%float);
    ("critical", 0.9%float) ].

Definition base_risk_of (severity : string) : float :=
  match find (fun kv => String.eqb (fst kv) severity) risk_thresholds with
  | Some kv => snd kv
  | None => 0.5%float
  end.

Definition matching_report (alert : Alert) (r : HazardReport) : bool :=
  String.eqb (hazard_type r) (alert_type alert) && is_verified r.

Definition analyze_alert_risk (alert : Alert)
    (recent_reports : list HazardReport) : float :=
  let base_risk := base_risk_of (alert_severity alert) in
  let matching_reports := filter (matching_report alert) recent_reports in
  let base_risk :=
    match matching_reports with
    | [] => base_risk
    | _ :: _ => (base_risk + 0.2)%float
    end in
  Processors.py_min base_risk 1.0%float.

End IncoisFeed.

(* ================================================================== *)
(** * backend/main.py: verification of a report *)

Module Reports.
Import PyText Py Py.Notations Models.

Definition forbidden : exn :=
  HTTPException 403 "Only analysts and officials can verify reports".

Definition not_found : exn := HTTPException 404 "Hazard report not found".

(** [query(HazardReport).filter(HazardReport.id == report_id).first()] *)
Definition has_id (n : nat) (r : HazardReport) : bool := report_id r =? n.

(** The three assignments on the row that [first()] returned. *)
Definition set_verified (by_user : nat) (at_time : datetime)
    (r : HazardReport) : HazardReport :=
  mkHazardReport (report_id r) (report_user_id r) (report_title r)
    (description r) (hazard_type r) (severity r) (location r) (h3_index r)
    (media_urls r) true (Some by_user) (Some at_time) (report_created_at r)
    (report_updated_at r).

(** [onupdate=datetime.utcnow] of the column [updated_at]: an UPDATE of
    the row writes the reading of the clock into it. *)
Definition touch (stamp : datetime) (r : HazardReport) : HazardReport :=
  mkHazardReport (report_id r) (report_user_id r) (report_title r)
    (description r) (hazard_type r) (severity r) (location r) (h3_index r)
    (media_urls r) (is_verified r) (verified_by r) (verified_at r)
    (report_created_at r) stamp.

(** Whether the three assignments give the row the values it was loaded
    with: the commit then has nothing to write and emits no UPDATE. *)
Definition already_set (by_user : nat) (at_time : datetime)
    (r : HazardReport) : bool :=
  is_verified r
  && match verified_by r with
     | Some n => n =? by_user
     | None => false
     end
  && match verified_at r with
     | Some t => (t =? at_time)%Z
     | None => false
     end.

(** The row that [first()] returned, rewritten in its place. *)
Fixpoint update_first (n : nat) (f : HazardReport -> HazardReport)
    (rows : list HazardReport) : list HazardReport :=
  match rows with
  | [] => []
  | r :: rest =>
      if has_id n r then f r :: rest
      else r :: update_first n f rest
  end.

Section WithServices.

Variable clock : nat -> datetime.

Definition verify_hazard_report (report_id : nat) (current_user : User)
  : M World string :=
  if negb (BackendMain.str_in (role current_user) ["analyst"; "official"])
  then raise forbidden
  else
    w <- get ;;
    match find (has_id report_id) (hazard_reports w) with
    | None => raise not_found
    | Some report =>
        now <- utcnow clock ;;
        (* db.commit() *)
        (if already_set (user_id_of current_user) now report then ret tt
         else
           stamp <- utcnow clock ;;
           modify (fun w =>
             with_hazard_reports
               (update_first report_id
                  (fun r =>
                     touch stamp
                       (set_verified (user_id_of current_user) now r)))
               (next_report_id w) w)) ;;;
        ret "Report verified successfully"
    end.

End WithServices.

End Reports.

(* ================================================================== *)
(** * backend/alert_service.py: the alerts of one user *)

Module UserAlerts.
Import PyText Py Py.Notations Models.

(** The fields that [AlertResponse] copies from an alert. *)
Record AlertResponse : Type := mkAlertResponse {
  resp_id : nat;
  resp_alert_type : string;
  resp_title : string;
  resp_message : string;
  resp_severity : string;
  resp_source : string;
  resp_is_active : bool;
  resp_created_at : datetime;
  resp_expires_at : option datetime
}.

Definition from_orm (alert : Alert) : AlertResponse :=
  mkAlertResponse (alert_id_of alert) (alert_type alert) (title alert)
    (message alert) (alert_severity alert) (source alert) (is_active alert)
    (created_at alert) (expires_at alert).

(** The condition of the join and of the filters on one pair of rows. *)
Definition selected (user_id : nat) (unread_only : bool) (now : datetime)
    (alert : Alert) (ua : UserAlert) : bool :=
  (ua_alert_id ua =? alert_id_of alert)
  && (ua_user_id ua =? user_id)
  && is_active alert
  && match expires_at alert with
     | Some t => (now <? t)%Z
     | None => false
     end
  && (if unread_only then negb (is_read ua) else true).

(** The rows of the join: an alert once for every [UserAlert] row that
    selects it. *)
Definition joined (user_id : nat) (unread_only : bool) (now : datetime)
    (w : World) : list Alert :=
  flat_map (fun alert =>
              map (fun _ => alert)
                  (filter (selected user_id unread_only now alert)
                          (user_alerts w)))
           (alerts w).

(** [order_by(Alert.created_at.desc())] *)
Fixpoint insert_recent (x : Alert) (l : list Alert) : list Alert :=
  match l with
  | [] => [x]
  | y :: rest =>
      if (created_at x <? created_at y)%Z then y :: insert_recent x rest
      else x :: y :: rest
  end.

Definition most_recent_first (l : list Alert) : list Alert :=
  fold_right insert_recent [] l.

Section WithServices.

Variable clock : nat -> datetime.

Definition get_user_alerts (user_id : nat) (unread_only : bool)
  : M World (list AlertResponse) :=
  try_finally
    (try_except
       (now <- utcnow clock ;;
        w <- get ;;
        ret (map from_orm
               (most_recent_first (joined user_id unread_only now w))))
       (fun e =>
          print ("Error getting user alerts: " ++ exn_text e)%string ;;;
          ret []))
    (ret tt).

End WithServices.

End UserAlerts.

(* ================================================================== *)
(** * Vocabulary for further properties *)

Module Vocabulary.
Import PyText Processors Models.

(** Every character of a string passes a test. *)
Fixpoint all_chars (test : ascii -> bool) (s : string) : bool :=
  match s with
  | EmptyString => true
  | String c rest => test c && all_chars test rest
  end.

(** The characters that [preprocess_text] can leave in a text: lowercase
    letters, digits, the underscore, the space and the four punctuation
    marks. *)
Definition clean_char (c : ascii) : bool :=
  is_lower c || is_digit c || (code c =? 95)
  || Ascii.eqb c " " || Ascii.eqb c "." || Ascii.eqb c ","
  || Ascii.eqb c "!" || Ascii.eqb c "?".

(** A character of ASCII text. *)
Definition is_ascii (c : ascii) : bool := code c <? 128.

(** A space, or a character that is neither uppercase nor white space. *)
Definition settled_char (c : ascii) : bool :=
  Ascii.eqb c " " || (negb (is_upper c) && negb (is_space c)).

(** The probability in tenths, computed exactly: 3 for a tag, 2 for every
    matching hazard type, 1 for every urgency word up to three, 2 for a
    negative sentiment, capped at 10. *)
Definition tenths (tagged : bool) (groups urgency : nat) (negative : bool)
  : nat :=
  Nat.min 10
    ((if tagged then 3 else 0) + 2 * groups + Nat.min urgency 3
     + (if negative then 2 else 0)).

(** The tags that [extract_hazard_keywords] can return. *)
Definition possible_tags : list string :=
  [ "tsunami"; "storm_surge"; "high_waves"; "flooding"; "coastal_current";
    "general_hazard" ].

End Vocabulary.

Module IngestionVocabulary.
Import Models NlpMain.

(** The identity of a stored post. *)
Definition identity (row : SocialMediaPost) : string * string :=
  (platform row, post_id row).

(** What is known of a row that a batch of posts has added: it is the
    analysis of one post of the batch, above the storage threshold. *)
Definition stored_from (polarity : string -> float) (batch : list PostData)
    (row : SocialMediaPost) : Prop :=
  exists post_data,
    In post_data batch
    /\ platform row = pd_platform post_data
    /\ post_id row = pd_post_id post_data
    /\ content row = pd_content post_data
    /\ hazard_probability row = post_probability polarity post_data
    /\ PrimFloat.ltb 0.2 (hazard_probability row) = true
    /\ Processors.between 0 1 (hazard_probability row) = true.

(** Two worlds with the same stored posts, at the same point of the
    sequence of identifiers and of the clock. *)
Definition same_store (w1 w2 : World) : Prop :=
  social_media_posts w1 = social_media_posts w2
  /\ next_post_id w1 = next_post_id w2
  /\ ticks w1 = ticks w2.

End IngestionVocabulary.

Module CountingVocabulary.

(** [d.get(key, 0)] on a dictionary of counts. *)
Definition count_of (key : string) (d : list (string * nat)) : nat :=
  match find (fun kv => String.eqb (fst kv) key) d with
  | Some kv => snd kv
  | None => 0
  end.

(** The sum of the counts of a dictionary. *)
Definition total_count (d : list (string * nat)) : nat :=
  fold_right (fun kv n => snd kv + n) 0 d.

(** The number of times [key] occurs in a list. *)
Definition occurrences (key : string) (keys : list string) : nat :=
  count_occ string_dec keys key.

(** [a] is counted at least as often as [b]. *)
Definition more_often (a b : string * nat) : Prop := snd b <= snd a.

End CountingVocabulary.

Module AlertVocabulary.
Import Py Models AlertService.

(** The rows that [_notify_users] adds for an alert: one unread row per
    user, numbered from [first_id]. *)
Fixpoint fanout_rows (us : list User) (alert_id first_id : nat)
  : list UserAlert :=
  match us with
  | [] => []
  | user :: rest =>
      mkUserAlert first_id (user_id_of user) alert_id false
      :: fanout_rows rest alert_id (S first_id)
  end.

(** The dictionary that [_publish_alert] sends. *)
Definition alert_payload (alert : Alert) : list (string * json) :=
  [ ("id", JInt (Z.of_nat (alert_id_of alert)));
    ("alert_type", JStr (alert_type alert));
    ("title", JStr (title alert));
    ("message", JStr (message alert));
    ("severity", JStr (alert_severity alert));
    ("source", JStr (source alert));
    ("created_at", JTime (created_at alert));
    ("expires_at",
      match expires_at alert with
      | Some t => JTime t
      | None => JNull
      end) ].

(** The world after [_publish_alert]. *)
Definition published_world (redis_up : bool) (alert : Alert) (w : World)
  : World :=
  if redis_up then with_published ("new_alert", alert_payload alert) w
  else with_stdout "Error publishing alert to Redis: Error connecting to redis"
         w.

(** The identifiers of the alerts are distinct and below the next one. *)
Definition alert_ids_ok (w : World) : Prop :=
  NoDup (map alert_id_of (alerts w))
  /\ Forall (fun row => alert_id_of row < next_alert_id w) (alerts w).

(** A step that keeps the identifiers in order. *)
Definition keeps_ids (w w' : World) : Prop :=
  alert_ids_ok w -> alert_ids_ok w'.

(** A statement after which the world is related to the world before. *)
Definition respects (R : World -> World -> Prop) {A} (m : M World A)
  : Prop :=
  forall w, R w (snd (m w)).

(** The line that [generate_alert_from_report] prints. *)
Definition db_error_line : string :=
  "Error generating alert from report: name 'db' is not defined".

End AlertVocabulary.

Module IncoisVocabulary.
Import Py Models Incois IncoisFeed.

(** Some stored alert has the type and title of the feed item and the
    source [incois]. *)
Definition covered (alert_data : AlertData) (w : World) : bool :=
  existsb (same_feed_alert alert_data) (alerts w).

(** The one line that [_notify_affected_users] prints. *)
Definition notify_line (alert : Alert) (w : World) : string :=
  match users w with
  | [] => ("Sending alert notification to 0 users: " ++ title alert)%string
  | _ :: _ => "Error notifying users: name 'UserAlert' is not defined"
  end.

(** The row that [store_alerts] builds for a feed item in world [w]. *)
Definition feed_alert (alert_data : AlertData) (w : World) : Alert :=
  mkAlert (next_alert_id w) (ad_alert_type alert_data) (ad_title alert_data)
    (ad_message alert_data) (ad_affected_area alert_data)
    (ad_severity alert_data) (ad_source alert_data) true
    (ad_created_at alert_data) (Some (ad_expires_at alert_data)).

(** What [_process_incois_data] makes of one item of the feed. *)
Definition processed (clock : nat -> datetime) (alert_type : string)
    (item : RawAlert) (out : AlertData) : Prop :=
  ad_alert_type out = alert_type
  /\ ad_source out = "incois"
  /\ In (ad_severity out) severity_order
  /\ ad_title out
     = get_or (raw_title item)
         (AlertService.str_title alert_type ++ " Alert")%string
  /\ ad_message out = get_or (raw_description item) ""
  /\ exists n,
       ad_created_at out = clock n
       /\ ad_expires_at out
          = (clock (S n) + hours (get_or (raw_duration item) 24))%Z.

(** [resp] comes later than or together with [resp']. *)
Definition not_older (resp resp' : UserAlerts.AlertResponse) : Prop :=
  (UserAlerts.resp_created_at resp' <= UserAlerts.resp_created_at resp)%Z.

End IncoisVocabulary.

Module ReportVocabulary.
Import Py Models.

(** What [HazardReportResponse.from_orm] reports about a row whose hazard
    type is an allowed one: the severity when it is none of the four
    levels, and the two coordinates. *)
Definition response_errors (severity : string) : list (string * problem) :=
  (if Schemas.member severity Schemas.SeverityLevel then []
   else [("severity", Invalid)])
  ++ [("latitude", Missing); ("longitude", Missing)].



End ReportVocabulary.

Module MoreFixtures.
Import Models.

(** Three posts as the trend methods see them. *)
Definition views : list Trends.PostView :=
  [ Trends.mkPostView (Some ["tsunami"; "general_hazard"]) (Some 0.5%float);
    Trends.mkPostView (Some ["flooding"; "tsunami"]) (Some (-0.6)%float);
    Trends.mkPostView None None ].

(** Two items of the feed, as [_process_incois_data] returns them. *)
Definition feed : list Incois.AlertData :=
  [ Incois.mkAlertData "tsunami" "Tsunami Watch" "Stay alert." "critical"
      "incois" None 0%Z (hours 24);
    Incois.mkAlertData "high_waves" "High Waves" "Stay ashore." "medium"
      "incois" None 0%Z (hours 12) ].

Definition analyst : User :=
  mkUser 44 "meera" "meera@example.org" "analyst" "en" None.

Definition unverified_report : HazardReport :=
  mkHazardReport 5 42 "Marina Beach" "The sea is receding fast" "tsunami"
    "high" (80.28%float, 13.05%float) None [] false None None 0%Z 0%Z.

(** A text with a link, a mention, a hashtag and symbols. *)
Definition tagged_text : string :=
  "TSUNAMI warning @ndma #alert see https://t.co/x1 & stay <safe>!".

(** A world with one unverified report. *)
Definition report_world : World :=
  mkWorld [Fixtures.asha; analyst] [unverified_report] [] [] []
    6 1 1 1 [] 0 [] [].

End MoreFixtures.

(* ================================================================== *)
(** * Properties of the text analyzer *)

Section TextAnalyzer.
Import PyText Re Processors.

Lemma iter_add_bonus (n : nat) (p : float) :
  Nat.iter n add_bonus (add_bonus p) = add_bonus (Nat.iter n add_bonus p).
Proof.
  induction n as [|n IH]; simpl; [reflexivity|]. now rewrite IH.
Qed.

(** The inner loop adds the bonus once when a pattern of the group
    matches, however many of them do. *)
Lemma pattern_loop_inner_once (patterns : list regex) (text : string)
    (p : float) :
  pattern_loop_inner patterns text p =
  if existsb (fun pattern => search pattern text) patterns
  then add_bonus p else p.
Proof.
  induction patterns as [|pattern rest IH]; simpl; [reflexivity|].
  destruct (search pattern text); simpl; [reflexivity|exact IH].
Qed.

Lemma pattern_loop_iter (groups : list (string * list regex))
    (text : string) (p : float) :
  pattern_loop groups text p =
  Nat.iter (matching_groups groups text) add_bonus p.
Proof.
  revert p. induction groups as [|[hazard_type patterns] rest IH]; intro p.
  - reflexivity.
  - simpl pattern_loop. rewrite IH, pattern_loop_inner_once.
    unfold matching_groups. simpl filter. unfold group_matches at 2.
    simpl snd.
    destruct (existsb (fun pattern => search pattern text) patterns).
    + simpl List.length. simpl Nat.iter. apply iter_add_bonus.
    + reflexivity.
Qed.

Lemma matching_groups_le (groups : list (string * list regex))
    (text : string) :
  matching_groups groups text <= List.length groups.
Proof. unfold matching_groups. apply filter_length_le. Qed.

Lemma count_keywords_le (keywords : list string) (text : string) :
  count_keywords keywords text <= List.length keywords.
Proof.
  induction keywords as [|keyword rest IH]; simpl; [lia|].
  destruct (contains keyword (lower text)); lia.
Qed.

(** C2 (as amended): the pattern bonus of 0.2 is added once for every
    hazard type that has a matching pattern, at most once per hazard type
    whatever the number of its patterns that match, and so at most five
    times for a text. *)
Theorem pattern_bonus_once_per_hazard_type (text : string) (p : float) :
  pattern_loop hazard_patterns text p =
    Nat.iter (matching_groups hazard_patterns text) add_bonus p
  /\ matching_groups hazard_patterns text <= 5
  /\ (forall hazard_type patterns q,
        pattern_loop [(hazard_type, patterns)] text q = q
        \/ pattern_loop [(hazard_type, patterns)] text q = add_bonus q).
Proof.
  split; [apply pattern_loop_iter|]. split.
  - apply (matching_groups_le hazard_patterns text).
  - intros hazard_type patterns q. simpl.
    rewrite pattern_loop_inner_once.
    destruct (existsb _ patterns); [right|left]; reflexivity.
Qed.

(** C2, the claim as it is worded: on the text "tsunami flood" two hazard
    types match and the bonus is added twice, so the result is neither
    the start value nor the start value plus one bonus, and it differs
    from the specification's wording of the step. *)
Lemma pattern_bonus_added_twice :
  pattern_loop hazard_patterns "tsunami flood" 0.3%float
    = add_bonus (add_bonus 0.3%float)
  /\ pattern_loop hazard_patterns "tsunami flood" 0.3%float <> 0.3%float
  /\ pattern_loop hazard_patterns "tsunami flood" 0.3%float
       <> add_bonus 0.3%float
  /\ pattern_loop hazard_patterns "tsunami flood" 0.3%float
       <> pattern_bonus_once hazard_patterns "tsunami flood" 0.3%float.
Proof.
  split; [vm_compute; reflexivity|].
  repeat split; intro H;
    apply (f_equal (PrimFloat.eqb 0.7%float)) in H;
    vm_compute in H; discriminate H.
Qed.

Lemma probability_of_in_range (tagged : bool) (groups urgency : nat)
    (negative : bool) :
  groups <= 5 -> urgency <= 5 ->
  between 0 1 (probability_of tagged groups urgency negative) = true.
Proof.
  intros Hg Hu.
  assert (Kg : In groups [0; 1; 2; 3; 4; 5]) by (simpl; lia).
  assert (Ku : In urgency [0; 1; 2; 3; 4; 5]) by (simpl; lia).
  simpl in Kg, Ku.
  repeat (destruct Kg as [<-|Kg]); try contradiction;
    repeat (destruct Ku as [<-|Ku]); try contradiction;
    destruct tagged, negative; vm_compute; reflexivity.
Qed.

Lemma calculate_hazard_probability_unfold (polarity : string -> float)
    (text : string) (tags : list string) :
  calculate_hazard_probability polarity text tags =
  if is_empty text then 0.0%float
  else probability_of
         (match tags with [] => false | _ :: _ => true end)
         (matching_groups hazard_patterns text)
         (count_keywords urgency_keywords text)
         (PrimFloat.ltb (calculate_sentiment polarity text) (-0.1)%float).
Proof.
  unfold calculate_hazard_probability, probability_of.
  destruct (is_empty text); [reflexivity|].
  rewrite pattern_loop_iter. destruct tags; reflexivity.
Qed.

(** The probability is in range whatever the sentiment analyzer
    answers. *)
Lemma hazard_probability_in_range (polarity : string -> float)
    (text : string) (tags : list string) :
  between 0 1 (calculate_hazard_probability polarity text tags) = true.
Proof.
  rewrite calculate_hazard_probability_unfold.
  destruct (is_empty text); [reflexivity|].
  apply probability_of_in_range.
  - apply (matching_groups_le hazard_patterns text).
  - apply (count_keywords_le urgency_keywords text).
Qed.

Lemma sentiment_in_range (polarity : string -> float) (text : string) :
  (forall s, between (-1) 1 (polarity s) = true) ->
  between (-1) 1 (calculate_sentiment polarity text) = true.
Proof.
  intro Hvader. unfold calculate_sentiment.
  destruct (is_empty text); [reflexivity|apply Hvader].
Qed.

(** C3: for every text, the empty one included, the hazard probability
    that the analyzer returns lies in [0, 1] and the sentiment score lies
    in [-1, 1]; this holds for the two methods and for the record of the
    text-analysis endpoint.  The sentiment score is VADER's compound
    score, whose range [-1, 1] is the one assumption. *)
Theorem analysis_scores_in_range (polarity : string -> float)
    (vader_range : forall s, between (-1) 1 (polarity s) = true)
    (text : string) (tags : list string) :
  between 0 1 (calculate_hazard_probability polarity text tags) = true
  /\ between (-1) 1 (calculate_sentiment polarity text) = true
  /\ between 0 1
       (NlpMain.ta_hazard_probability (NlpMain.analyze_text polarity text))
     = true
  /\ between (-1) 1
       (NlpMain.ta_sentiment_score (NlpMain.analyze_text polarity text))
     = true
  /\ calculate_hazard_probability polarity "" tags = 0.0%float
  /\ calculate_sentiment polarity "" = 0.0%float.
Proof.
  repeat split.
  - apply hazard_probability_in_range.
  - now apply sentiment_in_range.
  - apply hazard_probability_in_range.
  - now apply sentiment_in_range.
Qed.

Lemma analysis_scores_in_range_witness :
  (forall s,
      between (-1) 1 (Fixtures.constant_sentiment (-0.5)%float s) = true)
  /\ between 0 1
       (calculate_hazard_probability
          (Fixtures.constant_sentiment (-0.5)%float)
          Fixtures.tsunami_text ["tsunami"]) = true.
Proof.
  split.
  - intro s. reflexivity.
  - apply (analysis_scores_in_range
             (Fixtures.constant_sentiment (-0.5)%float)
             (fun s => eq_refl) Fixtures.tsunami_text ["tsunami"]).
Defined.

End TextAnalyzer.

(* ================================================================== *)
(** * Properties of ingestion *)

Section Ingestion.
Import PyText Processors Py Models NlpMain.

Variable polarity : string -> float.
Variable clock : nat -> datetime.
Variable redis_up : bool.

Let process := process_single_post polarity clock redis_up.

Ltac run_statements :=
  cbv beta iota zeta delta
    [ process process_single_post add_social_post Py.run Py.value Py.bind Py.get
      Py.ret Py.raise Py.modify Py.try_except Py.try_finally utcnow print
      redis_publish fst snd ].

Lemma find_none_filter {A} (f : A -> bool) (l : list A) :
  find f l = None -> filter f l = [].
Proof.
  induction l as [|x l IH]; simpl; [reflexivity|].
  destruct (f x); [discriminate|exact IH].
Qed.

Lemma find_app_hit {A} (f : A -> bool) (l : list A) (x : A) :
  f x = true -> exists y, find f (l ++ [x]) = Some y.
Proof.
  intro Hx. induction l as [|z l IH]; simpl.
  - rewrite Hx. now exists x.
  - destruct (f z); [now exists z|exact IH].
Qed.

Lemma same_post_signal (w : World) (post_data : PostData) :
  same_post (pd_platform post_data) (pd_post_id post_data)
    (signal_of polarity clock w post_data) = true.
Proof.
  unfold same_post. simpl. now rewrite !String.eqb_refl.
Qed.

(** A post whose identity is stored already changes nothing at all. *)
Lemma process_existing (post_data : PostData) (w : World)
    (row : SocialMediaPost) :
  existing_post (pd_platform post_data) (pd_post_id post_data) w = Some row ->
  process post_data w = (Return tt, w).
Proof.
  intro Hrow. run_statements. now rewrite Hrow.
Qed.

(** A new post below the threshold changes nothing either. *)
Lemma process_below (post_data : PostData) (w : World) :
  existing_post (pd_platform post_data) (pd_post_id post_data) w = None ->
  above_threshold polarity post_data = false ->
  process post_data w = (Return tt, w).
Proof.
  intros Hnone Hlow. run_statements. rewrite Hnone.
  unfold above_threshold, post_probability, post_keywords, post_text in Hlow.
  now rewrite Hlow.
Qed.

(** A new post above the threshold is appended as one row. *)
Lemma process_above (post_data : PostData) (w : World) :
  existing_post (pd_platform post_data) (pd_post_id post_data) w = None ->
  above_threshold polarity post_data = true ->
  social_media_posts (Py.run (process post_data) w)
  = social_media_posts w ++ [signal_of polarity clock w post_data].
Proof.
  intros Hnone Hhigh. run_statements. rewrite Hnone.
  unfold above_threshold, post_probability, post_keywords, post_text in Hhigh.
  rewrite Hhigh. destruct redis_up; reflexivity.
Qed.

Lemma process_twice (post_data : PostData) (w : World) :
  Py.run (process post_data) (Py.run (process post_data) w)
  = Py.run (process post_data) w.
Proof.
  destruct (existing_post (pd_platform post_data) (pd_post_id post_data) w)
    as [row|] eqn:Hfind.
  - assert (Hw : Py.run (process post_data) w = w)
      by (unfold Py.run; now rewrite (process_existing _ _ _ Hfind)).
    now rewrite !Hw.
  - destruct (above_threshold polarity post_data) eqn:Hp.
    + pose proof (process_above _ _ Hfind Hp) as Hrows.
      destruct (find_app_hit
                  (same_post (pd_platform post_data) (pd_post_id post_data))
                  (social_media_posts w)
                  (signal_of polarity clock w post_data)
                  (same_post_signal w post_data)) as [row Hrow].
      rewrite <- Hrows in Hrow.
      unfold Py.run at 1. now rewrite (process_existing _ _ _ Hrow).
    + assert (Hw : Py.run (process post_data) w = w)
        by (unfold Py.run; now rewrite (process_below _ _ Hfind Hp)).
      now rewrite !Hw.
Qed.

Lemma stored_after_process (post_data : PostData) (w : World) :
  existing_post (pd_platform post_data) (pd_post_id post_data) w = None ->
  stored (pd_platform post_data) (pd_post_id post_data)
         (Py.run (process post_data) w)
  = if above_threshold polarity post_data
    then [signal_of polarity clock w post_data] else [].
Proof.
  intro Hfind. unfold stored.
  destruct (above_threshold polarity post_data) eqn:Hp.
  - rewrite (process_above _ _ Hfind Hp), filter_app.
    rewrite (find_none_filter _ _ Hfind). simpl.
    now rewrite same_post_signal.
  - unfold Py.run. rewrite (process_below _ _ Hfind Hp). simpl.
    now apply find_none_filter.
Qed.

(** C5: a post that reaches the analysis (no row of its identity is
    stored yet) is persisted exactly when its computed hazard probability
    is strictly greater than 0.2: then one row carrying that probability
    is appended, and otherwise the store, and the whole world with it,
    stays as it was. *)
Theorem persisted_iff_above_threshold (post_data : PostData) (w : World) :
  existing_post (pd_platform post_data) (pd_post_id post_data) w = None ->
  let w' := Py.run (process_single_post polarity clock redis_up post_data) w
  in
  social_media_posts w'
  = (if PrimFloat.ltb 0.2 (post_probability polarity post_data)
     then social_media_posts w ++ [signal_of polarity clock w post_data]
     else social_media_posts w)
  /\ hazard_probability (signal_of polarity clock w post_data)
     = post_probability polarity post_data
  /\ (PrimFloat.ltb 0.2 (post_probability polarity post_data) = false ->
      w' = w)
  /\ (stored (pd_platform post_data) (pd_post_id post_data) w' <> []
      <-> PrimFloat.ltb 0.2 (post_probability polarity post_data) = true).
Proof.
  intros Hfind w'. subst w'.
  pose proof (stored_after_process post_data w Hfind) as Hstored.
  fold process. unfold above_threshold in Hstored.
  destruct (PrimFloat.ltb 0.2 (post_probability polarity post_data)) eqn:Hp.
  - repeat split.
    + now apply process_above.
    + intro H. discriminate H.
    + rewrite Hstored. intro H. now destruct H.
  - assert (Hsame : process post_data w = (Return tt, w))
      by now apply process_below.
    unfold Py.run. rewrite Hsame. simpl. repeat split.
    + intro H. exfalso. apply H. fold (stored (pd_platform post_data)
        (pd_post_id post_data) w). unfold stored.
      now apply find_none_filter.
    + intro H. discriminate H.
Qed.

(** C4 (as amended): processing a post whose identity is stored already
    changes nothing; processing the same post a second time changes
    nothing more; and when no row of that identity was stored before,
    the two rounds leave exactly one such row if the hazard probability
    of the post exceeds 0.2 and none otherwise. *)
Theorem reingestion_is_noop (post_data : PostData) (w : World) :
  existing_post (pd_platform post_data) (pd_post_id post_data) w = None ->
  let w1 := Py.run (process_single_post polarity clock redis_up post_data) w
  in
  let w2 := Py.run (process_single_post polarity clock redis_up post_data) w1
  in
  w2 = w1
  /\ (forall w0 row,
        existing_post (pd_platform post_data) (pd_post_id post_data) w0
          = Some row ->
        Py.run (process_single_post polarity clock redis_up post_data) w0
          = w0)
  /\ List.length (stored (pd_platform post_data) (pd_post_id post_data) w2)
     = (if PrimFloat.ltb 0.2 (post_probability polarity post_data)
        then 1 else 0).
Proof.
  intros Hfind w1 w2. subst w1 w2. fold process.
  rewrite process_twice. split; [reflexivity|]. split.
  - intros w0 row Hrow. unfold Py.run.
    now rewrite (process_existing _ _ _ Hrow).
  - rewrite (stored_after_process _ _ Hfind). unfold above_threshold.
    now destruct (PrimFloat.ltb 0.2 (post_probability polarity post_data)).
Qed.

End Ingestion.

(** The tsunami post is new to the empty world; its probability is above
    the threshold, so it is stored, and a second round leaves one row. *)
Lemma persisted_iff_above_threshold_witness :
  NlpMain.existing_post
    (NlpMain.pd_platform Fixtures.tsunami_post)
    (NlpMain.pd_post_id Fixtures.tsunami_post) Models.empty_world = None
  /\ Models.social_media_posts
       (Py.run
          (NlpMain.process_single_post
             (Fixtures.constant_sentiment (-0.5)%float)
             (Fixtures.ticking_clock 0%Z) true Fixtures.tsunami_post)
          Models.empty_world)
     = (if PrimFloat.ltb 0.2
             (NlpMain.post_probability
                (Fixtures.constant_sentiment (-0.5)%float)
                Fixtures.tsunami_post)
        then Models.social_media_posts Models.empty_world
             ++ [NlpMain.signal_of (Fixtures.constant_sentiment (-0.5)%float)
                   (Fixtures.ticking_clock 0%Z) Models.empty_world
                   Fixtures.tsunami_post]
        else Models.social_media_posts Models.empty_world).
Proof.
  split; [reflexivity|].
  exact (proj1
           (persisted_iff_above_threshold
              (Fixtures.constant_sentiment (-0.5)%float)
              (Fixtures.ticking_clock 0%Z) true Fixtures.tsunami_post
              Models.empty_world eq_refl)).
Defined.

Lemma reingestion_is_noop_witness :
  NlpMain.existing_post
    (NlpMain.pd_platform Fixtures.tsunami_post)
    (NlpMain.pd_post_id Fixtures.tsunami_post) Models.empty_world = None
  /\ List.length
       (NlpMain.stored
          (NlpMain.pd_platform Fixtures.tsunami_post)
          (NlpMain.pd_post_id Fixtures.tsunami_post)
          (Py.run
             (NlpMain.process_single_post
                (Fixtures.constant_sentiment (-0.5)%float)
                (Fixtures.ticking_clock 0%Z) true Fixtures.tsunami_post)
             (Py.run
                (NlpMain.process_single_post
                   (Fixtures.constant_sentiment (-0.5)%float)
                   (Fixtures.ticking_clock 0%Z) true Fixtures.tsunami_post)
                Models.empty_world)))
     = (if PrimFloat.ltb 0.2
             (NlpMain.post_probability
                (Fixtures.constant_sentiment (-0.5)%float)
                Fixtures.tsunami_post)
        then 1 else 0).
Proof.
  split; [reflexivity|].
  exact (proj2 (proj2
           (reingestion_is_noop
              (Fixtures.constant_sentiment (-0.5)%float)
              (Fixtures.ticking_clock 0%Z) true Fixtures.tsunami_post
              Models.empty_world eq_refl))).
Defined.

(** On the spec's two sample texts: the tsunami post is stored once by two
    rounds, with a probability above 0.5. *)
Example tsunami_post_stored_once :
  map Models.post_id
    (Models.social_media_posts
       (Py.run
          (NlpMain.process_posts (Fixtures.constant_sentiment (-0.5)%float)
             (Fixtures.ticking_clock 0%Z) true
             [Fixtures.tsunami_post; Fixtures.tsunami_post])
          Models.empty_world)) = ["1001"]
  /\ NlpMain.ta_is_hazard_related
       (NlpMain.analyze_text (Fixtures.constant_sentiment (-0.5)%float)
          Fixtures.tsunami_text) = true.
Proof. split; vm_compute; reflexivity. Qed.

(** C4, the claim as it is worded: the beach post has a hazard probability
    of at most 0.2, and after it is processed twice no row with its
    identity is stored, not one. *)
Lemma reingestion_leaves_no_row :
  List.length
    (NlpMain.stored "twitter" "1002"
       (Py.run
          (NlpMain.process_posts
             (Fixtures.constant_sentiment 0.5%float)
             (Fixtures.ticking_clock 0%Z) true
             [Fixtures.beach_post; Fixtures.beach_post])
          Models.empty_world)) = 0
  /\ List.length
       (NlpMain.stored "twitter" "1002"
          (Py.run
             (NlpMain.process_posts
                (Fixtures.constant_sentiment 0.5%float)
                (Fixtures.ticking_clock 0%Z) true
                [Fixtures.beach_post; Fixtures.beach_post])
             Models.empty_world)) <> 1.
Proof.
  split; [vm_compute; reflexivity|].
  intro H. vm_compute in H. discriminate H.
Qed.

(* ================================================================== *)
(** * Properties of read receipts *)

Section ReadReceipts.
Import Py Models AlertService.

Lemma same_user_alert_mark (u a : nat) (row : UserAlert) :
  same_user_alert u a (mark_read_row row) = same_user_alert u a row.
Proof. reflexivity. Qed.

Lemma read_first_twice (u a : nat) (rows : list UserAlert) :
  read_first u a (read_first u a rows) = read_first u a rows.
Proof.
  induction rows as [|row rest IH]; simpl; [reflexivity|].
  destruct (same_user_alert u a row) eqn:Hrow; simpl.
  - fold (mark_read_row row). rewrite same_user_alert_mark, Hrow.
    reflexivity.
  - now rewrite Hrow, IH.
Qed.

Lemma read_first_find (u a : nat) (rows : list UserAlert) :
  find (same_user_alert u a) (read_first u a rows)
  = option_map mark_read_row (find (same_user_alert u a) rows).
Proof.
  induction rows as [|row rest IH]; simpl; [reflexivity|].
  destruct (same_user_alert u a row) eqn:Hrow; simpl.
  - fold (mark_read_row row). now rewrite same_user_alert_mark, Hrow.
  - now rewrite Hrow, IH.
Qed.

Lemma read_first_length (u a : nat) (rows : list UserAlert) :
  List.length (read_first u a rows) = List.length rows.
Proof.
  induction rows as [|row rest IH]; simpl; [reflexivity|].
  destruct (same_user_alert u a row); simpl; congruence.
Qed.

Lemma read_first_none (u a : nat) (rows : list UserAlert) :
  find (same_user_alert u a) rows = None -> read_first u a rows = rows.
Proof.
  induction rows as [|row rest IH]; simpl; [reflexivity|].
  destruct (same_user_alert u a row); [discriminate|].
  intro H. now rewrite IH.
Qed.

(** Only a row of the pair changes, and only to "read". *)
Lemma read_first_rows (u a : nat) (rows : list UserAlert) (row : UserAlert) :
  In row (read_first u a rows) ->
  In row rows
  \/ (same_user_alert u a row = true /\ is_read row = true).
Proof.
  induction rows as [|r rest IH]; simpl; [tauto|].
  destruct (same_user_alert u a r) eqn:Hr; simpl.
  - intros [<-|Hin]; [right|left; now right].
    split; [exact Hr|reflexivity].
  - intros [<-|Hin]; [left; now left|].
    destruct (IH Hin) as [H|H]; [left; now right|now right].
Qed.

Lemma mark_alert_read_run (u a : nat) (w : World) :
  mark_alert_read u a w
  = (Return tt,
     match find (same_user_alert u a) (user_alerts w) with
     | Some _ =>
         with_user_alerts (read_first u a) (next_user_alert_id w) w
     | None => w
     end).
Proof.
  unfold mark_alert_read, try_finally, try_except, bind, get, ret, modify.
  now destruct (find (same_user_alert u a) (user_alerts w)).
Qed.

Lemma world_same_rows (w : World) :
  with_user_alerts (fun rows => rows) (next_user_alert_id w) w = w.
Proof. now destruct w. Qed.

(** C7: [mark_alert_read] never raises; a second call changes nothing
    more; the row of the pair that the query returns is read afterwards
    whatever it was before; without such a row the world stays as it
    was; and the call never adds a row, nor touches a row of another
    pair. *)
Theorem mark_read_idempotent (u a : nat) (w : World) :
  let w1 := Py.run (mark_alert_read u a) w in
  let w2 := Py.run (mark_alert_read u a) w1 in
  Py.value (mark_alert_read u a) w = Return tt
  /\ w2 = w1
  /\ match find (same_user_alert u a) (user_alerts w) with
     | Some row =>
         find (same_user_alert u a) (user_alerts w1)
         = Some (mkUserAlert (ua_id row) (ua_user_id row)
                   (ua_alert_id row) true)
     | None => w1 = w
     end
  /\ List.length (user_alerts w1) = List.length (user_alerts w)
  /\ (forall row, In row (user_alerts w1) ->
        In row (user_alerts w)
        \/ (same_user_alert u a row = true /\ is_read row = true)).
Proof.
  intros w1 w2. subst w1 w2. unfold Py.run, Py.value.
  rewrite (mark_alert_read_run u a w). simpl fst. simpl snd.
  destruct (find (same_user_alert u a) (user_alerts w)) as [row|] eqn:Hw.
  - rewrite mark_alert_read_run. simpl snd. simpl user_alerts.
    rewrite read_first_find, Hw. simpl option_map.
    repeat split.
    + unfold with_user_alerts. simpl. now rewrite read_first_twice.
    + apply read_first_length.
    + apply read_first_rows.
  - rewrite mark_alert_read_run. simpl snd. rewrite Hw.
    repeat split. intros row Hin. now left.
Qed.

End ReadReceipts.

Lemma mark_read_idempotent_witness :
  Models.is_read
    (nth 0 (Models.user_alerts
              (Py.run (AlertService.mark_alert_read 42 7)
                 (Py.run (AlertService.mark_alert_read 42 7)
                    Fixtures.small_world)))
         (Models.mkUserAlert 0 0 0 false)) = true
  /\ Py.run (AlertService.mark_alert_read 42 8) Fixtures.small_world
     = Fixtures.small_world.
Proof.
  pose proof (mark_read_idempotent 42 7 Fixtures.small_world) as H.
  cbv zeta in H. destruct H as [_ [Htwice _]].
  rewrite Htwice. split; reflexivity.
Defined.

(* ================================================================== *)
(** * Properties of the notification fanout *)

Section Fanout.
Import Py Models AlertService.

Variable channel_up : channel -> User -> bool.

Lemma with_lines_app (l1 l2 : list string) (w : World) :
  with_lines (l1 ++ l2) w = with_lines l2 (with_lines l1 w).
Proof. unfold with_lines. apply fold_left_app. Qed.

Lemma stdout_with_lines (lines : list string) (w : World) :
  stdout (with_lines lines w) = stdout w ++ lines.
Proof.
  revert w. induction lines as [|line rest IH]; intro w; simpl.
  - now rewrite app_nil_r.
  - unfold with_lines in IH. rewrite IH. simpl. now rewrite <- app_assoc.
Qed.

Lemma send_email_run (user : User) (alert : Alert) (w : World) :
  _send_email_notification channel_up user alert w
  = (Return tt,
     with_lines
       ([email_line user alert]
        ++ (if channel_up Email user then []
            else [email_error_line user (channel_error Email)])) w).
Proof.
  unfold _send_email_notification, deliver, try_except, bind, print, modify.
  now destruct (channel_up Email user).
Qed.

Lemma send_sms_run (user : User) (alert : Alert) (w : World) :
  _send_sms_notification channel_up user alert w
  = (Return tt,
     with_lines
       ([sms_line user alert]
        ++ (if channel_up SMS user then []
            else [sms_error_line user (channel_error SMS)])) w).
Proof.
  unfold _send_sms_notification, deliver, try_except, bind, print, modify.
  now destruct (channel_up SMS user).
Qed.

Lemma send_push_run (user : User) (alert : Alert) (w : World) :
  _send_push_notification channel_up user alert w
  = (Return tt,
     with_lines
       ([push_line user alert]
        ++ (if channel_up Push user then []
            else [push_error_line user (channel_error Push)])) w).
Proof.
  unfold _send_push_notification, deliver, try_except, bind, print, modify.
  now destruct (channel_up Push user).
Qed.

(** The fanout returns normally and prints, user after user, the lines
    of [user_lines]; nothing else in the world changes. *)
Lemma send_notifications_run (alert : Alert) (us : list User) (w : World) :
  _send_notifications channel_up alert us w
  = (Return tt, with_lines (flat_map (user_lines channel_up alert) us) w).
Proof.
  unfold _send_notifications. revert w.
  induction us as [|user rest IH]; intro w; [reflexivity|].
  simpl for_each. unfold bind at 1. unfold try_except at 1.
  unfold bind at 1. rewrite send_email_run.
  unfold bind at 1.
  assert (Hsms :
    (if has_phone user then _send_sms_notification channel_up user alert
     else ret tt)
      (with_lines
         ([email_line user alert]
          ++ (if channel_up Email user then []
              else [email_error_line user (channel_error Email)])) w)
    = (Return tt,
       with_lines
         (if has_phone user
          then [sms_line user alert]
               ++ (if channel_up SMS user then []
                   else [sms_error_line user (channel_error SMS)])
          else [])
         (with_lines
            ([email_line user alert]
             ++ (if channel_up Email user then []
                 else [email_error_line user (channel_error Email)])) w))).
  { destruct (has_phone user); [apply send_sms_run|reflexivity]. }
  rewrite Hsms, send_push_run, IH.
  change (flat_map (user_lines channel_up alert) (user :: rest))
    with (user_lines channel_up alert user
          ++ flat_map (user_lines channel_up alert) rest).
  rewrite (with_lines_app (user_lines channel_up alert user)).
  unfold user_lines at 3.
  now rewrite !with_lines_app.
Qed.

Lemma in_user_lines (alert : Alert) (us : list User) (user : User)
    (line : string) :
  In user us -> In line (user_lines channel_up alert user) ->
  In line (flat_map (user_lines channel_up alert) us).
Proof. intros Hu Hl. apply in_flat_map. now exists user. Qed.

(** C8 (as amended): whatever channels fail, and in particular when the
    email channel fails for a user, the fanout returns normally; for
    every user of the target set the email and the push channel are
    tried, and the SMS channel is tried for every user with a phone
    number; an email failure is printed, not raised. *)
Theorem channel_failures_are_isolated (alert : Alert) (us : list User)
    (w : World) (user : User) :
  In user us ->
  let out := stdout (Py.run (_send_notifications channel_up alert us) w) in
  Py.value (_send_notifications channel_up alert us) w = Return tt
  /\ In (email_line user alert) out
  /\ (has_phone user = true -> In (sms_line user alert) out)
  /\ In (push_line user alert) out
  /\ (channel_up Email user = false ->
      In (email_error_line user (ConnectionError "email_service")) out)
  /\ out = stdout w ++ flat_map (user_lines channel_up alert) us.
Proof.
  intros Hin out. subst out. unfold Py.run, Py.value.
  rewrite send_notifications_run. simpl fst. simpl snd.
  rewrite stdout_with_lines.
  split; [reflexivity|].
  assert (Hline : forall line,
             In line (user_lines channel_up alert user) ->
             In line (stdout w ++ flat_map (user_lines channel_up alert) us)).
  { intros line Hl. apply in_or_app. right.
    now apply in_user_lines with user. }
  repeat split.
  - apply Hline. unfold user_lines. now left.
  - intro Hphone. apply Hline. unfold user_lines. rewrite Hphone.
    apply in_or_app. right. apply in_or_app. right.
    apply in_or_app. left. now left.
  - apply Hline. unfold user_lines.
    apply in_or_app. right. apply in_or_app. right.
    apply in_or_app. right. now left.
  - intro Hdown. apply Hline. unfold user_lines. rewrite Hdown.
    apply in_or_app. right. apply in_or_app. left. now left.
Qed.

End Fanout.

Lemma channel_failures_are_isolated_witness :
  In Fixtures.asha [Fixtures.asha; Fixtures.ravi]
  /\ In (AlertService.push_line Fixtures.asha Fixtures.tsunami_alert)
        (Models.stdout
           (Py.run
              (AlertService._send_notifications (Fixtures.email_down_for 42)
                 Fixtures.tsunami_alert [Fixtures.asha; Fixtures.ravi])
              Fixtures.small_world)).
Proof.
  split; [now left|].
  exact (proj1 (proj2 (proj2 (proj2
           (channel_failures_are_isolated (Fixtures.email_down_for 42)
              Fixtures.tsunami_alert [Fixtures.asha; Fixtures.ravi]
              Fixtures.small_world Fixtures.asha (or_introl eq_refl)))))).
Defined.

(** C8, the claim as it is worded: the second user has no phone number;
    when the email channel fails for that user the push channel is tried
    but the SMS channel is not. *)
Lemma sms_skipped_without_phone :
  Fixtures.email_down_for 43 AlertService.Email Fixtures.ravi = false
  /\ In (AlertService.push_line Fixtures.ravi Fixtures.tsunami_alert)
        (Models.stdout
           (Py.run
              (AlertService._send_notifications (Fixtures.email_down_for 43)
                 Fixtures.tsunami_alert [Fixtures.asha; Fixtures.ravi])
              Fixtures.small_world))
  /\ ~ In (AlertService.sms_line Fixtures.ravi Fixtures.tsunami_alert)
          (Models.stdout
             (Py.run
                (AlertService._send_notifications (Fixtures.email_down_for 43)
                   Fixtures.tsunami_alert [Fixtures.asha; Fixtures.ravi])
                Fixtures.small_world)).
Proof.
  split; [reflexivity|]. split.
  - vm_compute. tauto.
  - intro H. vm_compute in H.
    repeat (destruct H as [H|H]; [discriminate H|]). exact H.
Qed.

(** What the fanout prints in that run. *)
Example fanout_with_email_down :
  Models.stdout
    (Py.run
       (AlertService._send_notifications (Fixtures.email_down_for 43)
          Fixtures.tsunami_alert [Fixtures.asha; Fixtures.ravi])
       Fixtures.small_world)
  = [ "Sending email alert to asha@example.org: Tsunami Alert";
      "Sending SMS alert to +911234567890: Tsunami Alert";
      "Sending push notification to user 42: Tsunami Alert";
      "Sending email alert to ravi@example.org: Tsunami Alert";
      "Error sending email to ravi@example.org: Error connecting to email_service";
      "Sending push notification to user 43: Tsunami Alert" ].
Proof. vm_compute. reflexivity. Qed.

(* ================================================================== *)
(** * Properties of the alert life cycle *)

Section AlertsTableEvolves.
Import Py Models System.

Lemma row_step_refl (row : Alert) : row_step row row.
Proof. now left. Qed.

Lemma deactivate_twice (row : Alert) :
  AlertService.deactivate (AlertService.deactivate row)
  = AlertService.deactivate row.
Proof. reflexivity. Qed.

Lemma deactivate_inactive (row : Alert) :
  is_active row = false -> AlertService.deactivate row = row.
Proof. destruct row; simpl; intro H; now subst. Qed.

Lemma row_step_trans (r1 r2 r3 : Alert) :
  row_step r1 r2 -> row_step r2 r3 -> row_step r1 r3.
Proof.
  intros [->| ->] [->| ->]; try (now left); now right.
Qed.

Lemma evolves_refl (w : World) : evolves w w.
Proof. intros i row H. exists row. split; [exact H|apply row_step_refl]. Qed.

Lemma evolves_trans (w1 w2 w3 : World) :
  evolves w1 w2 -> evolves w2 w3 -> evolves w1 w3.
Proof.
  intros H12 H23 i row H.
  destruct (H12 i row H) as [row2 [H2 S12]].
  destruct (H23 i row2 H2) as [row3 [H3 S23]].
  exists row3. split; [exact H3|now apply row_step_trans with row2].
Qed.

Lemma evolves_same (w w' : World) : alerts w' = alerts w -> evolves w w'.
Proof.
  intros E i row H. exists row. rewrite E.
  split; [exact H|apply row_step_refl].
Qed.

Lemma evolves_insert (w : World) (row : Alert) (n : nat) :
  evolves w (with_alerts (fun rows => rows ++ [row]) n w).
Proof.
  intros i r H. exists r. simpl. split; [|apply row_step_refl].
  rewrite nth_error_app1; [exact H|].
  apply nth_error_Some. congruence.
Qed.

Lemma evolves_sweep (w : World) (f : Alert -> bool) (n : nat) :
  evolves w
    (with_alerts
       (map (fun row => if f row then AlertService.deactivate row else row))
       n w).
Proof.
  intros i r H. simpl. rewrite nth_error_map, H. simpl.
  destruct (f r); eexists; split; try reflexivity; [now right|now left].
Qed.

(** ** The statements keep the table evolving *)

Lemma keeps_ret {A} (a : A) : keeps (ret a).
Proof. intro w. apply evolves_refl. Qed.

Lemma keeps_raise {A} (e : exn) : keeps (@raise World A e).
Proof. intro w. apply evolves_refl. Qed.

Lemma keeps_get : keeps (@get World).
Proof. intro w. apply evolves_refl. Qed.

Lemma keeps_modify (f : World -> World) :
  (forall w, evolves w (f w)) -> keeps (modify f).
Proof. intros H w. apply H. Qed.

Lemma keeps_bind {A B} (m : M World A) (k : A -> M World B) :
  keeps m -> (forall a, keeps (k a)) -> keeps (bind m k).
Proof.
  intros Hm Hk w. unfold bind. specialize (Hm w).
  destruct (m w) as [[a|e] w']; simpl in *; [|exact Hm].
  apply evolves_trans with w'; [exact Hm|apply Hk].
Qed.

Lemma keeps_try_except {A} (body : M World A) (handler : exn -> M World A) :
  keeps body -> (forall e, keeps (handler e)) ->
  keeps (try_except body handler).
Proof.
  intros Hb Hh w. unfold try_except. specialize (Hb w).
  destruct (body w) as [[a|e] w']; simpl in *; [exact Hb|].
  apply evolves_trans with w'; [exact Hb|apply Hh].
Qed.

Lemma keeps_try_finally {A} (body : M World A) (cleanup : M World unit) :
  keeps body -> keeps cleanup -> keeps (try_finally body cleanup).
Proof.
  intros Hb Hc w. unfold try_finally. specialize (Hb w).
  destruct (body w) as [r w']. specialize (Hc w').
  destruct (cleanup w') as [[u|e] w'']; simpl in *;
    now apply evolves_trans with w'.
Qed.

Lemma keeps_for_each {A} (xs : list A) (body : A -> M World unit) :
  (forall x, keeps (body x)) -> keeps (for_each xs body).
Proof.
  intro Hb. induction xs as [|x rest IH]; simpl.
  - apply keeps_ret.
  - apply keeps_bind; [apply Hb|intros _; exact IH].
Qed.

Lemma keeps_print (line : string) : keeps (print line).
Proof. apply keeps_modify. intro w. now apply evolves_same. Qed.

Lemma keeps_utcnow (clock : nat -> datetime) : keeps (utcnow clock).
Proof. intro w. now apply evolves_same. Qed.

Lemma keeps_redis_publish (redis_up : bool) (channel : string)
    (payload : list (string * json)) :
  keeps (redis_publish redis_up channel payload).
Proof.
  unfold redis_publish. destruct redis_up; [|apply keeps_raise].
  apply keeps_modify. intro w. now apply evolves_same.
Qed.

Lemma keeps_load_global (names : list string) (name : string) :
  keeps (AlertService.load_global names name).
Proof.
  unfold AlertService.load_global.
  destruct (existsb _ names); [apply keeps_ret|apply keeps_raise].
Qed.

End AlertsTableEvolves.

Create HintDb keeps.

#[local] Hint Resolve keeps_ret keeps_raise keeps_get keeps_print
  keeps_utcnow keeps_redis_publish keeps_load_global : keeps.

(** One step of a proof that a statement keeps the table evolving. *)
Ltac keeps_step :=
  match goal with
  | |- System.keeps (Py.bind _ _) => apply keeps_bind
  | |- System.keeps (Py.try_except _ _) => apply keeps_try_except
  | |- System.keeps (Py.try_finally _ _) => apply keeps_try_finally
  | |- System.keeps (Py.for_each _ _) => apply keeps_for_each
  | |- System.keeps (if ?b then _ else _) => destruct b
  | |- System.keeps (match ?x with Some _ => _ | None => _ end) => destruct x
  | |- forall _, _ => intro
  | |- System.keeps _ => solve [auto with keeps]
  end.

Ltac keeps_auto := repeat keeps_step.

Section OperationsKeepAlerts.
Import Py Models System.

Variable polarity_compound : string -> float.
Variable clock : nat -> datetime.
Variable redis_up : bool.
Variable channel_up : AlertService.channel -> User -> bool.
Variable hotspots_up : bool.
Variable timestamp_text : datetime -> string.
Variable uploads_writable : bool.
Variable convert : Schemas.annotation -> Schemas.value -> option Schemas.value.

Lemma alerts_add_user_alerts (us : list User) (alert : Alert) (w : World) :
  alerts (AlertService.add_user_alerts us alert w) = alerts w.
Proof.
  revert w. induction us as [|user rest IH]; intro w; simpl;
    [reflexivity|]. now rewrite IH.
Qed.

Lemma keeps_deliver (c : AlertService.channel) (user : User) :
  keeps (AlertService.deliver channel_up c user).
Proof. unfold AlertService.deliver. keeps_auto. Qed.

Lemma keeps_send_notifications (alert : Alert) (us : list User) :
  keeps (AlertService._send_notifications channel_up alert us).
Proof.
  unfold AlertService._send_notifications,
    AlertService._send_email_notification,
    AlertService._send_sms_notification,
    AlertService._send_push_notification.
  keeps_auto; apply keeps_deliver.
Qed.

Lemma keeps_notify_users (alert : Alert) :
  keeps (AlertService._notify_users channel_up alert).
Proof.
  unfold AlertService._notify_users. keeps_auto.
  - apply keeps_modify. intro w. apply evolves_same.
    apply alerts_add_user_alerts.
  - apply keeps_send_notifications.
Qed.

Lemma keeps_publish_alert (alert : Alert) :
  keeps (AlertService._publish_alert redis_up alert).
Proof. unfold AlertService._publish_alert. keeps_auto. Qed.

Lemma keeps_create_alert (alert_type title message severity : string)
    (affected_area : option string) (source : string) :
  keeps (AlertService.create_alert clock redis_up channel_up alert_type
           title message severity affected_area source).
Proof.
  unfold AlertService.create_alert. keeps_auto.
  - apply keeps_modify. intro w. apply evolves_insert.
  - apply keeps_notify_users.
  - apply keeps_publish_alert.
Qed.

Lemma keeps_mark_alert_read (u a : nat) :
  keeps (AlertService.mark_alert_read u a).
Proof.
  unfold AlertService.mark_alert_read. keeps_auto.
Qed.

Lemma keeps_generate_alert_from_report (report : HazardReport) :
  keeps (AlertService.generate_alert_from_report clock redis_up channel_up
           report).
Proof.
  unfold AlertService.generate_alert_from_report. keeps_auto.
  apply keeps_create_alert.
Qed.

Lemma keeps_cleanup_expired_alerts :
  keeps (AlertService.cleanup_expired_alerts clock).
Proof.
  unfold AlertService.cleanup_expired_alerts. keeps_auto.
  apply keeps_modify. intro w. apply evolves_sweep.
Qed.

Lemma keeps_process_report_alerts :
  keeps (AlertService.process_report_alerts clock redis_up channel_up).
Proof.
  unfold AlertService.process_report_alerts. keeps_auto.
  apply keeps_generate_alert_from_report.
Qed.

Lemma keeps_notify_affected_users (alert : Alert) :
  keeps (Incois._notify_affected_users alert).
Proof.
  unfold Incois._notify_affected_users, Incois._send_push_notifications.
  keeps_auto.
Qed.

Lemma keeps_store_alerts (feed : list Incois.AlertData) :
  keeps (Incois.store_alerts feed).
Proof.
  unfold Incois.store_alerts. keeps_auto.
  - apply keeps_modify. intro w. apply evolves_insert.
  - apply keeps_notify_affected_users.
Qed.

Lemma keeps_process_single_post (post_data : NlpMain.PostData) :
  keeps (NlpMain.process_single_post polarity_compound clock redis_up
           post_data).
Proof.
  unfold NlpMain.process_single_post, NlpMain.add_social_post.
  keeps_auto.
Qed.

Lemma keeps_create_hazard_report (title description hazard_type
    severity : string) (latitude longitude : float)
    (file : option BackendMain.UploadFile) (current_user : User) :
  keeps (BackendMain.create_hazard_report clock redis_up hotspots_up
           timestamp_text uploads_writable convert title description hazard_type
           severity latitude longitude file current_user).
Proof.
  unfold BackendMain.create_hazard_report,
    BackendMain.generate_hotspots_async, BackendMain.save_upload,
    Schemas.from_orm.
  keeps_auto.
Qed.

Lemma keeps_perform (op : operation) :
  keeps (perform polarity_compound clock redis_up channel_up hotspots_up
           timestamp_text uploads_writable convert op).
Proof.
  destruct op; simpl; keeps_auto.
  - apply keeps_create_alert.
  - apply keeps_generate_alert_from_report.
  - apply keeps_process_report_alerts.
  - apply keeps_cleanup_expired_alerts.
  - apply keeps_mark_alert_read.
  - apply keeps_store_alerts.
  - apply keeps_process_single_post.
  - apply keeps_create_hazard_report.
Qed.

Lemma keeps_perform_all (ops : list operation) :
  keeps (perform_all polarity_compound clock redis_up channel_up
           hotspots_up timestamp_text uploads_writable convert ops).
Proof. unfold perform_all. keeps_auto. apply keeps_perform. Qed.

End OperationsKeepAlerts.

Section AlertLifeCycle.
Import Py Models System AlertService.

Variable polarity_compound : string -> float.
Variable clock : nat -> datetime.
Variable redis_up : bool.
Variable channel_up : channel -> User -> bool.
Variable hotspots_up : bool.
Variable timestamp_text : datetime -> string.
Variable uploads_writable : bool.
Variable convert : Schemas.annotation -> Schemas.value -> option Schemas.value.

Lemma alerts_with_lines (lines : list string) (w : World) :
  alerts (with_lines lines w) = alerts w.
Proof.
  revert w. induction lines as [|line rest IH]; intro w; simpl;
    [reflexivity|].
  unfold with_lines in IH. now rewrite IH.
Qed.

Lemma notify_users_run (alert : Alert) (w : World) :
  _notify_users channel_up alert w
  = (Return tt,
     with_lines (flat_map (user_lines channel_up alert) (users w))
       (add_user_alerts (users w) alert w)).
Proof.
  unfold _notify_users, try_except, bind, get, modify.
  now rewrite send_notifications_run.
Qed.

Lemma publish_alert_run (alert : Alert) (w : World) :
  fst (_publish_alert redis_up alert w) = Return tt
  /\ alerts (snd (_publish_alert redis_up alert w)) = alerts w.
Proof.
  unfold _publish_alert, try_except, redis_publish, modify, raise, print.
  now destruct redis_up.
Qed.

(** [create_alert] returns the new row, whatever the channels and Redis
    do, and the row is appended to the table. *)
Lemma create_alert_run (alert_type title message severity : string)
    (affected_area : option string) (source : string) (w : World) :
  fst (create_alert clock redis_up channel_up alert_type title message
         severity affected_area source w)
  = Return (new_alert clock w alert_type title message severity
              affected_area source)
  /\ alerts (snd (create_alert clock redis_up channel_up alert_type title
                    message severity affected_area source w))
     = alerts w
       ++ [new_alert clock w alert_type title message severity
             affected_area source].
Proof.
  unfold create_alert, try_finally, try_except, new_alert.
  unfold bind, utcnow, get, modify, ret. cbv beta iota.
  rewrite !notify_users_run.
  match goal with
  | |- context [_publish_alert redis_up ?a ?w'] =>
      destruct (publish_alert_run a w') as [Hv Hw];
      destruct (_publish_alert redis_up a w') as [[[]|e] w'']
  end; cbn [fst snd] in Hv, Hw; [|discriminate Hv].
  cbn [fst snd]. split; [reflexivity|].
  rewrite Hw, alerts_with_lines, alerts_add_user_alerts. reflexivity.
Qed.

Lemma cleanup_run (w : World) :
  fst (cleanup_expired_alerts clock w) = Return tt
  /\ alerts (snd (cleanup_expired_alerts clock w))
     = map (fun row =>
              if expired (clock (ticks w)) row then deactivate row else row)
           (alerts w).
Proof. split; reflexivity. Qed.

(** The suppression lookup never gets as far as the query: reading [db]
    raises, the handler prints, and the method returns [None]. *)
Lemma generate_alert_from_report_none (report : HazardReport) (w : World) :
  fst (generate_alert_from_report clock redis_up channel_up report w)
  = Return None
  /\ alerts (snd (generate_alert_from_report clock redis_up channel_up
                    report w)) = alerts w.
Proof.
  unfold generate_alert_from_report, try_except.
  destruct (negb (existsb (String.eqb (severity report))
                    ["high"; "critical"])); split; reflexivity.
Qed.

Lemma evolved_inactive (w w' : World) (i : nat) (row : Alert) :
  evolves w w' ->
  nth_error (alerts w) i = Some row -> is_active row = false ->
  nth_error (alerts w') i = Some row.
Proof.
  intros He Hrow Hoff. destruct (He i row Hrow) as [row' [H' [->| ->]]].
  - exact H'.
  - now rewrite (deactivate_inactive row Hoff) in H'.
Qed.

Lemma evolved_length (w w' : World) :
  evolves w w' -> List.length (alerts w) <= List.length (alerts w').
Proof.
  intro He. destruct (alerts w) as [|r l] eqn:E using rev_ind.
  - simpl. lia.
  - clear IHl.
    assert (Hlast : nth_error (alerts w) (List.length l) = Some r).
    { rewrite E, nth_error_app2 by lia. now rewrite Nat.sub_diag. }
    destruct (He _ _ Hlast) as [r' [H' _]].
    assert (List.length l < List.length (alerts w'))
      by (apply nth_error_Some; congruence).
    rewrite length_app. simpl. lia.
Qed.

(** C6 (as amended): [create_alert] returns and stores an active alert
    whose [expires_at] is 24 hours after a second reading of the clock,
    so no earlier than [created_at] plus 24 hours on a clock that does not
    run backwards, and equal to it when the two readings agree; the sweep
    deactivates every active alert with [expires_at] before its reading
    of the clock and changes nothing else; and whatever operations run
    afterwards, an inactive alert stays in the table, at its place and
    inactive, and the table never loses a row. *)
Theorem alert_life_cycle (alert_type title message severity : string)
    (affected_area : option string) (source : string)
    (ops : list operation) (w : World) :
  let created :=
    new_alert clock w alert_type title message severity affected_area
      source in
  let swept := Py.run (cleanup_expired_alerts clock) w in
  let later :=
    Py.run (perform_all polarity_compound clock redis_up channel_up
              hotspots_up timestamp_text uploads_writable convert ops) w in
  (Py.value (create_alert clock redis_up channel_up alert_type title
               message severity affected_area source) w = Return created
   /\ alerts (Py.run (create_alert clock redis_up channel_up alert_type
                        title message severity affected_area source) w)
      = alerts w ++ [created]
   /\ is_active created = true
   /\ created_at created = clock (ticks w)
   /\ expires_at created = Some (clock (S (ticks w)) + hours 24)%Z
   /\ (clock (S (ticks w)) = clock (ticks w) ->
       expires_at created = Some (created_at created + hours 24)%Z)
   /\ ((clock (ticks w) <= clock (S (ticks w)))%Z ->
       exists t, expires_at created = Some t
                 /\ (created_at created + hours 24 <= t)%Z))
  /\ (alerts swept
      = map (fun row =>
               if expired (clock (ticks w)) row then deactivate row
               else row) (alerts w)
      /\ (forall row t,
            In row (alerts w) -> is_active row = true ->
            expires_at row = Some t -> (t < clock (ticks w))%Z ->
            In (deactivate row) (alerts swept)
            /\ is_active (deactivate row) = false)
      /\ (forall row,
            In row (alerts w) -> expired (clock (ticks w)) row = false ->
            In row (alerts swept)))
  /\ ((forall i row,
         nth_error (alerts w) i = Some row -> is_active row = false ->
         nth_error (alerts later) i = Some row)
      /\ List.length (alerts w) <= List.length (alerts later)).
Proof.
  intros created swept later. subst created swept later.
  unfold Py.run, Py.value.
  destruct (create_alert_run alert_type title message severity
              affected_area source w) as [Hv Hw].
  destruct (cleanup_run w) as [_ Hsweep].
  pose proof (keeps_perform_all polarity_compound clock redis_up channel_up
                hotspots_up timestamp_text uploads_writable convert ops w) as Hk.
  split; [|split].
  - split; [exact Hv|]. split; [exact Hw|]. repeat split.
    + intro Hsame. simpl. now rewrite Hsame.
    + intro Hmono. eexists. split; [reflexivity|]. simpl. lia.
  - split; [exact Hsweep|]. rewrite Hsweep. split.
    + intros row t Hin Hon Hexp Hlt. split; [|reflexivity].
      apply in_map_iff. exists row. split; [|exact Hin].
      unfold expired. rewrite Hexp, Hon.
      now replace (t <? clock (ticks w))%Z with true
        by (symmetry; apply Z.ltb_lt; exact Hlt).
    + intros row Hin Hkeep. apply in_map_iff. exists row.
      now rewrite Hkeep.
  - split.
    + intros i row Hrow Hoff. now apply evolved_inactive with w.
    + now apply evolved_length.
Qed.

End AlertLifeCycle.

(** With a clock that never runs backwards the new alert expires no
    earlier than 24 hours after its creation. *)
Lemma alert_life_cycle_witness :
  (Fixtures.ticking_clock 0%Z (Models.ticks Fixtures.small_world)
   <= Fixtures.ticking_clock 0%Z (S (Models.ticks Fixtures.small_world)))%Z
  /\ exists t,
       Models.expires_at
         (AlertService.new_alert (Fixtures.ticking_clock 0%Z)
            Fixtures.small_world "flooding" "Coastal Flooding Alert"
            "Avoid low-lying areas." "high" None "system") = Some t
       /\ (Models.created_at
             (AlertService.new_alert (Fixtures.ticking_clock 0%Z)
                Fixtures.small_world "flooding" "Coastal Flooding Alert"
                "Avoid low-lying areas." "high" None "system")
           + Models.hours 24 <= t)%Z.
Proof.
  assert (Hclock :
    (Fixtures.ticking_clock 0%Z (Models.ticks Fixtures.small_world)
     <= Fixtures.ticking_clock 0%Z (S (Models.ticks Fixtures.small_world)))%Z)
    by (intro H; discriminate H).
  split; [exact Hclock|].
  pose proof (alert_life_cycle (Fixtures.constant_sentiment 0%float)
                (Fixtures.ticking_clock 0%Z) true Fixtures.all_channels_up
                true (fun _ => "0") true (fun _ _ => None)
                "flooding" "Coastal Flooding Alert" "Avoid low-lying areas."
                "high" None "system" [System.CleanupExpiredAlerts]
                Fixtures.small_world) as H.
  cbv zeta in H.
  destruct H as [[_ [_ [_ [_ [_ [_ Hmono]]]]]] _].
  exact (Hmono Hclock).
Defined.

(** C6, the claim as it is worded: the clock is read twice, and on a clock
    that ticks between the two readings the new alert expires one tick
    later than 24 hours after [created_at]. *)
Lemma expiry_counts_from_second_reading :
  exists alert,
    Py.value
      (AlertService.create_alert (Fixtures.ticking_clock 0%Z) true
         Fixtures.all_channels_up "flooding" "Coastal Flooding Alert"
         "Avoid low-lying areas." "high" None "system")
      Fixtures.small_world = Py.Return alert
    /\ Models.is_active alert = true
    /\ Models.created_at alert = 0%Z
    /\ Models.expires_at alert = Some (1 + Models.hours 24)%Z
    /\ Models.expires_at alert
       <> Some (Models.created_at alert + Models.hours 24)%Z.
Proof.
  eexists. split; [vm_compute; reflexivity|].
  repeat split. intro H. discriminate H.
Qed.

(** The sweep at work: an alert created at 0 is still active after a sweep
    at hour 24 and inactive after a sweep later than its expiry, and a
    further sweep leaves it inactive. *)
Example sweep_deactivates_expired :
  map Models.is_active
    (Models.alerts
       (Py.run (AlertService.cleanup_expired_alerts
                  (Fixtures.ticking_clock (Models.hours 24)))
          Fixtures.small_world)) = [true]
  /\ map Models.is_active
       (Models.alerts
          (Py.run (AlertService.cleanup_expired_alerts
                     (Fixtures.ticking_clock (Models.hours 25)))
             Fixtures.small_world)) = [false]
  /\ map Models.is_active
       (Models.alerts
          (Py.run (AlertService.cleanup_expired_alerts
                     (Fixtures.ticking_clock (Models.hours 25)))
             (Py.run (AlertService.cleanup_expired_alerts
                        (Fixtures.ticking_clock (Models.hours 25)))
                Fixtures.small_world))) = [false].
Proof. repeat split. Qed.

(** C1, at the failing input: the world holds an active tsunami alert from
    crowdsourced reports, created ten minutes before; the suppression query
    would find it; but the method reads [db], which nothing binds, so it
    prints the error and returns [None] instead of that alert. *)
Theorem suppression_lookup_returns_none :
  find (AlertService.similar_alert "tsunami" Fixtures.ten_minutes)
       (Models.alerts Fixtures.small_world) = Some Fixtures.tsunami_alert
  /\ Models.source Fixtures.tsunami_alert = "crowdsourced"
  /\ existsb (String.eqb "db") AlertService.module_names = false
  /\ Py.value
       (AlertService.generate_alert_from_report
          (Fixtures.ticking_clock Fixtures.ten_minutes) true
          Fixtures.all_channels_up Fixtures.tsunami_report)
       Fixtures.small_world = Py.Return None
  /\ Models.stdout
       (Py.run
          (AlertService.generate_alert_from_report
             (Fixtures.ticking_clock Fixtures.ten_minutes) true
             Fixtures.all_channels_up Fixtures.tsunami_report)
          Fixtures.small_world)
     = ["Error generating alert from report: name 'db' is not defined"].
Proof. repeat split. Qed.

(** The same holds for every report in every world: the method returns
    [None] and creates nothing. *)
Lemma generate_alert_never_returns_alert
    (clock : nat -> Models.datetime) (redis_up : bool)
    (channel_up : AlertService.channel -> Models.User -> bool)
    (report : Models.HazardReport) (w : Models.World) :
  Py.value
    (AlertService.generate_alert_from_report clock redis_up channel_up report)
    w = Py.Return None
  /\ Models.alerts
       (Py.run
          (AlertService.generate_alert_from_report clock redis_up channel_up
             report) w) = Models.alerts w.
Proof. apply generate_alert_from_report_none. Qed.

(* ================================================================== *)
(** * Properties of the alert summary *)

Section AlertSummary.
Import Py Models Incois.

Lemma count_up_keys (key k : string) (d : list (string * nat)) :
  In k (map fst (count_up key d)) <-> k = key \/ In k (map fst d).
Proof.
  induction d as [|[k' n] rest IH]; simpl.
  - intuition.
  - destruct (String.eqb_spec k' key) as [->|Hne]; simpl; [intuition|].
    rewrite IH. intuition.
Qed.

Lemma tally_keys (keys : list string) (k : string)
    (d : list (string * nat)) :
  In k (map fst (tally keys d)) <-> In k keys \/ In k (map fst d).
Proof.
  revert d. induction keys as [|key rest IH]; intro d; simpl.
  - intuition.
  - rewrite IH, count_up_keys. intuition.
Qed.

Lemma index_from_spec (i : nat) (x : string) (xs : list string) :
  (In x xs -> exists n, index_from i x xs = Return n)
  /\ (~ In x xs ->
      index_from i x xs
      = Raise (ValueError ("'" ++ x ++ "' is not in list")%string)).
Proof.
  revert i. induction xs as [|y rest IH]; intro i; simpl.
  - split; [tauto|reflexivity].
  - destruct (String.eqb_spec y x) as [->|Hne].
    + split; [now exists i|]. intro H. exfalso. apply H. now left.
    + destruct (IH (S i)) as [IHin IHout]. split.
      * intros [H|H]; [contradiction|now apply IHin].
      * intro H. apply IHout. intro Hin. apply H. now right.
Qed.

(** The loop of [max] returns when every key can be computed: an item
    whose key is at least the key of every other item. *)
Lemma max_loop_returns {A} (key : A -> outcome nat) (items : list A)
    (m : A) (mv : nat) :
  key m = Return mv ->
  (forall x, In x items -> exists n, key x = Return n) ->
  exists x xv,
    max_loop key items m mv = Return x
    /\ key x = Return xv
    /\ (x = m \/ In x items)
    /\ mv <= xv
    /\ (forall y, In y items -> exists n, key y = Return n /\ n <= xv).
Proof.
  revert m mv. induction items as [|item rest IH]; intros m mv Hm Hall.
  - exists m, mv. simpl.
    split; [reflexivity|]. split; [exact Hm|]. split; [now left|].
    split; [lia|]. intros y [].
  - simpl. destruct (Hall item (or_introl eq_refl)) as [val Hval].
    rewrite Hval.
    assert (Hrest : forall x, In x rest -> exists n, key x = Return n)
      by (intros x Hx; apply Hall; now right).
    destruct (Nat.ltb_spec mv val) as [Hlt|Hge].
    + destruct (IH item val Hval Hrest) as [x [xv [Hr [Hk [Hin [Hle Hmax]]]]]].
      exists x, xv.
      split; [exact Hr|]. split; [exact Hk|]. split; [|split; [lia|]].
      * destruct Hin as [->|Hin]; right; [now left|now right].
      * intros y [<-|Hy]; [exists val; split; [exact Hval|exact Hle]|].
        now apply Hmax.
    + destruct (IH m mv Hm Hrest) as [x [xv [Hr [Hk [Hin [Hle Hmax]]]]]].
      exists x, xv.
      split; [exact Hr|]. split; [exact Hk|]. split; [|split; [lia|]].
      * destruct Hin as [->|Hin]; [now left|right; now right].
      * intros y [<-|Hy]; [exists val; split; [exact Hval|lia]|].
        now apply Hmax.
Qed.

Lemma py_max_returns {A} (key : A -> outcome nat) (items : list A) :
  items <> [] ->
  (forall x, In x items -> exists n, key x = Return n) ->
  exists x xv,
    py_max key items = Return x
    /\ key x = Return xv
    /\ In x items
    /\ (forall y, In y items -> exists n, key y = Return n /\ n <= xv).
Proof.
  destruct items as [|item rest]; [congruence|]. intros _ Hall.
  simpl. destruct (Hall item (or_introl eq_refl)) as [val Hval].
  rewrite Hval.
  destruct (max_loop_returns key rest item val Hval) as
    [x [xv [Hr [Hk [Hin [Hle Hmax]]]]]].
  { intros x Hx. apply Hall. now right. }
  exists x, xv.
  split; [exact Hr|]. split; [exact Hk|]. split.
  - destruct Hin as [->|Hin]; [now left|now right].
  - intros y [<-|Hy]; [exists val; split; [exact Hval|exact Hle]|].
    now apply Hmax.
Qed.

(** The loop raises as soon as some key cannot be computed, with the
    exception of one of the keys. *)
Lemma max_loop_raises {A} (key : A -> outcome nat) (items : list A)
    (m : A) (mv : nat) (bad : A) (e0 : exn) :
  In bad items -> key bad = Raise e0 ->
  exists z e, max_loop key items m mv = Raise e
              /\ In z items /\ key z = Raise e.
Proof.
  revert m mv. induction items as [|item rest IH]; intros m mv Hin Hbad.
  - destruct Hin.
  - simpl. destruct (key item) as [val|e] eqn:Hitem.
    + destruct Hin as [->|Hin]; [congruence|].
      destruct (mv <? val).
      * destruct (IH item val Hin Hbad) as [z [e [Hr [Hz He]]]].
        exists z, e. split; [exact Hr|]. split; [now right|exact He].
      * destruct (IH m mv Hin Hbad) as [z [e [Hr [Hz He]]]].
        exists z, e. split; [exact Hr|]. split; [now right|exact He].
    + exists item, e. split; [reflexivity|]. split; [now left|exact Hitem].
Qed.

Lemma py_max_raises {A} (key : A -> outcome nat) (items : list A)
    (bad : A) (e0 : exn) :
  In bad items -> key bad = Raise e0 ->
  exists z e, py_max key items = Raise e /\ In z items /\ key z = Raise e.
Proof.
  destruct items as [|item rest]; [intros []|]. intros Hin Hbad. simpl.
  destruct (key item) as [val|e] eqn:Hitem.
  - destruct Hin as [->|Hin]; [congruence|].
    destruct (max_loop_raises key rest item val bad e0 Hin Hbad)
      as [z [e [Hr [Hz He]]]].
    exists z, e. split; [exact Hr|]. split; [now right|exact He].
  - exists item, e. split; [reflexivity|]. split; [now left|exact Hitem].
Qed.

Lemma tally_nonempty (key : string) (keys : list string) :
  tally (key :: keys) [] <> [].
Proof.
  intro H.
  assert (Hin : In key (map fst (tally (key :: keys) [])))
    by (apply tally_keys; left; now left).
  rewrite H in Hin. destruct Hin.
Qed.

(** The summary up to [highest_severity]: the most common type can
    always be computed. *)
Lemma summary_steps (row : Alert) (rest : list Alert) :
  exists most_common,
    generate_alert_summary (row :: rest)
    = match py_max (list_index severity_order)
              (map fst (tally (map alert_severity (row :: rest)) [])) with
      | Return s =>
          Return (mkSummary (List.length (row :: rest))
                    (tally (map alert_severity (row :: rest)) [])
                    (tally (map alert_type (row :: rest)) [])
                    most_common (Some s))
      | Raise e => Raise e
      end.
Proof.
  unfold generate_alert_summary.
  destruct (tally (map alert_type (row :: rest)) []) as [|t ts] eqn:Ht.
  { exfalso. revert Ht. apply tally_nonempty. }
  destruct (py_max_returns (fun kv : string * nat => Return (snd kv))
              (t :: ts)) as [kv [n [Hmax _]]];
    [discriminate|intros x _; now exists (snd x)|].
  rewrite Hmax.
  destruct (tally (map alert_severity (row :: rest)) []) as [|v vs] eqn:Hs.
  { exfalso. revert Hs. apply tally_nonempty. }
  exists (Some (fst kv)).
  now destruct (py_max (list_index severity_order) (map fst (v :: vs))).
Qed.

Lemma summary_keys (rows : list Alert) (k : string) :
  In k (map fst (tally (map alert_severity rows) []))
  <-> In k (map alert_severity rows).
Proof. rewrite tally_keys. simpl. tauto. Qed.

(** C9: for a non-empty list of alerts, [highest_severity] is found by
    the index in [low, medium, high, critical].  When every severity is
    one of the four the summary is returned and names a severity of the
    list whose index is at least the index of every other; when some
    severity is not one of the four the call raises the [ValueError] of
    [list.index]. *)
Theorem highest_severity_by_list_index (rows : list Alert) :
  rows <> [] ->
  ((forall row, In row rows -> In (alert_severity row) severity_order) ->
   exists summary s j,
     generate_alert_summary rows = Return summary
     /\ highest_severity summary = Some s
     /\ In s (map alert_severity rows)
     /\ list_index severity_order s = Return j
     /\ (forall row, In row rows ->
           exists i, list_index severity_order (alert_severity row)
                     = Return i /\ i <= j))
  /\ (forall bad,
        In bad rows -> ~ In (alert_severity bad) severity_order ->
        exists z,
          In z (map alert_severity rows)
          /\ ~ In z severity_order
          /\ generate_alert_summary rows
             = Raise (ValueError ("'" ++ z ++ "' is not in list")%string))
  /\ list_index severity_order "low" = Return 0
  /\ list_index severity_order "medium" = Return 1
  /\ list_index severity_order "high" = Return 2
  /\ list_index severity_order "critical" = Return 3.
Proof.
  destruct rows as [|row rest]; [congruence|]. intros _.
  destruct (summary_steps row rest) as [most_common Hsteps].
  split; [|split; [|repeat split]].
  - intro Hvalid.
    destruct (py_max_returns (list_index severity_order)
                (map fst (tally (map alert_severity (row :: rest)) [])))
      as [s [j [Hmax [Hkey [Hin Hall]]]]].
    + intro H. apply (tally_nonempty (alert_severity row)
                        (map alert_severity rest)).
      now apply map_eq_nil in H.
    + intros x Hx. apply summary_keys in Hx. apply in_map_iff in Hx.
      destruct Hx as [r [<- Hr]].
      apply (proj1 (index_from_spec 0 (alert_severity r) severity_order)).
      now apply Hvalid.
    + rewrite Hmax in Hsteps. eexists. exists s, j.
      split; [exact Hsteps|]. split; [reflexivity|].
      split; [now apply summary_keys|]. split; [exact Hkey|].
      intros r Hr. apply Hall. apply summary_keys. now apply in_map.
  - intros bad Hbad Hout.
    destruct (py_max_raises (list_index severity_order)
                (map fst (tally (map alert_severity (row :: rest)) []))
                (alert_severity bad)
                (ValueError ("'" ++ alert_severity bad
                               ++ "' is not in list")%string))
      as [z [e [Hmax [Hz He]]]].
    + apply summary_keys. now apply in_map.
    + now apply (proj2 (index_from_spec 0 (alert_severity bad)
                          severity_order)).
    + assert (Hzout : ~ In z severity_order).
      { intro Hzin.
        destruct (proj1 (index_from_spec 0 z severity_order) Hzin) as [n Hn].
        unfold list_index in He. congruence. }
      exists z. split; [now apply summary_keys|]. split; [exact Hzout|].
      rewrite Hsteps, Hmax.
      pose proof (proj2 (index_from_spec 0 z severity_order) Hzout) as Hraise.
      unfold list_index in He. congruence.
Qed.

End AlertSummary.

Lemma highest_severity_by_list_index_witness :
  [ Fixtures.alert_of_severity 1 "low";
    Fixtures.alert_of_severity 2 "critical";
    Fixtures.alert_of_severity 3 "high" ] <> []
  /\ exists summary s j,
       Incois.generate_alert_summary
         [ Fixtures.alert_of_severity 1 "low";
           Fixtures.alert_of_severity 2 "critical";
           Fixtures.alert_of_severity 3 "high" ] = Py.Return summary
       /\ Incois.highest_severity summary = Some s
       /\ In s (map Models.alert_severity
                  [ Fixtures.alert_of_severity 1 "low";
                    Fixtures.alert_of_severity 2 "critical";
                    Fixtures.alert_of_severity 3 "high" ])
       /\ Incois.list_index Incois.severity_order s = Py.Return j
       /\ (forall row,
             In row [ Fixtures.alert_of_severity 1 "low";
                      Fixtures.alert_of_severity 2 "critical";
                      Fixtures.alert_of_severity 3 "high" ] ->
             exists i,
               Incois.list_index Incois.severity_order
                 (Models.alert_severity row) = Py.Return i /\ i <= j).
Proof.
  assert (Hrows :
    [ Fixtures.alert_of_severity 1 "low";
      Fixtures.alert_of_severity 2 "critical";
      Fixtures.alert_of_severity 3 "high" ] <> [])
    by (intro H; discriminate H).
  split; [exact Hrows|].
  apply (proj1 (highest_severity_by_list_index _ Hrows)).
  intros row [<-|[<-|[<-|[]]]]; simpl; tauto.
Defined.

(** The two cases on concrete lists: "critical" is the highest of low,
    critical and high; a severity outside the four raises. *)
Example highest_severity_examples :
  match Incois.generate_alert_summary
          [ Fixtures.alert_of_severity 1 "low";
            Fixtures.alert_of_severity 2 "critical";
            Fixtures.alert_of_severity 3 "high" ] with
  | Py.Return summary => Incois.highest_severity summary
  | Py.Raise _ => None
  end = Some "critical"
  /\ Incois.generate_alert_summary
       [ Fixtures.alert_of_severity 1 "low";
         Fixtures.alert_of_severity 2 "severe" ]
     = Py.Raise (Py.ValueError "'severe' is not in list")
  /\ Incois.generate_alert_summary []
     = Py.Return (Incois.mkSummary 0 [] [] None None).
Proof. repeat split. Qed.

(* ================================================================== *)
(** * Properties of report creation *)

Section ReportCreation.
Import Py Models BackendMain ReportVocabulary.

Variable clock : nat -> datetime.
Variable redis_up : bool.
Variable hotspots_up : bool.
Variable timestamp_text : datetime -> string.
Variable uploads_writable : bool.
Variable convert : Schemas.annotation -> Schemas.value -> option Schemas.value.

Lemma str_in_spec (x : string) (xs : list string) :
  str_in x xs = true <-> In x xs.
Proof.
  unfold str_in. rewrite existsb_exists. split.
  - intros [y [Hy Heq]]. apply String.eqb_eq in Heq. now subst.
  - intro H. exists x. split; [exact H|apply String.eqb_refl].
Qed.

Lemma create_rejected (title description hazard_type severity : string)
    (latitude longitude : float) (file : option UploadFile)
    (current_user : User) (w : World) :
  str_in hazard_type valid_hazard_types = false ->
  create_hazard_report clock redis_up hotspots_up timestamp_text
    uploads_writable convert title description hazard_type severity latitude
    longitude file current_user w
  = (Raise invalid_hazard_type, w).
Proof.
  intro H. unfold create_hazard_report. now rewrite H.
Qed.

(** The response model asks for [latitude] and [longitude], and a row has
    no attribute of either name: whatever the row, pydantic reports both,
    and the severity with them when it is none of the four levels. *)
Lemma errors_of_report (r : HazardReport) :
  Schemas.member (hazard_type r) Schemas.HazardType = true ->
  Schemas.errors_of convert Schemas.HazardReportResponse
    (Schemas.hazard_report_attributes r)
  = response_errors (severity r).
Proof.
  intro Htype. unfold response_errors.
  cbv - [Schemas.member Schemas.HazardType Schemas.SeverityLevel Z.of_nat
         report_id report_user_id report_title description hazard_type
         severity location h3_index media_urls is_verified verified_by
         verified_at report_created_at report_updated_at].
  rewrite Htype.
  destruct (Schemas.member (severity r) Schemas.SeverityLevel),
    (verified_by r), (verified_at r); reflexivity.
Qed.

Lemma from_orm_report (r : HazardReport) (w : World) :
  Schemas.member (hazard_type r) Schemas.HazardType = true ->
  Schemas.from_orm convert "HazardReportResponse"
    Schemas.HazardReportResponse (Schemas.hazard_report_attributes r) w
  = (Raise (ValidationError "HazardReportResponse"
              (response_errors (severity r))), w).
Proof.
  intro Htype. unfold Schemas.from_orm. rewrite (errors_of_report r Htype).
  unfold response_errors.
  now destruct (Schemas.member (severity r) Schemas.SeverityLevel).
Qed.

(** With an allowed hazard type and the upload saved, the row is committed
    before Redis is asked and before the response is built. *)
Lemma create_accepted (title description hazard_type severity : string)
    (latitude longitude : float) (file : option UploadFile)
    (current_user : User) (w : World) :
  str_in hazard_type valid_hazard_types = true ->
  file = None \/ uploads_writable = true ->
  let result :=
    create_hazard_report clock redis_up hotspots_up timestamp_text
      uploads_writable convert title description hazard_type severity
      latitude longitude file current_user w in
  hazard_reports (snd result)
  = hazard_reports w
    ++ [new_report clock timestamp_text w title description hazard_type
          severity latitude longitude file current_user]
  /\ fst result
     = if redis_up
       then Raise (ValidationError "HazardReportResponse"
                     (response_errors severity))
       else Raise (ConnectionError "redis").
Proof.
  intros H Hfile result. subst result.
  unfold create_hazard_report, new_report, generate_hotspots_async,
    save_upload.
  rewrite H. cbn [negb].
  destruct file as [f|].
  - destruct Hfile as [Hfile|Hfile]; [discriminate Hfile|]. rewrite Hfile.
    destruct hotspots_up, redis_up;
      cbv [bind utcnow get modify ret raise try_except print redis_publish
           fst snd];
      try rewrite from_orm_report by exact H;
      split; reflexivity.
  - destruct hotspots_up, redis_up;
      cbv [bind utcnow get modify ret raise try_except print redis_publish
           fst snd];
      try rewrite from_orm_report by exact H;
      split; reflexivity.
Qed.

(** When the upload cannot be saved, the request ends there. *)
Lemma create_without_disk (title description hazard_type severity : string)
    (latitude longitude : float) (f : UploadFile) (current_user : User)
    (w : World) :
  str_in hazard_type valid_hazard_types = true ->
  uploads_writable = false ->
  create_hazard_report clock redis_up hotspots_up timestamp_text
    uploads_writable convert title description hazard_type severity latitude
    longitude (Some f) current_user w
  = (Raise (PermissionError (upload_path timestamp_text (clock (ticks w)) f)),
     with_tick w).
Proof.
  intros H Hdisk. unfold create_hazard_report, save_upload.
  rewrite H, Hdisk. reflexivity.
Qed.

Lemma severity_reported (severity : string) :
  In ("severity", Invalid) (response_errors severity)
  <-> ~ In severity Schemas.SeverityLevel.
Proof.
  unfold response_errors.
  change (Schemas.member severity Schemas.SeverityLevel)
    with (str_in severity Schemas.SeverityLevel).
  destruct (str_in severity Schemas.SeverityLevel) eqn:Hs.
  - apply str_in_spec in Hs. split; [|tauto].
    cbn. intros [C|[C|[]]]; discriminate C.
  - split; [|intros _; now left].
    intros _ C. apply str_in_spec in C. congruence.
Qed.

(** C10 (as amended): the endpoint answers with an HTTP error, the 400 of
    the hazard-type check, exactly when the hazard type is outside the
    eight allowed ones, and then nothing is stored or changed.  Nothing
    looks at the severity before the report is stored: with an allowed
    hazard type (and the upload, if there is one, saved) the report is
    stored with the severity string it came with, whatever that string
    is.  The severity is validated afterwards, by the response model:
    when the request gets as far as the response, a severity that is none
    of low, medium, high, critical ends it in a validation error that
    names the severity, and a validation error names the severity in no
    other case. *)
Theorem hazard_type_is_checked_before_storing (title description hazard_type
    severity : string) (latitude longitude : float)
    (file : option UploadFile) (current_user : User) (w : World) :
  let request :=
    create_hazard_report clock redis_up hotspots_up timestamp_text
      uploads_writable convert title description hazard_type severity
      latitude longitude file current_user in
  ((exists status detail,
       Py.value request w = Raise (HTTPException status detail))
   <-> ~ In hazard_type
           [ "tsunami"; "storm_surge"; "high_waves"; "swell_surge";
             "coastal_current"; "flooding"; "abnormal_tide"; "other" ])
  /\ (~ In hazard_type valid_hazard_types ->
      Py.value request w = Raise invalid_hazard_type
      /\ Py.run request w = w)
  /\ (In hazard_type valid_hazard_types ->
      file = None \/ uploads_writable = true ->
      exists report,
        hazard_reports (Py.run request w) = hazard_reports w ++ [report]
        /\ Models.severity report = severity
        /\ Models.hazard_type report = hazard_type)
  /\ (In hazard_type valid_hazard_types ->
      file = None \/ uploads_writable = true ->
      redis_up = true ->
      ~ In severity ["low"; "medium"; "high"; "critical"] ->
      exists errors,
        Py.value request w
        = Raise (ValidationError "HazardReportResponse" errors)
        /\ In ("severity", Invalid) errors)
  /\ (forall model errors,
        Py.value request w = Raise (ValidationError model errors) ->
        (In ("severity", Invalid) errors
         <-> ~ In severity ["low"; "medium"; "high"; "critical"])).
Proof.
  intro request. subst request. unfold Py.value, Py.run.
  destruct (str_in hazard_type valid_hazard_types) eqn:Hin.
  - pose proof (proj1 (str_in_spec _ _) Hin) as Hmem.
    assert (Hcases :
      (file = None \/ uploads_writable = true)
      \/ (exists f, file = Some f /\ uploads_writable = false)).
    { destruct file as [f|]; [|now left; left].
      destruct uploads_writable eqn:Hd; [now left; right|].
      right. now exists f. }
    split; [|split; [|split; [|split]]].
    + split; [|intro H; now destruct (H Hmem)].
      intros [status [detail Hraise]]. exfalso.
      destruct Hcases as [Hfile|[f [-> Hd]]].
      * destruct (create_accepted title description hazard_type severity
                    latitude longitude file current_user w Hin Hfile)
          as [_ Hvalue].
        rewrite Hvalue in Hraise. destruct redis_up; discriminate Hraise.
      * rewrite (create_without_disk title description hazard_type severity
                   latitude longitude f current_user w Hin Hd) in Hraise.
        discriminate Hraise.
    + intro H. now destruct (H Hmem).
    + intros _ Hfile.
      destruct (create_accepted title description hazard_type severity
                  latitude longitude file current_user w Hin Hfile)
        as [Hrows _].
      eexists. split; [exact Hrows|].
      unfold new_report. now destruct file.
    + intros _ Hfile Hredis Hsev.
      destruct (create_accepted title description hazard_type severity
                  latitude longitude file current_user w Hin Hfile)
        as [_ Hvalue].
      destruct redis_up; [|discriminate Hredis].
      exists (response_errors severity). split; [exact Hvalue|].
      now apply severity_reported.
    + intros model errors Hraise.
      destruct Hcases as [Hfile|[f [-> Hd]]].
      * destruct (create_accepted title description hazard_type severity
                    latitude longitude file current_user w Hin Hfile)
          as [_ Hvalue].
        rewrite Hvalue in Hraise.
        destruct redis_up; [|discriminate Hraise].
        injection Hraise as _ <-. apply severity_reported.
      * rewrite (create_without_disk title description hazard_type severity
                   latitude longitude f current_user w Hin Hd) in Hraise.
        discriminate Hraise.
  - assert (Hout : ~ In hazard_type valid_hazard_types).
    { intro H. apply str_in_spec in H. congruence. }
    rewrite (create_rejected title description hazard_type severity
               latitude longitude file current_user w Hin).
    split; [|split; [|split; [|split]]].
    + split; [intros _; exact Hout|]. intros _.
      unfold invalid_hazard_type. now eexists; eexists.
    + intros _. split; reflexivity.
    + intro H. now destruct (Hout H).
    + intro H. now destruct (Hout H).
    + intros model errors C. discriminate C.
Qed.

End ReportCreation.

(** A report of an allowed hazard type with a severity outside the four
    levels is stored with that severity, and the response model reports
    the severity afterwards. *)
Lemma hazard_type_is_checked_before_storing_witness :
  In "flooding" BackendMain.valid_hazard_types
  /\ (exists report,
        Models.hazard_reports
          (Py.run
             (BackendMain.create_hazard_report (Fixtures.ticking_clock 0%Z)
                true true (fun _ => "0") true (fun _ _ => None)
                "Water in the streets" "Knee deep" "flooding" "catastrophic"
                13.05%float 80.28%float None Fixtures.asha)
             Fixtures.small_world)
        = Models.hazard_reports Fixtures.small_world ++ [report]
        /\ Models.severity report = "catastrophic"
        /\ Models.hazard_type report = "flooding")
  /\ (exists errors,
        Py.value
          (BackendMain.create_hazard_report (Fixtures.ticking_clock 0%Z)
             true true (fun _ => "0") true (fun _ _ => None)
             "Water in the streets" "Knee deep" "flooding" "catastrophic"
             13.05%float 80.28%float None Fixtures.asha)
          Fixtures.small_world
        = Py.Raise (Py.ValidationError "HazardReportResponse" errors)
        /\ In ("severity", Py.Invalid) errors).
Proof.
  assert (Hin : In "flooding" BackendMain.valid_hazard_types)
    by (simpl; tauto).
  assert (Hfile : @None BackendMain.UploadFile = None \/ true = true)
    by (left; reflexivity).
  assert (Hsev : ~ In "catastrophic" ["low"; "medium"; "high"; "critical"]).
  { intros [C|[C|[C|[C|[]]]]]; discriminate C. }
  split; [exact Hin|]. split.
  - exact (proj1 (proj2 (proj2
             (hazard_type_is_checked_before_storing
                (Fixtures.ticking_clock 0%Z) true true (fun _ => "0") true
                (fun _ _ => None) "Water in the streets" "Knee deep"
                "flooding" "catastrophic" 13.05%float 80.28%float None
                Fixtures.asha Fixtures.small_world))) Hin Hfile).
  - exact (proj1 (proj2 (proj2 (proj2
             (hazard_type_is_checked_before_storing
                (Fixtures.ticking_clock 0%Z) true true (fun _ => "0") true
                (fun _ _ => None) "Water in the streets" "Knee deep"
                "flooding" "catastrophic" 13.05%float 80.28%float None
                Fixtures.asha Fixtures.small_world)))) Hin Hfile eq_refl
             Hsev).
Defined.

(** C10, the claim as it is worded: a report of the allowed hazard type
    [flooding] with the severity [catastrophic] ends in a validation
    error all the same, and the error names the severity; the report has
    been stored by then. *)
Lemma severity_is_reported_after_storing :
  In "flooding" BackendMain.valid_hazard_types
  /\ Py.value
       (BackendMain.create_hazard_report (Fixtures.ticking_clock 0%Z)
          true true (fun _ => "0") true (fun _ _ => None)
          "Water in the streets" "Knee deep" "flooding" "catastrophic"
          13.05%float 80.28%float None Fixtures.asha)
       Fixtures.small_world
     = Py.Raise
         (Py.ValidationError "HazardReportResponse"
            [ ("severity", Py.Invalid); ("latitude", Py.Missing);
              ("longitude", Py.Missing) ])
  /\ map Models.severity
       (Models.hazard_reports
          (Py.run
             (BackendMain.create_hazard_report (Fixtures.ticking_clock 0%Z)
                true true (fun _ => "0") true (fun _ _ => None)
                "Water in the streets" "Knee deep" "flooding" "catastrophic"
                13.05%float 80.28%float None Fixtures.asha)
             Fixtures.small_world))
     = ["catastrophic"].
Proof.
  split; [simpl; tauto|]. split; reflexivity.
Qed.

(** An unknown hazard type is rejected with status 400 and nothing is
    stored. *)
Example unknown_hazard_type_rejected :
  Py.value
    (BackendMain.create_hazard_report (Fixtures.ticking_clock 0%Z)
       true true (fun _ => "0") true (fun _ _ => None)
       "Strange lights" "Over the bay" "meteor" "high"
       13.05%float 80.28%float None Fixtures.asha)
    Fixtures.small_world
  = Py.Raise
      (Py.HTTPException 400
         "Invalid hazard type. Must be one of: ['tsunami', 'storm_surge', 'high_waves', 'swell_surge', 'coastal_current', 'flooding', 'abnormal_tide', 'other']").
Proof. reflexivity. Qed.

(* ================================================================== *)
(** * Further properties of the text analyzer *)

Section TextAnalyzerMore.
Import PyText Re Processors Vocabulary.

Lemma all_chars_weaken (P Q : ascii -> bool) (s : string) :
  (forall c, P c = true -> Q c = true) ->
  all_chars P s = true -> all_chars Q s = true.
Proof.
  intro HPQ. induction s as [|c rest IH]; simpl; [reflexivity|].
  intro H. apply andb_true_iff in H. destruct H as [Hc Hrest].
  now rewrite (HPQ c Hc), (IH Hrest).
Qed.

Lemma all_chars_both (P Q : ascii -> bool) (s : string) :
  all_chars P s = true -> all_chars Q s = true ->
  all_chars (fun c => P c && Q c) s = true.
Proof.
  induction s as [|c rest IH]; simpl; [reflexivity|].
  intros HP HQ. apply andb_true_iff in HP, HQ.
  destruct HP as [Pc HP], HQ as [Qc HQ]. now rewrite Pc, Qc, IH.
Qed.

Lemma lower_char_not_upper (c : ascii) : is_upper (lower_char c) = false.
Proof. destruct c as [[] [] [] [] [] [] [] []]; reflexivity. Qed.

Lemma all_chars_lower (s : string) :
  all_chars (fun c => negb (is_upper c)) (lower s) = true.
Proof.
  induction s as [|c rest IH]; simpl; [reflexivity|].
  now rewrite lower_char_not_upper, IH.
Qed.

Lemma all_chars_remove_urls (P : ascii -> bool) (s : string) (inside : bool) :
  all_chars P s = true -> all_chars P (remove_urls inside s) = true.
Proof.
  revert inside. induction s as [|c rest IH]; intros inside H;
    [reflexivity|].
  simpl in H. apply andb_true_iff in H. destruct H as [Hc Hrest].
  cbn [remove_urls].
  destruct (inside && negb (is_space c)); [now apply IH|].
  destruct (url_starts (String c rest)); [now apply IH|].
  simpl. now rewrite Hc, IH.
Qed.

Lemma all_chars_remove_mentions (P : ascii -> bool) (s : string)
    (inside : bool) :
  all_chars P s = true -> all_chars P (remove_mentions inside s) = true.
Proof.
  revert inside. induction s as [|c rest IH]; intros inside H;
    [reflexivity|].
  simpl in H. apply andb_true_iff in H. destruct H as [Hc Hrest].
  cbn [remove_mentions].
  destruct (inside && is_word c); [now apply IH|].
  destruct (mention_starts (String c rest)); [now apply IH|].
  simpl. now rewrite Hc, IH.
Qed.

Lemma all_chars_collapse_spaces (s : string) (inside : bool) :
  all_chars (fun c => negb (is_upper c)) s = true ->
  all_chars settled_char (collapse_spaces inside s) = true.
Proof.
  revert inside. induction s as [|c rest IH]; intros inside H;
    [reflexivity|].
  simpl in H. apply andb_true_iff in H. destruct H as [Hc Hrest].
  cbn [collapse_spaces]. destruct (is_space c) eqn:Hs.
  - destruct inside; [now apply IH|]. simpl. now apply IH.
  - simpl. unfold settled_char at 1. rewrite Hc, Hs. simpl.
    rewrite orb_true_r. now apply IH.
Qed.

Lemma all_chars_lstrip (P : ascii -> bool) (s : string) :
  all_chars P s = true -> all_chars P (lstrip s) = true.
Proof.
  induction s as [|c rest IH]; intro H; [reflexivity|].
  cbn [lstrip]. destruct (is_space c); [|exact H].
  simpl in H. apply andb_true_iff in H. now apply IH.
Qed.

Lemma all_chars_rstrip (P : ascii -> bool) (s : string) :
  all_chars P s = true -> all_chars P (rstrip s) = true.
Proof.
  induction s as [|c rest IH]; intro H; [reflexivity|].
  simpl in H. apply andb_true_iff in H. destruct H as [Hc Hrest].
  cbn [rstrip]. destruct (is_space c && is_empty (rstrip rest));
    [reflexivity|].
  simpl. now rewrite Hc, IH.
Qed.

Lemma all_chars_keep_basic (P : ascii -> bool) (s : string) :
  all_chars P s = true ->
  all_chars (fun c => P c && basic_char c) (keep_basic s) = true.
Proof.
  induction s as [|c rest IH]; intro H; [reflexivity|].
  simpl in H. apply andb_true_iff in H. destruct H as [Hc Hrest].
  cbn [keep_basic]. destruct (basic_char c) eqn:Hb; [|now apply IH].
  simpl. now rewrite Hc, Hb, IH.
Qed.

Lemma settled_basic_is_clean (c : ascii) :
  settled_char c && basic_char c = true -> clean_char c = true.
Proof.
  destruct c as [[] [] [] [] [] [] [] []]; vm_compute;
    intro H; try reflexivity; discriminate H.
Qed.

(** X1: on ASCII text, what [preprocess_text] returns is made of
    lowercase letters, digits, underscores, spaces and the marks . , ! ?
    only: no uppercase letter, no tab or newline, no [@], [#] or other
    symbol is left.  (On other text Python's [lower], [\w] and [\s] follow
    Unicode, and letters outside ASCII are kept.) *)
Theorem preprocess_text_alphabet (text : string) :
  all_chars is_ascii text = true ->
  all_chars clean_char (preprocess_text text) = true.
Proof.
  intros _.
  unfold preprocess_text. destruct (is_empty text); [reflexivity|].
  apply all_chars_weaken with (fun c => settled_char c && basic_char c);
    [exact settled_basic_is_clean|].
  apply all_chars_keep_basic. unfold strip.
  apply all_chars_rstrip, all_chars_lstrip, all_chars_collapse_spaces.
  apply all_chars_remove_mentions, all_chars_remove_urls, all_chars_lower.
Qed.

Lemma tags_of_patterns_spec (hazard_type : string) (patterns : list regex)
    (text : string) (acc : list string) (tag : string) :
  In tag (tags_of_patterns hazard_type patterns text acc)
  <-> In tag acc
      \/ (tag = hazard_type
          /\ existsb (fun pattern => search pattern text) patterns = true).
Proof.
  revert acc. induction patterns as [|pattern rest IH]; intro acc; simpl.
  - split; [now left|]. intros [H|[_ H]]; [exact H|discriminate H].
  - rewrite IH. destruct (search pattern text); simpl.
    + rewrite in_app_iff. simpl. intuition.
    + tauto.
Qed.

Lemma tags_of_groups_spec (groups : list (string * list regex))
    (text : string) (acc : list string) (tag : string) :
  In tag (tags_of_groups groups text acc)
  <-> In tag acc
      \/ exists group, In group groups /\ fst group = tag
                       /\ group_matches text group = true.
Proof.
  revert acc. induction groups as [|[hazard_type patterns] rest IH];
    intro acc; simpl.
  - split; [now left|]. intros [H|[g [[] _]]]. exact H.
  - rewrite IH, tags_of_patterns_spec. split.
    + intros [[H|[-> H]]|[g [Hg Hrest]]].
      * now left.
      * right. exists (hazard_type, patterns). split; [now left|].
        split; [reflexivity|exact H].
      * right. exists g. split; [now right|exact Hrest].
    + intros [H|[g [[<-|Hg] [Hfst Hm]]]].
      * left. now left.
      * left. right. split; [now symmetry|exact Hm].
      * right. exists g. now split.
Qed.

Lemma tags_of_general_spec (keywords : list string) (text : string)
    (acc : list string) (tag : string) :
  In tag (tags_of_general keywords text acc)
  <-> In tag acc
      \/ (tag = "general_hazard"
          /\ existsb (fun keyword => contains keyword (lower text)) keywords
             = true).
Proof.
  revert acc. induction keywords as [|keyword rest IH]; intro acc; simpl.
  - split; [now left|]. intros [H|[_ H]]; [exact H|discriminate H].
  - rewrite IH. destruct (contains keyword (lower text)); simpl.
    + rewrite in_app_iff. simpl. intuition.
    + tauto.
Qed.

(** X2: [extract_hazard_keywords] returns every tag once; a hazard type
    is among the tags exactly when one of its patterns finds something in
    the text, and [general_hazard] exactly when the lowercased text
    contains one of the six general words; no other tag is ever returned
    (in particular never [abnormal_tide], which has no patterns). *)
Theorem hazard_keywords_characterised (text : string) :
  NoDup (extract_hazard_keywords text)
  /\ (forall tag,
        In tag (extract_hazard_keywords text)
        <-> (exists group, In group hazard_patterns /\ fst group = tag
                           /\ group_matches text group = true)
            \/ (tag = "general_hazard"
                /\ existsb (fun keyword => contains keyword (lower text))
                     ["hazard"; "danger"; "warning"; "alert"; "emergency";
                      "disaster"] = true))
  /\ (forall tag, In tag (extract_hazard_keywords text) ->
                  In tag possible_tags).
Proof.
  assert (Hspec : forall tag,
    In tag (extract_hazard_keywords text)
    <-> (exists group, In group hazard_patterns /\ fst group = tag
                       /\ group_matches text group = true)
        \/ (tag = "general_hazard"
            /\ existsb (fun keyword => contains keyword (lower text))
                 ["hazard"; "danger"; "warning"; "alert"; "emergency";
                  "disaster"] = true)).
  { intro tag. unfold extract_hazard_keywords, list_of_set.
    rewrite nodup_In, tags_of_general_spec, tags_of_groups_spec.
    simpl In at 1. change (table_get "general" Processors.hazard_keywords)
      with ["hazard"; "danger"; "warning"; "alert"; "emergency"; "disaster"].
    tauto. }
  split; [apply NoDup_nodup|]. split; [exact Hspec|].
  intros tag Htag. apply Hspec in Htag.
  destruct Htag as [[group [Hin [<- _]]]|[-> _]].
  - simpl in Hin. unfold possible_tags.
    repeat (destruct Hin as [<-|Hin]; [simpl; tauto|]). destruct Hin.
  - unfold possible_tags. simpl. tauto.
Qed.

Lemma matching_groups_zero (text : string) :
  extract_hazard_keywords text = [] ->
  matching_groups hazard_patterns text = 0.
Proof.
  intro Hnone. unfold matching_groups.
  destruct (filter (group_matches text) hazard_patterns) as [|g gs] eqn:Hf;
    [reflexivity|].
  assert (Hg : In g (filter (group_matches text) hazard_patterns))
    by (rewrite Hf; now left).
  apply filter_In in Hg. destruct Hg as [Hin Hm].
  assert (Htag : In (fst g) (extract_hazard_keywords text)).
  { apply (proj1 (proj2 (hazard_keywords_characterised text))).
    left. now exists g. }
  rewrite Hnone in Htag. destruct Htag.
Qed.

Lemma thresholds_exact (tagged : bool) (groups urgency : nat)
    (negative : bool) :
  groups <= 5 -> urgency <= 5 ->
  PrimFloat.ltb 0.5 (probability_of tagged groups urgency negative)
  = (5 <? tenths tagged groups urgency negative)
  /\ PrimFloat.ltb 0.2 (probability_of tagged groups urgency negative)
     = (2 <? tenths tagged groups urgency negative)
  /\ PrimFloat.leb 0.5 (probability_of tagged groups urgency negative)
     = (5 <=? tenths tagged groups urgency negative).
Proof.
  intros Hg Hu.
  assert (Kg : In groups [0; 1; 2; 3; 4; 5]) by (simpl; lia).
  assert (Ku : In urgency [0; 1; 2; 3; 4; 5]) by (simpl; lia).
  simpl in Kg, Ku.
  repeat (destruct Kg as [<-|Kg]); try contradiction;
    repeat (destruct Ku as [<-|Ku]); try contradiction;
    destruct tagged, negative; vm_compute; repeat split.
Qed.

(** X3: a text for which no tag is found is never classified as hazard
    related by the text-analysis endpoint: its probability is at most
    0.5. *)
Theorem untagged_text_is_not_hazard_related (polarity : string -> float)
    (text : string) :
  NlpMain.ta_hazard_keywords (NlpMain.analyze_text polarity text) = [] ->
  NlpMain.ta_is_hazard_related (NlpMain.analyze_text polarity text) = false.
Proof.
  unfold NlpMain.analyze_text. cbn [NlpMain.ta_hazard_keywords
    NlpMain.ta_is_hazard_related]. intro Hnone.
  rewrite calculate_hazard_probability_unfold, Hnone.
  destruct (is_empty (preprocess_text text)); [reflexivity|].
  rewrite (matching_groups_zero _ Hnone).
  destruct (thresholds_exact false 0
              (count_keywords urgency_keywords (preprocess_text text))
              (PrimFloat.ltb
                 (calculate_sentiment polarity (preprocess_text text))
                 (-0.1)%float)) as [H _];
    [lia|apply (count_keywords_le urgency_keywords)|].
  rewrite H. apply Nat.ltb_ge. unfold tenths.
  destruct (PrimFloat.ltb (calculate_sentiment polarity _) _); lia.
Qed.

Lemma untagged_text_is_not_hazard_related_witness :
  NlpMain.ta_hazard_keywords
    (NlpMain.analyze_text (Fixtures.constant_sentiment (-0.6)%float)
       Fixtures.beach_text) = []
  /\ NlpMain.ta_is_hazard_related
       (NlpMain.analyze_text (Fixtures.constant_sentiment (-0.6)%float)
          Fixtures.beach_text) = false.
Proof.
  assert (H : NlpMain.ta_hazard_keywords
                (NlpMain.analyze_text
                   (Fixtures.constant_sentiment (-0.6)%float)
                   Fixtures.beach_text) = [])
    by (vm_compute; reflexivity).
  split; [exact H|].
  exact (untagged_text_is_not_hazard_related
           (Fixtures.constant_sentiment (-0.6)%float) Fixtures.beach_text H).
Defined.

(** X4: on every non-empty text the two thresholds decide as exact
    decimal arithmetic would: with the probability counted in tenths
    (3 for a tag, 2 per matching hazard type, 1 per urgency word up to 3,
    2 for a negative sentiment), "hazard related" is "more than 5 tenths"
    and "stored" is "more than 2 tenths"; rounding of the binary floats
    never flips either decision.  A text with a matching pattern has at
    least 5 tenths. *)
Theorem thresholds_decide_exactly (polarity : string -> float)
    (text : string) :
  is_empty text = false ->
  let tags := extract_hazard_keywords text in
  let p := calculate_hazard_probability polarity text tags in
  let t :=
    tenths (match tags with [] => false | _ :: _ => true end)
      (matching_groups hazard_patterns text)
      (count_keywords urgency_keywords text)
      (PrimFloat.ltb (calculate_sentiment polarity text) (-0.1)%float) in
  PrimFloat.ltb 0.5 p = (5 <? t)
  /\ PrimFloat.ltb 0.2 p = (2 <? t)
  /\ (1 <= matching_groups hazard_patterns text ->
      PrimFloat.leb 0.5 p = true /\ tags <> []).
Proof.
  intros Hne tags p t. subst p t.
  rewrite calculate_hazard_probability_unfold, Hne.
  destruct (thresholds_exact
              (match tags with [] => false | _ :: _ => true end)
              (matching_groups hazard_patterns text)
              (count_keywords urgency_keywords text)
              (PrimFloat.ltb (calculate_sentiment polarity text)
                 (-0.1)%float)) as [H5 [H2 H5']].
  { apply (matching_groups_le hazard_patterns). }
  { apply (count_keywords_le urgency_keywords). }
  split; [exact H5|]. split; [exact H2|].
  intro Hk.
  assert (Htags : tags <> []).
  { intro Hnone. subst tags.
    rewrite (matching_groups_zero _ Hnone) in Hk. lia. }
  split; [|exact Htags].
  rewrite H5'. apply Nat.leb_le. unfold tenths.
  destruct tags; [congruence|].
  destruct (PrimFloat.ltb (calculate_sentiment polarity _) _); lia.
Qed.

Lemma thresholds_decide_exactly_witness :
  is_empty "High waves and flooding reported, urgent" = false
  /\ PrimFloat.ltb 0.5
       (calculate_hazard_probability (Fixtures.constant_sentiment 0%float)
          "High waves and flooding reported, urgent"
          (extract_hazard_keywords "High waves and flooding reported, urgent"))
     = (5 <? tenths
               (match extract_hazard_keywords
                        "High waves and flooding reported, urgent" with
                | [] => false
                | _ :: _ => true
                end)
               (matching_groups hazard_patterns
                  "High waves and flooding reported, urgent")
               (count_keywords urgency_keywords
                  "High waves and flooding reported, urgent")
               (PrimFloat.ltb
                  (calculate_sentiment (Fixtures.constant_sentiment 0%float)
                     "High waves and flooding reported, urgent")
                  (-0.1)%float)).
Proof.
  split; [reflexivity|].
  exact (proj1 (thresholds_decide_exactly (Fixtures.constant_sentiment 0%float)
                  "High waves and flooding reported, urgent" eq_refl)).
Defined.

End TextAnalyzerMore.

(* ================================================================== *)
(** * Further properties of ingestion *)

Section IngestionMore.
Import PyText Processors Py Models NlpMain IngestionVocabulary.

Variable polarity : string -> float.
Variable clock : nat -> datetime.

Lemma process_returns (redis_up : bool) (post_data : PostData) (w : World) :
  fst (process_single_post polarity clock redis_up post_data w) = Return tt.
Proof.
  destruct (existing_post (pd_platform post_data) (pd_post_id post_data) w)
    as [row|] eqn:Hfind.
  - now rewrite (process_existing polarity clock redis_up _ _ _ Hfind).
  - destruct (above_threshold polarity post_data) eqn:Hp.
    + cbv beta iota zeta delta
        [ process_single_post add_social_post Py.bind Py.get Py.ret Py.raise
          Py.modify Py.try_except Py.try_finally utcnow print redis_publish
          fst snd ].
      rewrite Hfind.
      unfold above_threshold, post_probability, post_keywords, post_text
        in Hp.
      rewrite Hp. now destruct redis_up.
    + now rewrite (process_below polarity clock redis_up _ _ Hfind Hp).
Qed.

(** The world after a new post above the threshold: one row more, the next
    identifier, three readings of the clock. *)
Lemma process_above_store (redis_up : bool) (post_data : PostData)
    (w : World) :
  existing_post (pd_platform post_data) (pd_post_id post_data) w = None ->
  above_threshold polarity post_data = true ->
  let w' := Py.run (process_single_post polarity clock redis_up post_data) w
  in
  social_media_posts w'
  = social_media_posts w ++ [signal_of polarity clock w post_data]
  /\ next_post_id w' = S (next_post_id w)
  /\ ticks w' = S (S (S (ticks w))).
Proof.
  intros Hfind Hp.
  cbv beta iota zeta delta
    [ process_single_post add_social_post Py.run Py.bind Py.get Py.ret
      Py.raise Py.modify Py.try_except Py.try_finally utcnow print
      redis_publish fst snd ].
  rewrite Hfind.
  unfold above_threshold, post_probability, post_keywords, post_text in Hp.
  rewrite Hp. now destruct redis_up.
Qed.

Lemma process_posts_cons (redis_up : bool) (post_data : PostData)
    (rest : list PostData) (w : World) :
  process_posts polarity clock redis_up (post_data :: rest) w
  = process_posts polarity clock redis_up rest
      (Py.run (process_single_post polarity clock redis_up post_data) w).
Proof.
  unfold process_posts, Py.run. simpl for_each. unfold bind at 1.
  pose proof (process_returns redis_up post_data w) as Hr.
  destruct (process_single_post polarity clock redis_up post_data w)
    as [[[]|e] w']; [reflexivity|discriminate Hr].
Qed.

Lemma run_process_posts_cons (redis_up : bool) (post_data : PostData)
    (rest : list PostData) (w : World) :
  Py.run (process_posts polarity clock redis_up (post_data :: rest)) w
  = Py.run (process_posts polarity clock redis_up rest)
      (Py.run (process_single_post polarity clock redis_up post_data) w).
Proof. unfold Py.run at 1 2. now rewrite process_posts_cons. Qed.

Lemma value_process_posts_cons (redis_up : bool) (post_data : PostData)
    (rest : list PostData) (w : World) :
  Py.value (process_posts polarity clock redis_up (post_data :: rest)) w
  = Py.value (process_posts polarity clock redis_up rest)
      (Py.run (process_single_post polarity clock redis_up post_data) w).
Proof. unfold Py.value. now rewrite process_posts_cons. Qed.

Lemma existing_post_none_identity (p i : string) (w : World) :
  existing_post p i w = None ->
  ~ In (p, i) (map identity (social_media_posts w)).
Proof.
  unfold existing_post. induction (social_media_posts w) as [|row rows IH];
    simpl; [tauto|].
  destruct (same_post p i row) eqn:Hrow; [discriminate|].
  intros Hnone [Heq|Hin]; [|now apply IH].
  unfold identity in Heq. injection Heq as Hp Hi.
  unfold same_post in Hrow. rewrite Hp, Hi, !String.eqb_refl in Hrow.
  discriminate Hrow.
Qed.

Lemma process_keeps_identities (redis_up : bool) (post_data : PostData)
    (w : World) :
  NoDup (map identity (social_media_posts w)) ->
  NoDup (map identity
           (social_media_posts
              (Py.run (process_single_post polarity clock redis_up post_data)
                 w))).
Proof.
  intro Hnodup.
  destruct (existing_post (pd_platform post_data) (pd_post_id post_data) w)
    as [row|] eqn:Hfind.
  - unfold Py.run.
    now rewrite (process_existing polarity clock redis_up _ _ _ Hfind).
  - destruct (above_threshold polarity post_data) eqn:Hp.
    + rewrite (process_above polarity clock redis_up _ _ Hfind Hp).
      rewrite map_app. simpl map.
      apply NoDup_app; [exact Hnodup|repeat constructor; intros []|].
      intros x Hx [<-|[]]. revert Hx.
      now apply existing_post_none_identity.
    + unfold Py.run.
      now rewrite (process_below polarity clock redis_up _ _ Hfind Hp).
Qed.

(** X5: a batch of posts never stores two rows with the same
    (platform, post_id): if the identities of the stored rows are distinct
    before [collect_and_process_social_media] runs its loop, they are
    distinct after it, whatever the batch repeats, and the loop returns
    normally. *)
Theorem batch_keeps_identities_distinct (redis_up : bool)
    (batch : list PostData) (w : World) :
  NoDup (map identity (social_media_posts w)) ->
  NoDup (map identity
           (social_media_posts
              (Py.run (process_posts polarity clock redis_up batch) w)))
  /\ Py.value (process_posts polarity clock redis_up batch) w = Return tt.
Proof.
  revert w. induction batch as [|post_data rest IH]; intros w Hnodup.
  - split; [exact Hnodup|reflexivity].
  - rewrite run_process_posts_cons, value_process_posts_cons.
    apply IH. now apply process_keeps_identities.
Qed.

Lemma stored_from_more (post_data : PostData) (batch : list PostData)
    (rows : list SocialMediaPost) :
  Forall (stored_from polarity batch) rows ->
  Forall (stored_from polarity (post_data :: batch)) rows.
Proof.
  apply Forall_impl. intros row [p [Hin H]]. exists p.
  split; [now right|exact H].
Qed.

(** X6: the loop only appends: the rows stored before are still there, in
    their places and unchanged, and every row it adds is the analysis of a
    post of the batch whose hazard probability is above 0.2 and within
    [0, 1]; it adds at most one row per post. *)
Theorem batch_only_appends_signals (redis_up : bool) (batch : list PostData)
    (w : World) :
  exists added,
    social_media_posts (Py.run (process_posts polarity clock redis_up batch) w)
    = social_media_posts w ++ added
    /\ Forall (stored_from polarity batch) added
    /\ List.length added <= List.length batch.
Proof.
  revert w. induction batch as [|post_data rest IH]; intro w.
  - exists []. simpl. rewrite app_nil_r. repeat split; constructor.
  - rewrite run_process_posts_cons.
    destruct (IH (Py.run (process_single_post polarity clock redis_up
                            post_data) w)) as [added [Hrows [Hall Hlen]]].
    rewrite Hrows.
    destruct (existing_post (pd_platform post_data) (pd_post_id post_data) w)
      as [row|] eqn:Hfind.
    + unfold Py.run.
      rewrite (process_existing polarity clock redis_up _ _ _ Hfind).
      exists added. split; [reflexivity|].
      split; [now apply stored_from_more|simpl; lia].
    + destruct (above_threshold polarity post_data) eqn:Hp.
      * rewrite (process_above polarity clock redis_up _ _ Hfind Hp),
          <- app_assoc.
        exists ([signal_of polarity clock w post_data] ++ added).
        split; [reflexivity|]. split; [|simpl; lia].
        apply Forall_app. split; [|now apply stored_from_more].
        constructor; [|constructor].
        exists post_data. split; [now left|]. simpl.
        repeat split; try exact Hp.
        apply hazard_probability_in_range.
      * unfold Py.run.
        rewrite (process_below polarity clock redis_up _ _ Hfind Hp).
        exists added. split; [reflexivity|].
        split; [now apply stored_from_more|simpl; lia].
Qed.

Lemma same_store_existing (p i : string) (w1 w2 : World) :
  same_store w1 w2 -> existing_post p i w1 = existing_post p i w2.
Proof. intros [H _]. unfold existing_post. now rewrite H. Qed.

Lemma process_same_store (post_data : PostData) (w1 w2 : World) :
  same_store w1 w2 ->
  same_store (Py.run (process_single_post polarity clock true post_data) w1)
             (Py.run (process_single_post polarity clock false post_data) w2).
Proof.
  intro Hsame. pose proof (same_store_existing (pd_platform post_data)
                             (pd_post_id post_data) _ _ Hsame) as Hex.
  destruct (existing_post (pd_platform post_data) (pd_post_id post_data) w2)
    as [row|] eqn:Hfind.
  - unfold Py.run.
    rewrite (process_existing polarity clock true _ _ _ Hex),
            (process_existing polarity clock false _ _ _ Hfind).
    exact Hsame.
  - destruct (above_threshold polarity post_data) eqn:Hp.
    + destruct (process_above_store true post_data w1 Hex Hp)
        as [R1 [N1 T1]].
      destruct (process_above_store false post_data w2 Hfind Hp)
        as [R2 [N2 T2]].
      destruct Hsame as [HR [HN HT]].
      unfold same_store. rewrite R1, R2, N1, N2, T1, T2.
      unfold signal_of. now rewrite HR, HN, HT.
    + unfold Py.run.
      rewrite (process_below polarity clock true _ _ Hex Hp),
              (process_below polarity clock false _ _ Hfind Hp).
      exact Hsame.
Qed.

Lemma published_when_down (post_data : PostData) (w : World) :
  published (Py.run (process_single_post polarity clock false post_data) w)
  = published w.
Proof.
  destruct (existing_post (pd_platform post_data) (pd_post_id post_data) w)
    as [row|] eqn:Hfind.
  - unfold Py.run.
    now rewrite (process_existing polarity clock false _ _ _ Hfind).
  - destruct (above_threshold polarity post_data) eqn:Hp.
    + cbv beta iota zeta delta
        [ process_single_post add_social_post Py.run Py.bind Py.get Py.ret
          Py.raise Py.modify Py.try_except Py.try_finally utcnow print
          redis_publish fst snd ].
      rewrite Hfind.
      unfold above_threshold, post_probability, post_keywords, post_text
        in Hp.
      now rewrite Hp.
    + unfold Py.run.
      now rewrite (process_below polarity clock false _ _ Hfind Hp).
Qed.

(** X7: publishing is fire and forget: with Redis down the loop stores
    exactly the rows it stores with Redis up, returns normally all the
    same, and publishes nothing. *)
Theorem ingestion_does_not_depend_on_redis (batch : list PostData)
    (w : World) :
  social_media_posts (Py.run (process_posts polarity clock false batch) w)
  = social_media_posts (Py.run (process_posts polarity clock true batch) w)
  /\ Py.value (process_posts polarity clock false batch) w = Return tt
  /\ published (Py.run (process_posts polarity clock false batch) w)
     = published w.
Proof.
  assert (Hsim : forall w1 w2, same_store w1 w2 ->
            same_store (Py.run (process_posts polarity clock true batch) w1)
                       (Py.run (process_posts polarity clock false batch) w2)).
  { induction batch as [|post_data rest IH]; intros w1 w2 Hs; [exact Hs|].
    rewrite !run_process_posts_cons.
    apply IH. now apply process_same_store. }
  split; [|split].
  - symmetry. now apply (Hsim w w).
  - clear Hsim. revert w. induction batch as [|post_data rest IH]; intro w;
      [reflexivity|].
    rewrite value_process_posts_cons. apply IH.
  - clear Hsim. revert w. induction batch as [|post_data rest IH]; intro w;
      [reflexivity|].
    rewrite run_process_posts_cons, IH. apply published_when_down.
Qed.

End IngestionMore.

Lemma batch_keeps_identities_distinct_witness :
  NoDup (map IngestionVocabulary.identity
           (Models.social_media_posts Models.empty_world))
  /\ NoDup (map IngestionVocabulary.identity
              (Models.social_media_posts
                 (Py.run
                    (NlpMain.process_posts
                       (Fixtures.constant_sentiment (-0.5)%float)
                       (Fixtures.ticking_clock 0%Z) true
                       [ Fixtures.tsunami_post; Fixtures.beach_post;
                         Fixtures.tsunami_post ])
                    Models.empty_world))).
Proof.
  split; [constructor|].
  exact (proj1 (batch_keeps_identities_distinct
                  (Fixtures.constant_sentiment (-0.5)%float)
                  (Fixtures.ticking_clock 0%Z) true
                  [ Fixtures.tsunami_post; Fixtures.beach_post;
                    Fixtures.tsunami_post ]
                  Models.empty_world (NoDup_nil _))).
Defined.

(* ================================================================== *)
(** * Properties of counting dictionaries and of the trend methods *)


Section Counting.
Import Incois CountingVocabulary.

Lemma count_of_count_up (key k : string) (d : list (string * nat)) :
  count_of k (count_up key d)
  = count_of k d + (if String.eqb key k then 1 else 0).
Proof.
  unfold count_of. induction d as [|[k' n] rest IH]; simpl.
  - destruct (String.eqb key k); reflexivity.
  - destruct (String.eqb_spec k' key) as [->|Hne]; simpl.
    + destruct (String.eqb key k); simpl; lia.
    + destruct (String.eqb_spec k' k) as [->|Hk]; simpl.
      * destruct (String.eqb_spec key k) as [->|_]; [congruence|lia].
      * exact IH.
Qed.

Lemma count_of_tally (keys : list string) (k : string)
    (d : list (string * nat)) :
  count_of k (tally keys d) = count_of k d + occurrences k keys.
Proof.
  revert d. induction keys as [|key rest IH]; intro d; simpl.
  - unfold occurrences. simpl. lia.
  - rewrite IH, count_of_count_up. unfold occurrences. simpl.
    destruct (string_dec key k) as [->|Hne].
    + rewrite String.eqb_refl. lia.
    + destruct (String.eqb_spec key k); [congruence|lia].
Qed.

Lemma count_up_nodup (key : string) (d : list (string * nat)) :
  NoDup (map fst d) -> NoDup (map fst (count_up key d)).
Proof.
  induction d as [|[k n] rest IH]; simpl; intro H.
  - repeat constructor. intros [].
  - inversion H as [|? ? Hk Hrest]; subst.
    destruct (String.eqb_spec k key) as [->|Hne]; simpl.
    + now constructor.
    + constructor; [|now apply IH].
      intro Hin. apply count_up_keys in Hin. destruct Hin; congruence.
Qed.

Lemma tally_nodup (keys : list string) (d : list (string * nat)) :
  NoDup (map fst d) -> NoDup (map fst (tally keys d)).
Proof.
  revert d. induction keys as [|key rest IH]; intros d H; simpl;
    [exact H|]. now apply IH, count_up_nodup.
Qed.

Lemma count_of_entry (k : string) (n : nat) (d : list (string * nat)) :
  NoDup (map fst d) -> In (k, n) d -> count_of k d = n.
Proof.
  unfold count_of. induction d as [|[k' n'] rest IH]; simpl; intros H Hin;
    [destruct Hin|].
  inversion H as [|? ? Hk Hrest]; subst.
  destruct Hin as [Heq|Hin].
  - injection Heq as -> ->. now rewrite String.eqb_refl.
  - destruct (String.eqb_spec k' k) as [->|Hne]; [|now apply IH].
    exfalso. apply Hk. apply in_map_iff. now exists (k, n).
Qed.

Lemma total_count_count_up (key : string) (d : list (string * nat)) :
  total_count (count_up key d) = S (total_count d).
Proof.
  induction d as [|[k n] rest IH]; simpl; [reflexivity|].
  destruct (String.eqb k key); simpl; [lia|]. rewrite IH. lia.
Qed.

Lemma total_count_tally (keys : list string) (d : list (string * nat)) :
  total_count (tally keys d) = List.length keys + total_count d.
Proof.
  revert d. induction keys as [|key rest IH]; intro d; simpl;
    [reflexivity|]. rewrite IH, total_count_count_up. lia.
Qed.

(** An entry of a tally from the empty dictionary counts the occurrences
    of its key, of which there is at least one. *)
Lemma tally_entry (keys : list string) (k : string) (n : nat) :
  In (k, n) (tally keys []) -> n = occurrences k keys /\ 1 <= n.
Proof.
  intro Hin.
  assert (Hn : count_of k (tally keys []) = n)
    by (apply count_of_entry; [apply tally_nodup; constructor|exact Hin]).
  rewrite count_of_tally in Hn. simpl in Hn. split; [now symmetry|].
  assert (Hk : In k keys).
  { assert (H : In k (map fst (tally keys [])))
      by (apply in_map_iff; now exists (k, n)).
    apply tally_keys in H. destruct H as [H|[]]. exact H. }
  subst n. unfold occurrences.
  now apply (count_occ_In string_dec).
Qed.

End Counting.

Section TrendingKeywords.
Import Incois Trends CountingVocabulary.

Lemma in_firstn {A} (n : nat) (l : list A) (x : A) :
  In x (firstn n l) -> In x l.
Proof.
  revert n. induction l as [|y rest IH]; intros n H.
  - now rewrite firstn_nil in H.
  - destruct n; simpl in H; [destruct H|].
    destruct H as [H|H]; [now left|right; now apply IH with n].
Qed.

Lemma insert_desc_perm (x : string * nat) (l : list (string * nat)) :
  Permutation (insert_desc x l) (x :: l).
Proof.
  induction l as [|y rest IH]; simpl; [reflexivity|].
  destruct (snd x <? snd y); [|reflexivity].
  rewrite IH. apply perm_swap.
Qed.

Lemma sorted_desc_perm (l : list (string * nat)) :
  Permutation (sorted_desc l) l.
Proof.
  induction l as [|x rest IH]; simpl; [reflexivity|].
  rewrite insert_desc_perm. now constructor.
Qed.

Lemma insert_desc_sorted (x : string * nat) (l : list (string * nat)) :
  StronglySorted more_often l -> StronglySorted more_often (insert_desc x l).
Proof.
  induction l as [|y rest IH]; simpl; intro H.
  - repeat constructor.
  - inversion H as [|? ? Hrest Hall]; subst.
    destruct (Nat.ltb_spec (snd x) (snd y)) as [Hlt|Hge].
    + constructor; [now apply IH|].
      apply Forall_forall. intros z Hz.
      apply (Permutation_in _ (insert_desc_perm x rest)) in Hz.
      destruct Hz as [<-|Hz]; [unfold more_often; lia|].
      exact (proj1 (Forall_forall _ _) Hall z Hz).
    + constructor; [exact H|].
      constructor; [exact Hge|].
      revert Hall. apply Forall_impl. unfold more_often. intros a Ha. lia.
Qed.

Lemma sorted_desc_sorted (l : list (string * nat)) :
  StronglySorted more_often (sorted_desc l).
Proof.
  induction l as [|x rest IH]; simpl; [constructor|].
  now apply insert_desc_sorted.
Qed.

Lemma firstn_sorted {A} (R : A -> A -> Prop) (n : nat) (l : list A) :
  StronglySorted R l -> StronglySorted R (firstn n l).
Proof.
  revert n. induction l as [|x rest IH]; intros n H.
  - rewrite firstn_nil. constructor.
  - destruct n; simpl; [constructor|].
    inversion H as [|? ? Hrest Hall]; subst.
    constructor; [now apply IH|].
    apply Forall_forall. intros y Hy.
    apply (proj1 (Forall_forall _ _) Hall). revert Hy. apply in_firstn.
Qed.

Lemma firstn_nodup {A} (n : nat) (l : list A) :
  NoDup l -> NoDup (firstn n l).
Proof.
  revert n. induction l as [|x rest IH]; intros n H.
  - rewrite firstn_nil. constructor.
  - destruct n; simpl; [constructor|].
    inversion H as [|? ? Hx Hrest]; subst.
    constructor; [|now apply IH].
    intro Hin. apply Hx. revert Hin. apply in_firstn.
Qed.

Lemma map_sorted {A B} (R : A -> A -> Prop) (R' : B -> B -> Prop)
    (f : A -> B) (l : list A) :
  (forall a b, R a b -> R' (f a) (f b)) ->
  StronglySorted R l -> StronglySorted R' (map f l).
Proof.
  intros Hf Hs. induction Hs as [|a l Hl IH Hall]; simpl; constructor;
    [exact IH|].
  apply Forall_forall. intros t Ht. apply in_map_iff in Ht.
  destruct Ht as [b [<- Hb]].
  apply Hf. exact (proj1 (Forall_forall _ _) Hall b Hb).
Qed.

Lemma slice_to_firstn {A} (limit : Z) (l : list A) :
  exists n, slice_to limit l = firstn n l
            /\ ((0 <= limit)%Z -> n = Z.to_nat limit).
Proof.
  unfold slice_to. destruct (Z.leb_spec 0 limit).
  - now exists (Z.to_nat limit).
  - eexists. split; [reflexivity|lia].
Qed.

(** X8: the trending keywords are distinct, ordered by count from the
    most to the least frequent, each with the number of its occurrences
    in the keywords of the posts (at least one); a non-negative limit
    bounds their number, and a limit no smaller than the number of
    keywords leaves none out. *)
Theorem trending_keywords_ranked (posts : list PostView) (limit : Z) :
  let trending := extract_trending_keywords posts limit in
  NoDup (map keyword trending)
  /\ StronglySorted (fun a b => count b <= count a) trending
  /\ (forall t, In t trending ->
        count t = occurrences (keyword t) (all_keywords posts)
        /\ 1 <= count t)
  /\ ((0 <= limit)%Z -> List.length trending <= Z.to_nat limit)
  /\ ((Z.of_nat (List.length (all_keywords posts)) <= limit)%Z ->
      forall k, In k (all_keywords posts) -> In k (map keyword trending)).
Proof.
  intro trending. subst trending. unfold extract_trending_keywords.
  set (T := tally (all_keywords posts) []).
  destruct (slice_to_firstn limit (sorted_desc T)) as [n [Hslice Hn]].
  rewrite Hslice.
  set (freq := fun kv : string * nat =>
                 mkTrendingKeyword (fst kv) (snd kv)
                   match posts with
                   | [] => 0%float
                   | _ :: _ =>
                       (Processors.float_of_nat (snd kv)
                        / Processors.float_of_nat (List.length posts))%float
                   end).
  assert (Hperm : Permutation (sorted_desc T) T) by apply sorted_desc_perm.
  assert (HT : NoDup (map fst T)) by (apply tally_nodup; constructor).
  split; [|split; [|split; [|split]]].
  - rewrite map_map. simpl. change (fun x : string * nat => fst x)
      with (@fst string nat).
    rewrite <- firstn_map. apply firstn_nodup.
    apply (Permutation_NoDup (l := map fst T)); [|exact HT].
    symmetry. now apply Permutation_map.
  - apply (map_sorted more_often); [intros a b Hab; exact Hab|].
    apply firstn_sorted, sorted_desc_sorted.
  - intros t Ht. apply in_map_iff in Ht. destruct Ht as [[k c] [<- Hin]].
    simpl. apply tally_entry.
    apply in_firstn in Hin.
    now apply (Permutation_in _ Hperm).
  - intro Hlim. rewrite length_map, (Hn Hlim). apply firstn_le_length.
  - intros Hlim k Hk.
    assert (Hlen : List.length (sorted_desc T) <= n).
    { rewrite (Permutation_length Hperm).
      assert (List.length T <= List.length (all_keywords posts)).
      { pose proof (total_count_tally (all_keywords posts) []) as Htot.
        fold T in Htot. simpl in Htot. rewrite Nat.add_0_r in Htot.
        rewrite <- Htot.
        assert (Hpos : Forall (fun kv => 1 <= snd kv) T).
        { apply Forall_forall. intros [k' c'] Hin. simpl.
          now apply (tally_entry (all_keywords posts) k'). }
        clear -Hpos. induction T as [|kv rest IH]; simpl; [lia|].
        inversion Hpos; subst. specialize (IH H2). lia. }
      rewrite Hn; lia. }
    rewrite firstn_all2 by exact Hlen.
    rewrite map_map. simpl.
    change (fun x : string * nat => fst x) with (@fst string nat).
    apply (Permutation_in (l := map fst T));
      [symmetry; now apply Permutation_map|].
    apply tally_keys. now left.
Qed.

End TrendingKeywords.

Section SentimentTrendsFacts.
Import Trends.

Lemma positive_is_not_negative (s : float) :
  PrimFloat.ltb 0.1 s = true -> PrimFloat.ltb s (-0.1) = false.
Proof.
  rewrite !ltb_spec.
  replace (Prim2SF 0.1) with (S754_finite false 7205759403792794 (-56))
    by (vm_compute; reflexivity).
  replace (Prim2SF (-0.1)) with (S754_finite true 7205759403792794 (-56))
    by (vm_compute; reflexivity).
  destruct (Prim2SF s) as [sg|sg| |sg m e]; try (destruct sg); simpl;
    try discriminate; reflexivity.
Qed.

Lemma positive_and_negative_counts (xs : list float) :
  count_if (fun s => PrimFloat.ltb 0.1 s) xs
  + count_if (fun s => PrimFloat.ltb s (-0.1)) xs <= List.length xs.
Proof.
  unfold count_if. induction xs as [|s rest IH]; simpl; [lia|].
  destruct (PrimFloat.ltb 0.1 s) eqn:Hpos.
  - rewrite (positive_is_not_negative s Hpos). simpl. lia.
  - destruct (PrimFloat.ltb s (-0.1)); simpl; lia.
Qed.

(** X9: the sentiment trends split the scored posts into three groups
    that do not overlap: the count of neutral posts is never negative, and
    the positive, negative and neutral counts add up to the number of
    posts that carry a score, which is at least one; without any score the
    default answer is returned. *)
Theorem sentiment_counts_partition (posts : list PostView) :
  match analyze_sentiment_trends posts with
  | NoSentiment => sentiments_of posts = []
  | Sentiment _ total positive_posts negative_posts neutral_posts _ _ _ =>
      total = List.length (sentiments_of posts)
      /\ 1 <= total
      /\ (0 <= neutral_posts)%Z
      /\ (Z.of_nat positive_posts + Z.of_nat negative_posts + neutral_posts
          = Z.of_nat total)%Z
  end.
Proof.
  unfold analyze_sentiment_trends. destruct posts as [|post rest];
    [reflexivity|].
  destruct (sentiments_of (post :: rest)) as [|s ss] eqn:Hs; [reflexivity|].
  pose proof (positive_and_negative_counts (s :: ss)) as Hsum.
  split; [reflexivity|]. split; [simpl; lia|]. split; lia.
Qed.

End SentimentTrendsFacts.

(* ================================================================== *)
(** * Statements that respect a relation between worlds *)

Section Respecting.
Import Py Models AlertVocabulary.

Variable R : World -> World -> Prop.
Hypothesis R_refl : forall w, R w w.
Hypothesis R_trans : forall w1 w2 w3, R w1 w2 -> R w2 w3 -> R w1 w3.

Lemma respects_ret {A} (a : A) : respects R (ret a).
Proof. intro w. apply R_refl. Qed.

Lemma respects_raise {A} (e : exn) : respects R (@raise World A e).
Proof. intro w. apply R_refl. Qed.

Lemma respects_get : respects R (@get World).
Proof. intro w. apply R_refl. Qed.

Lemma respects_modify (f : World -> World) :
  (forall w, R w (f w)) -> respects R (modify f).
Proof. intros H w. apply H. Qed.

Lemma respects_bind {A B} (m : M World A) (k : A -> M World B) :
  respects R m -> (forall a, respects R (k a)) -> respects R (bind m k).
Proof.
  intros Hm Hk w. unfold bind. specialize (Hm w).
  destruct (m w) as [[a|e] w']; simpl in *; [|exact Hm].
  apply R_trans with w'; [exact Hm|apply Hk].
Qed.

Lemma respects_try_except {A} (body : M World A)
    (handler : exn -> M World A) :
  respects R body -> (forall e, respects R (handler e)) ->
  respects R (try_except body handler).
Proof.
  intros Hb Hh w. unfold try_except. specialize (Hb w).
  destruct (body w) as [[a|e] w']; simpl in *; [exact Hb|].
  apply R_trans with w'; [exact Hb|apply Hh].
Qed.

Lemma respects_try_finally {A} (body : M World A) (cleanup : M World unit) :
  respects R body -> respects R cleanup -> respects R (try_finally body cleanup).
Proof.
  intros Hb Hc w. unfold try_finally. specialize (Hb w).
  destruct (body w) as [r w']. specialize (Hc w').
  destruct (cleanup w') as [[u|e] w'']; simpl in *;
    now apply R_trans with w'.
Qed.

Lemma respects_for_each {A} (xs : list A) (body : A -> M World unit) :
  (forall x, respects R (body x)) -> respects R (for_each xs body).
Proof.
  intro Hb. induction xs as [|x rest IH]; simpl.
  - apply respects_ret.
  - apply respects_bind; [apply Hb|intros _; exact IH].
Qed.

End Respecting.

(* ================================================================== *)
(** * Further properties of the alert service *)

Section AlertServiceMore.
Import Py Models System AlertService AlertVocabulary.

Variable clock : nat -> datetime.
Variable redis_up : bool.
Variable channel_up : channel -> User -> bool.

Lemma with_lines_frame {A} (f : World -> A) (lines : list string)
    (w : World) :
  (forall line w0, f (with_stdout line w0) = f w0) ->
  f (with_lines lines w) = f w.
Proof.
  intro Hf. revert w. induction lines as [|line rest IH]; intro w;
    [reflexivity|].
  simpl. unfold with_lines in IH. now rewrite IH, Hf.
Qed.

Lemma add_user_alerts_frame {A} (f : World -> A) (us : list User)
    (alert : Alert) (w : World) :
  (forall g n w0, f (with_user_alerts g n w0) = f w0) ->
  f (add_user_alerts us alert w) = f w.
Proof.
  intro Hf. revert w. induction us as [|user rest IH]; intro w;
    [reflexivity|].
  simpl. now rewrite IH, Hf.
Qed.

Lemma add_user_alerts_rows (us : list User) (alert : Alert) (w : World) :
  user_alerts (add_user_alerts us alert w)
  = user_alerts w
    ++ fanout_rows us (alert_id_of alert) (next_user_alert_id w).
Proof.
  revert w. induction us as [|user rest IH]; intro w; simpl.
  - now rewrite app_nil_r.
  - rewrite IH. simpl. now rewrite <- app_assoc.
Qed.

Lemma publish_alert_world (alert : Alert) (w : World) :
  _publish_alert redis_up alert w
  = (Return tt, published_world redis_up alert w).
Proof.
  unfold _publish_alert, published_world, try_except, redis_publish, modify,
    raise, print.
  now destruct redis_up.
Qed.

(** The world that [create_alert] leaves: the clock read twice, the new
    row, a [UserAlert] row per user, the lines of the fanout, and the
    message on Redis or the line about its failure. *)
Lemma create_alert_world (alert_type title message severity : string)
    (affected_area : option string) (source : string) (w : World) :
  let alert :=
    new_alert clock w alert_type title message severity affected_area source
  in
  create_alert clock redis_up channel_up alert_type title message severity
    affected_area source w
  = (Return alert,
     published_world redis_up alert
       (with_lines (flat_map (user_lines channel_up alert) (users w))
          (add_user_alerts (users w) alert
             (with_alerts (fun rows => rows ++ [alert])
                (S (next_alert_id w)) (with_tick (with_tick w)))))).
Proof.
  intro alert. subst alert.
  unfold create_alert, try_finally, try_except, new_alert.
  unfold bind, utcnow, get, modify, ret. cbv beta iota.
  rewrite notify_users_run, publish_alert_world. reflexivity.
Qed.

Lemma fanout_rows_facts (us : list User) (alert_id first_id : nat) :
  map ua_user_id (fanout_rows us alert_id first_id) = map user_id_of us
  /\ Forall (fun row => is_read row = false /\ ua_alert_id row = alert_id)
            (fanout_rows us alert_id first_id)
  /\ map ua_id (fanout_rows us alert_id first_id)
     = seq first_id (List.length us).
Proof.
  revert first_id. induction us as [|user rest IH]; intro first_id; simpl.
  - repeat split; constructor.
  - destruct (IH (S first_id)) as [H1 [H2 H3]].
    rewrite H1, H3. repeat split. now constructor.
Qed.

(** X10: [create_alert] adds exactly one [UserAlert] row for every user
    of the database, in the order of the users: unread, linked to the new
    alert, numbered consecutively; the rows that were there and the users
    are untouched. *)
Theorem fanout_creates_one_unread_row_per_user (alert_type title message
    severity : string) (affected_area : option string) (source : string)
    (w : World) :
  let w' :=
    Py.run (create_alert clock redis_up channel_up alert_type title message
              severity affected_area source) w in
  let rows :=
    fanout_rows (users w) (next_alert_id w) (next_user_alert_id w) in
  user_alerts w' = user_alerts w ++ rows
  /\ map ua_user_id rows = map user_id_of (users w)
  /\ Forall (fun row =>
               is_read row = false /\ ua_alert_id row = next_alert_id w) rows
  /\ map ua_id rows = seq (next_user_alert_id w) (List.length (users w))
  /\ users w' = users w.
Proof.
  intros w' rows. subst w' rows. unfold Py.run.
  rewrite create_alert_world. cbn [snd].
  destruct (fanout_rows_facts (users w) (next_alert_id w)
              (next_user_alert_id w)) as [H1 [H2 H3]].
  split; [|split; [exact H1|split; [exact H2|split; [exact H3|]]]].
  - assert (Hp : forall a w0,
              user_alerts (published_world redis_up a w0) = user_alerts w0)
      by (intros a w0; unfold published_world; now destruct redis_up).
    rewrite Hp, (with_lines_frame user_alerts) by reflexivity.
    now rewrite add_user_alerts_rows.
  - assert (Hp : forall a w0, users (published_world redis_up a w0) = users w0)
      by (intros a w0; unfold published_world; now destruct redis_up).
    rewrite Hp, (with_lines_frame users) by reflexivity.
    now rewrite (add_user_alerts_frame users) by reflexivity.
Qed.

(** X11: [create_alert] returns the alert whether or not Redis answers;
    with Redis up exactly one message goes out on [new_alert], carrying
    the alert; with Redis down nothing is published and the failure is the
    last line printed. *)
Theorem alert_publication_is_best_effort (alert_type title message
    severity : string) (affected_area : option string) (source : string)
    (w : World) :
  let alert :=
    new_alert clock w alert_type title message severity affected_area source
  in
  let w' :=
    Py.run (create_alert clock redis_up channel_up alert_type title message
              severity affected_area source) w in
  Py.value (create_alert clock redis_up channel_up alert_type title message
              severity affected_area source) w = Return alert
  /\ published w'
     = (if redis_up then published w ++ [("new_alert", alert_payload alert)]
        else published w)
  /\ (if redis_up then True
      else exists lines,
             stdout w'
             = lines
               ++ ["Error publishing alert to Redis: Error connecting to redis"]).
Proof.
  intros alert w'. subst alert w'. unfold Py.run, Py.value.
  rewrite create_alert_world. cbn [fst snd].
  split; [reflexivity|].
  unfold published_world. destruct redis_up; cbn [published stdout
    with_published with_stdout].
  - split; [|exact I].
    rewrite (with_lines_frame published) by reflexivity.
    now rewrite (add_user_alerts_frame published) by reflexivity.
  - split; [|now eexists].
    rewrite (with_lines_frame published) by reflexivity.
    now rewrite (add_user_alerts_frame published) by reflexivity.
Qed.

Lemma find_app {A} (f : A -> bool) (l1 l2 : list A) :
  find f (l1 ++ l2)
  = match find f l1 with Some x => Some x | None => find f l2 end.
Proof.
  induction l1 as [|x rest IH]; simpl; [reflexivity|].
  now destruct (f x).
Qed.

Lemma find_none_all {A} (f : A -> bool) (l : list A) :
  (forall x, In x l -> f x = false) -> find f l = None.
Proof.
  induction l as [|x rest IH]; intro H; [reflexivity|].
  simpl. rewrite (H x (or_introl eq_refl)).
  apply IH. intros y Hy. apply H. now right.
Qed.

Lemma find_fanout_row (us : list User) (user : User)
    (alert_id first_id : nat) :
  In user us ->
  exists row,
    find (same_user_alert (user_id_of user) alert_id)
         (fanout_rows us alert_id first_id) = Some row
    /\ is_read row = false.
Proof.
  revert first_id. induction us as [|u rest IH]; intros first_id Hin;
    [destruct Hin|].
  simpl. unfold same_user_alert at 1. simpl.
  destruct (Nat.eqb_spec (user_id_of u) (user_id_of user)) as [Heq|Hne].
  - rewrite Nat.eqb_refl. simpl. eexists. split; reflexivity.
  - simpl. destruct Hin as [->|Hin]; [congruence|]. now apply IH.
Qed.

(** X12: a user's row for a new alert goes from unread to read: right
    after [create_alert] the query of [mark_alert_read] finds the user's
    row unread, and after [mark_alert_read] for that user and alert it
    finds it read.  The precondition is that no older row already points
    at the identifier the new alert gets. *)
Theorem new_alert_is_unread_until_marked (alert_type title message
    severity : string) (affected_area : option string) (source : string)
    (w : World) (user : User) :
  In user (users w) ->
  (forall row, In row (user_alerts w) ->
               ua_alert_id row <> next_alert_id w) ->
  let w1 :=
    Py.run (create_alert clock redis_up channel_up alert_type title message
              severity affected_area source) w in
  let w2 :=
    Py.run (mark_alert_read (user_id_of user) (next_alert_id w)) w1 in
  (exists row,
      find (same_user_alert (user_id_of user) (next_alert_id w))
           (user_alerts w1) = Some row /\ is_read row = false)
  /\ (exists row,
        find (same_user_alert (user_id_of user) (next_alert_id w))
             (user_alerts w2) = Some row /\ is_read row = true).
Proof.
  intros Hin Hfresh w1 w2.
  destruct (fanout_creates_one_unread_row_per_user alert_type title message
              severity affected_area source w) as [Hrows _].
  fold w1 in Hrows.
  assert (Hold : find (same_user_alert (user_id_of user) (next_alert_id w))
                      (user_alerts w) = None).
  { apply find_none_all. intros row Hrow. unfold same_user_alert.
    destruct (Nat.eqb_spec (ua_alert_id row) (next_alert_id w)) as [He|_];
      [now destruct (Hfresh row Hrow)|apply andb_false_r]. }
  destruct (find_fanout_row (users w) user (next_alert_id w)
              (next_user_alert_id w) Hin) as [row [Hrow Hunread]].
  assert (H1 : find (same_user_alert (user_id_of user) (next_alert_id w))
                    (user_alerts w1) = Some row)
    by (rewrite Hrows, find_app, Hold; exact Hrow).
  split; [now exists row|].
  subst w2. unfold Py.run at 1. rewrite mark_alert_read_run. cbn [snd].
  rewrite H1. cbn [user_alerts with_user_alerts].
  rewrite read_first_find, H1. simpl.
  eexists. split; reflexivity.
Qed.

Lemma generate_high_severity (report : HazardReport) (w : World) :
  existsb (String.eqb (severity report)) ["high"; "critical"] = true ->
  generate_alert_from_report clock redis_up channel_up report w
  = (Return None, with_stdout db_error_line w).
Proof.
  intro H. unfold generate_alert_from_report, try_except.
  now rewrite H.
Qed.

Lemma scan_reports (reports : list HazardReport) (w : World) :
  Forall (fun r =>
            existsb (String.eqb (severity r)) ["high"; "critical"] = true)
         reports ->
  for_each reports
    (fun report =>
       bind (generate_alert_from_report clock redis_up channel_up report)
            (fun _ => ret tt)) w
  = (Return tt, with_lines (repeat db_error_line (List.length reports)) w).
Proof.
  revert w. induction reports as [|r rest IH]; intros w Hall;
    [reflexivity|].
  inversion Hall as [|? ? Hr Hrest]; subst.
  simpl for_each. unfold bind at 1 2.
  rewrite (generate_high_severity r w Hr). unfold ret at 1.
  now rewrite (IH _ Hrest).
Qed.

Lemma process_report_alerts_world (w : World) :
  process_report_alerts clock redis_up channel_up w
  = (Return tt,
     with_lines
       (repeat db_error_line
          (List.length
             (filter (recent_report (clock (ticks w))) (hazard_reports w))))
       (with_tick w)).
Proof.
  unfold process_report_alerts, try_finally, try_except.
  unfold bind at 1 2. unfold utcnow, get. cbv beta iota.
  rewrite scan_reports; [reflexivity|].
  apply Forall_forall. intros r Hr. apply filter_In in Hr.
  destruct Hr as [_ Hr]. unfold recent_report in Hr.
  apply andb_true_iff in Hr. destruct Hr as [Hr _].
  apply andb_true_iff in Hr. now destruct Hr.
Qed.

(** X13: the hourly scan of the reports never creates an alert: for every
    verified high or critical report of the last hour it only prints that
    the name [db] is not defined; alerts, [UserAlert] rows and Redis are
    left as they were. *)
Theorem report_scan_creates_no_alert (w : World) :
  let w' := Py.run (process_report_alerts clock redis_up channel_up) w in
  Py.value (process_report_alerts clock redis_up channel_up) w = Return tt
  /\ alerts w' = alerts w
  /\ user_alerts w' = user_alerts w
  /\ published w' = published w
  /\ stdout w'
     = stdout w
       ++ repeat db_error_line
            (List.length
               (filter (recent_report (clock (ticks w))) (hazard_reports w))).
Proof.
  intro w'. subst w'. unfold Py.run, Py.value.
  rewrite process_report_alerts_world. cbn [fst snd].
  split; [reflexivity|].
  rewrite !with_lines_frame by reflexivity.
  repeat split. now rewrite stdout_with_lines.
Qed.

End AlertServiceMore.

Section AlertIdentifiers.
Import Py Models System AlertVocabulary.

Lemma keeps_ids_refl (w : World) : keeps_ids w w.
Proof. intro H. exact H. Qed.

Lemma keeps_ids_trans (w1 w2 w3 : World) :
  keeps_ids w1 w2 -> keeps_ids w2 w3 -> keeps_ids w1 w3.
Proof. intros H12 H23 H. apply H23, H12, H. Qed.

Lemma keeps_ids_frame (w w' : World) :
  alerts w' = alerts w -> next_alert_id w' = next_alert_id w ->
  keeps_ids w w'.
Proof. intros Ha Hn [H1 H2]. split; rewrite Ha; [|rewrite Hn]; assumption. Qed.

Lemma keeps_ids_insert (w w' : World) (row : Alert) :
  alerts w' = alerts w ++ [row] -> alert_id_of row = next_alert_id w ->
  next_alert_id w' = S (next_alert_id w) ->
  keeps_ids w w'.
Proof.
  intros Ha Hid Hn [H1 H2]. split; rewrite Ha.
  - rewrite map_app. simpl. apply NoDup_app; [exact H1| |].
    + repeat constructor. intros [].
    + intros x Hx [<-|[]]. apply in_map_iff in Hx.
      destruct Hx as [r [Hr Hin]].
      pose proof (proj1 (Forall_forall _ _) H2 r Hin) as Hlt. simpl in Hlt.
      lia.
  - rewrite Hn. apply Forall_app. split.
    + revert H2. apply Forall_impl. intros a Ha'. cbv beta in *. lia.
    + constructor; [cbv beta; lia|constructor].
Qed.

Lemma keeps_ids_sweep (w : World) (f : Alert -> bool) :
  keeps_ids w
    (with_alerts
       (map (fun row => if f row then AlertService.deactivate row else row))
       (next_alert_id w) w).
Proof.
  intros [H1 H2]. split; simpl.
  - rewrite map_map.
    replace (map (fun x => alert_id_of
                             (if f x then AlertService.deactivate x else x))
                 (alerts w))
      with (map alert_id_of (alerts w)); [exact H1|].
    apply map_ext. intro a. now destruct (f a).
  - apply Forall_map. revert H2. apply Forall_impl. intro a.
    now destruct (f a).
Qed.

End AlertIdentifiers.

(** One step of a proof that a statement keeps the identifiers in order. *)
Ltac ids_step :=
  match goal with
  | |- AlertVocabulary.respects _ (Py.bind _ _) =>
      apply (respects_bind _ keeps_ids_trans)
  | |- AlertVocabulary.respects _ (Py.try_except _ _) =>
      apply (respects_try_except _ keeps_ids_trans)
  | |- AlertVocabulary.respects _ (Py.try_finally _ _) =>
      apply (respects_try_finally _ keeps_ids_trans)
  | |- AlertVocabulary.respects _ (Py.for_each _ _) =>
      apply (respects_for_each _ keeps_ids_refl keeps_ids_trans)
  | |- AlertVocabulary.respects _ (if ?b then _ else _) => destruct b
  | |- AlertVocabulary.respects _ (match ?x with Some _ => _ | None => _ end)
      => destruct x
  | |- forall _, _ => intro
  | |- AlertVocabulary.respects _ _ =>
      solve [ intro; apply keeps_ids_frame; reflexivity ]
  end.

Ltac ids_auto := repeat ids_step.

Section OperationsKeepIdentifiers.
Import Py Models System AlertVocabulary.

Variable polarity_compound : string -> float.
Variable clock : nat -> datetime.
Variable redis_up : bool.
Variable channel_up : AlertService.channel -> User -> bool.
Variable hotspots_up : bool.
Variable timestamp_text : datetime -> string.
Variable uploads_writable : bool.
Variable convert : Schemas.annotation -> Schemas.value -> option Schemas.value.

Lemma ids_create_alert (alert_type title message severity : string)
    (affected_area : option string) (source : string) :
  respects keeps_ids
    (AlertService.create_alert clock redis_up channel_up alert_type title
       message severity affected_area source).
Proof.
  intro w.
  destruct (create_alert_run clock redis_up channel_up alert_type title
              message severity affected_area source w) as [_ Hrows].
  apply keeps_ids_insert with (1 := Hrows); [reflexivity|].
  rewrite create_alert_world. cbn [snd].
  unfold published_world. destruct redis_up; cbn [next_alert_id
    with_published with_stdout];
    rewrite (with_lines_frame next_alert_id) by reflexivity;
    now rewrite (add_user_alerts_frame next_alert_id) by reflexivity.
Qed.

Lemma ids_generate_alert_from_report (report : HazardReport) :
  respects keeps_ids
    (AlertService.generate_alert_from_report clock redis_up channel_up
       report).
Proof.
  intro w. apply keeps_ids_frame.
  - apply generate_alert_from_report_none.
  - unfold AlertService.generate_alert_from_report, try_except.
    now destruct (negb (existsb (String.eqb (severity report))
                          ["high"; "critical"])).
Qed.

Lemma ids_process_report_alerts :
  respects keeps_ids
    (AlertService.process_report_alerts clock redis_up channel_up).
Proof.
  unfold AlertService.process_report_alerts. ids_auto.
  apply ids_generate_alert_from_report.
Qed.

Lemma ids_cleanup_expired_alerts :
  respects keeps_ids (AlertService.cleanup_expired_alerts clock).
Proof.
  intro w.
  apply keeps_ids_trans with (with_tick w);
    [now apply keeps_ids_frame|].
  apply keeps_ids_trans
    with (with_alerts
            (map (fun row =>
                    if AlertService.expired (clock (ticks w)) row
                    then AlertService.deactivate row else row))
            (next_alert_id (with_tick w)) (with_tick w));
    [apply keeps_ids_sweep|].
  now apply keeps_ids_frame.
Qed.

Lemma ids_mark_alert_read (u a : nat) :
  respects keeps_ids (AlertService.mark_alert_read u a).
Proof. unfold AlertService.mark_alert_read. ids_auto. Qed.

Lemma ids_notify_affected_users (alert : Alert) :
  respects keeps_ids (Incois._notify_affected_users alert).
Proof.
  unfold Incois._notify_affected_users, Incois._send_push_notifications,
    AlertService.load_global.
  ids_auto.
Qed.

Lemma ids_store_alerts (feed : list Incois.AlertData) :
  respects keeps_ids (Incois.store_alerts feed).
Proof.
  unfold Incois.store_alerts.
  apply (respects_for_each _ keeps_ids_refl keeps_ids_trans).
  intros alert_data w. unfold try_except at 1, bind at 1, get.
  destruct (find (Incois.same_feed_alert alert_data) (alerts w));
    [apply keeps_ids_refl|].
  unfold bind at 1. unfold modify at 1.
  match goal with
  | |- keeps_ids w (snd (match ?m ?w1 with _ => _ end)) =>
      pose proof (ids_notify_affected_users
                    (mkAlert (next_alert_id w) (Incois.ad_alert_type alert_data)
                       (Incois.ad_title alert_data)
                       (Incois.ad_message alert_data)
                       (Incois.ad_affected_area alert_data)
                       (Incois.ad_severity alert_data)
                       (Incois.ad_source alert_data) true
                       (Incois.ad_created_at alert_data)
                       (Some (Incois.ad_expires_at alert_data))) w1) as Hn;
      apply keeps_ids_trans with w1;
        [apply keeps_ids_insert with (1 := eq_refl); reflexivity|];
      destruct (m w1) as [[[]|e] w2]; cbn [snd] in *;
        [exact Hn|]
  end.
  apply keeps_ids_trans with w2; [exact Hn|now apply keeps_ids_frame].
Qed.

Lemma ids_process_single_post (post_data : NlpMain.PostData) :
  respects keeps_ids
    (NlpMain.process_single_post polarity_compound clock redis_up post_data).
Proof.
  unfold NlpMain.process_single_post, NlpMain.add_social_post,
    redis_publish.
  ids_auto.
Qed.

Lemma ids_create_hazard_report (title description hazard_type
    severity : string) (latitude longitude : float)
    (file : option BackendMain.UploadFile) (current_user : User) :
  respects keeps_ids
    (BackendMain.create_hazard_report clock redis_up hotspots_up
       timestamp_text uploads_writable convert title description hazard_type
       severity latitude longitude file current_user).
Proof.
  unfold BackendMain.create_hazard_report,
    BackendMain.generate_hotspots_async, BackendMain.save_upload,
    Schemas.from_orm, redis_publish.
  ids_auto.
Qed.

Lemma ids_perform (op : operation) :
  respects keeps_ids
    (perform polarity_compound clock redis_up channel_up hotspots_up
       timestamp_text uploads_writable convert op).
Proof.
  destruct op; simpl; ids_auto.
  - apply ids_create_alert.
  - apply ids_generate_alert_from_report.
  - apply ids_process_report_alerts.
  - apply ids_cleanup_expired_alerts.
  - apply ids_mark_alert_read.
  - apply ids_store_alerts.
  - apply ids_process_single_post.
  - apply ids_create_hazard_report.
Qed.

(** X14: the identifiers of the alerts stay distinct: if they are distinct
    and below the next identifier of the sequence before, they are so
    after any sequence of the system's operations, so an identifier is
    never given out twice and always names the same alert. *)
Theorem alert_identifiers_stay_distinct (ops : list operation) (w : World) :
  alert_ids_ok w ->
  alert_ids_ok
    (Py.run (perform_all polarity_compound clock redis_up channel_up
               hotspots_up timestamp_text uploads_writable convert ops) w).
Proof.
  revert w. change (respects keeps_ids
    (perform_all polarity_compound clock redis_up channel_up hotspots_up
       timestamp_text uploads_writable convert ops)).
  unfold perform_all. ids_auto. apply ids_perform.
Qed.

End OperationsKeepIdentifiers.

(* ================================================================== *)
(** * Properties of the alerts of one user *)

Section UserAlertsFacts.
Import Py Models UserAlerts IncoisVocabulary.

Variable clock : nat -> datetime.

Lemma insert_recent_perm (x : Alert) (l : list Alert) :
  Permutation (insert_recent x l) (x :: l).
Proof.
  induction l as [|y rest IH]; simpl; [reflexivity|].
  destruct (created_at x <? created_at y)%Z; [|reflexivity].
  rewrite IH. apply perm_swap.
Qed.

Lemma most_recent_first_perm (l : list Alert) :
  Permutation (most_recent_first l) l.
Proof.
  induction l as [|x rest IH]; simpl; [reflexivity|].
  rewrite insert_recent_perm. now constructor.
Qed.

Lemma insert_recent_sorted (x : Alert) (l : list Alert) :
  StronglySorted (fun a b => (created_at b <= created_at a)%Z) l ->
  StronglySorted (fun a b => (created_at b <= created_at a)%Z)
    (insert_recent x l).
Proof.
  induction l as [|y rest IH]; simpl; intro H.
  - repeat constructor.
  - inversion H as [|? ? Hrest Hall]; subst.
    destruct (Z.ltb_spec (created_at x) (created_at y)) as [Hlt|Hge].
    + constructor; [now apply IH|].
      apply Forall_forall. intros z Hz.
      apply (Permutation_in _ (insert_recent_perm x rest)) in Hz.
      destruct Hz as [<-|Hz]; [lia|].
      exact (proj1 (Forall_forall _ _) Hall z Hz).
    + constructor; [exact H|].
      constructor; [exact Hge|].
      revert Hall. apply Forall_impl. intros a Ha. cbv beta in *. lia.
Qed.

Lemma most_recent_first_sorted (l : list Alert) :
  StronglySorted (fun a b => (created_at b <= created_at a)%Z)
    (most_recent_first l).
Proof.
  induction l as [|x rest IH]; simpl; [constructor|].
  now apply insert_recent_sorted.
Qed.

Lemma in_joined (user_id : nat) (unread_only : bool) (now : datetime)
    (w : World) (alert : Alert) :
  In alert (joined user_id unread_only now w)
  <-> In alert (alerts w)
      /\ exists ua, In ua (user_alerts w)
                    /\ selected user_id unread_only now alert ua = true.
Proof.
  unfold joined. rewrite in_flat_map. split.
  - intros [a [Ha Hin]]. apply in_map_iff in Hin.
    destruct Hin as [ua [<- Hua]]. apply filter_In in Hua.
    split; [exact Ha|]. now exists ua.
  - intros [Ha [ua [Hua Hsel]]]. exists alert. split; [exact Ha|].
    apply in_map_iff. exists ua. split; [reflexivity|].
    now apply filter_In.
Qed.

(** X15: [get_user_alerts] returns, most recent first, exactly the alerts
    that are active, expire after the reading of the clock and have a
    [UserAlert] row of the user (an unread one when only unread alerts are
    asked for); an alert that has expired is left out even before the
    sweep has deactivated it; the call changes nothing but the clock. *)
Theorem user_alerts_are_active_unexpired_and_ordered (user_id : nat)
    (unread_only : bool) (w : World) :
  exists responses,
    get_user_alerts clock user_id unread_only w
    = (Return responses, with_tick w)
    /\ StronglySorted not_older responses
    /\ (forall resp,
          In resp responses
          <-> exists alert ua,
                resp = from_orm alert
                /\ In alert (alerts w) /\ In ua (user_alerts w)
                /\ ua_alert_id ua = alert_id_of alert
                /\ ua_user_id ua = user_id
                /\ is_active alert = true
                /\ (exists t, expires_at alert = Some t
                              /\ (clock (ticks w) < t)%Z)
                /\ (unread_only = true -> is_read ua = false)).
Proof.
  eexists. split; [reflexivity|]. split.
  - apply (map_sorted (fun a b => (created_at b <= created_at a)%Z));
      [intros a b Hab; exact Hab|apply most_recent_first_sorted].
  - intro resp. rewrite in_map_iff. split.
    + intros [alert [<- Hin]].
      apply (Permutation_in _ (most_recent_first_perm _)) in Hin.
      apply in_joined in Hin. destruct Hin as [Ha [ua [Hua Hsel]]].
      exists alert, ua. unfold selected in Hsel. cbn [alerts with_tick] in *.
      repeat (apply andb_true_iff in Hsel; destruct Hsel as [Hsel ?]).
      apply Nat.eqb_eq in Hsel.
      match goal with H : (ua_user_id ua =? user_id) = true |- _ =>
        apply Nat.eqb_eq in H end.
      destruct (expires_at alert) as [t|] eqn:Ht; [|discriminate].
      match goal with H : (_ <? t)%Z = true |- _ =>
        apply Z.ltb_lt in H end.
      repeat split; try assumption; [now exists t|].
      intros ->. match goal with H : negb _ = true |- _ =>
        now apply negb_true_iff in H end.
    + intros [alert [ua [-> [Ha [Hua [Hid [Hu [Hact [[t [Ht Hlt]] Hread]]]]]]]]].
      exists alert. split; [reflexivity|].
      apply (Permutation_in _ (Permutation_sym (most_recent_first_perm _))).
      apply in_joined. split; [exact Ha|]. exists ua. split; [exact Hua|].
      unfold selected. cbn [ticks with_tick]. rewrite Hid, Hu, Hact, Ht, !Nat.eqb_refl.
      replace (clock (ticks w) <? t)%Z with true
        by (symmetry; now apply Z.ltb_lt).
      destruct unread_only; [|reflexivity].
      now rewrite (Hread eq_refl).
Qed.

End UserAlertsFacts.

(* ================================================================== *)
(** * Properties of the INCOIS feed *)

Section IncoisFeedFacts.
Import PyText Py Models Incois IncoisFeed IncoisVocabulary CountingVocabulary.

Lemma lower_char_twice (c : ascii) :
  lower_char (lower_char c) = lower_char c.
Proof. destruct c as [[] [] [] [] [] [] [] []]; reflexivity. Qed.

Lemma lower_twice (s : string) : lower (lower s) = lower s.
Proof.
  induction s as [|c rest IH]; simpl; [reflexivity|].
  now rewrite lower_char_twice, IH.
Qed.

Lemma map_severity_in_order (s : string) :
  In (_map_severity s) severity_order.
Proof.
  unfold _map_severity, severity_mapping, severity_order.
  cbn [find fst snd].
  repeat (destruct (String.eqb _ (lower s)); [cbn; tauto|]).
  cbn. tauto.
Qed.

(** X16: [_map_severity] answers with one of low, medium, high and
    critical whatever the feed sends, pays no attention to upper and lower
    case, and answers medium exactly when the lowercased text is
    "moderate" or none of low, moderate, high, severe and extreme. *)
Theorem feed_severity_is_one_of_four (s : string) :
  In (_map_severity s) severity_order
  /\ _map_severity (lower s) = _map_severity s
  /\ (_map_severity s = "medium"
      <-> lower s = "moderate"
          \/ ~ In (lower s) ["low"; "moderate"; "high"; "severe"; "extreme"]).
Proof.
  split; [apply map_severity_in_order|]. split.
  - unfold _map_severity. now rewrite lower_twice.
  - unfold _map_severity, severity_mapping. cbn [find fst snd].
    destruct (String.eqb_spec "low" (lower s)) as [<-|H1].
    { cbn [snd]. split; [discriminate|]. intros [H|H]; [discriminate|].
      exfalso. apply H. now left. }
    destruct (String.eqb_spec "moderate" (lower s)) as [<-|H2].
    { cbn [snd]. split; [now left|reflexivity]. }
    destruct (String.eqb_spec "high" (lower s)) as [<-|H3].
    { cbn [snd]. split; [discriminate|]. intros [H|H]; [discriminate|].
      exfalso. apply H. cbn [In]. tauto. }
    destruct (String.eqb_spec "severe" (lower s)) as [<-|H4].
    { cbn [snd]. split; [discriminate|]. intros [H|H]; [discriminate|].
      exfalso. apply H. cbn [In]. tauto. }
    destruct (String.eqb_spec "extreme" (lower s)) as [<-|H5].
    { cbn [snd]. split; [discriminate|]. intros [H|H]; [discriminate|].
      exfalso. apply H. cbn [In]. tauto. }
    split; [|reflexivity]. intros _. right.
    intros [H|[H|[H|[H|[H|[]]]]]]; congruence.
Qed.

Variable clock : nat -> datetime.
Variable float_text : float -> string.

Lemma process_items_run (alert_type : string) (items : list RawAlert)
    (w : World) :
  exists out,
    process_items clock float_text alert_type items w
    = (Return out,
       Nat.iter (2 * List.length items) with_tick w)
    /\ Forall2 (processed clock alert_type) items out.
Proof.
  revert w. induction items as [|item rest IH]; intro w.
  - exists []. split; [reflexivity|constructor].
  - destruct (IH (with_tick (with_tick w))) as [out [Hrun Hall]].
    eexists. split.
    + cbn [process_items]. unfold bind at 1. unfold process_item.
      unfold bind at 1 2. unfold utcnow at 1 2. cbv beta iota.
      unfold ret at 1. unfold bind at 1. rewrite Hrun. unfold ret.
      f_equal.
      replace (2 * List.length (item :: rest))
        with (S (S (2 * List.length rest))) by (simpl; lia).
      now rewrite <- !Nat.iter_succ_r.
    + constructor; [|exact Hall].
      unfold processed. cbn.
      repeat split; try apply map_severity_in_order.
      exists (ticks w). split; reflexivity.
Qed.

(** X17: [_process_incois_data] never raises and turns the items of the
    feed one for one, in their order, into alerts of the endpoint's type
    with source [incois], a severity among the four levels, the item's
    title (or the type's default title) and description, and an expiry of
    the item's duration (24 hours when it has none) after a second reading
    of the clock; an answer without ['alerts'] gives no alert.  Only the
    clock advances. *)
Theorem feed_items_become_alerts (data : option (list RawAlert))
    (alert_type : string) (w : World) :
  exists out,
    _process_incois_data clock float_text data alert_type w
    = (Return out,
       Nat.iter (2 * List.length (get_or data [])) with_tick w)
    /\ Forall2 (processed clock alert_type) (get_or data []) out
    /\ List.length out = List.length (get_or data []).
Proof.
  destruct data as [items|]; simpl.
  - destruct (process_items_run alert_type items w) as [out [Hrun Hall]].
    exists out. split; [exact Hrun|]. split; [exact Hall|].
    symmetry. now apply Forall2_length with (1 := Hall).
  - exists []. repeat split. constructor.
Qed.

Lemma notify_affected_world (alert : Alert) (w : World) :
  _notify_affected_users alert w
  = (Return tt, with_stdout (notify_line alert w) w).
Proof.
  unfold _notify_affected_users, notify_line, try_except.
  unfold bind at 1. unfold get.
  destruct (users w) as [|user rest] eqn:Hu; reflexivity.
Qed.

Lemma store_one (alert_data : AlertData) (w : World) :
  store_alerts [alert_data] w
  = (Return tt,
     if covered alert_data w then w
     else
       let w1 :=
         with_alerts (fun rows => rows ++ [feed_alert alert_data w])
           (S (next_alert_id w)) w in
       with_stdout (notify_line (feed_alert alert_data w) w1) w1).
Proof.
  unfold store_alerts, covered. simpl for_each.
  unfold bind at 1, try_except at 1, bind at 1, get.
  destruct (find (same_feed_alert alert_data) (alerts w)) as [row|] eqn:Hf.
  - apply find_some in Hf. destruct Hf as [Hin Hrow].
    replace (existsb (same_feed_alert alert_data) (alerts w)) with true.
    + reflexivity.
    + symmetry. apply existsb_exists. now exists row.
  - replace (existsb (same_feed_alert alert_data) (alerts w)) with false.
    + unfold bind at 1. unfold modify at 1.
      fold (feed_alert alert_data w).
      now rewrite notify_affected_world.
    + symmetry. apply not_true_iff_false. intro H.
      apply existsb_exists in H. destruct H as [row [Hin Hrow]].
      now rewrite (find_none _ _ Hf row Hin) in Hrow.
Qed.

Lemma store_cons (alert_data : AlertData) (rest : list AlertData)
    (w : World) :
  store_alerts (alert_data :: rest) w
  = store_alerts rest (snd (store_alerts [alert_data] w)).
Proof.
  pose proof (store_one alert_data w) as H1.
  rewrite H1. cbn [snd].
  unfold store_alerts in *. cbn [for_each] in *.
  unfold bind at 1. unfold bind at 1 in H1.
  match type of H1 with
  | context [try_except ?b ?h w] =>
      destruct (try_except b h w) as [[[]|e] w1]
  end.
  - unfold ret in H1. injection H1 as <-. reflexivity.
  - discriminate H1.
Qed.

Lemma covered_after_store_one (alert_data other : AlertData) (w : World) :
  covered other w = true ->
  covered other (snd (store_alerts [alert_data] w)) = true.
Proof.
  intro H. rewrite store_one. cbn [snd].
  destruct (covered alert_data w); [exact H|].
  unfold covered in *. simpl. rewrite existsb_app, H. reflexivity.
Qed.

Lemma covered_by_store_one (alert_data : AlertData) (w : World) :
  ad_source alert_data = "incois" ->
  covered alert_data (snd (store_alerts [alert_data] w)) = true.
Proof.
  intro Hsrc. rewrite store_one. cbn [snd].
  destruct (covered alert_data w) eqn:Hc; [exact Hc|].
  unfold covered. simpl. rewrite existsb_app. simpl.
  unfold same_feed_alert at 2. simpl.
  rewrite !String.eqb_refl, Hsrc. simpl. apply orb_true_r.
Qed.

Lemma covered_after_store (feed : list AlertData) (other : AlertData)
    (w : World) :
  covered other w = true ->
  covered other (snd (store_alerts feed w)) = true.
Proof.
  revert w. induction feed as [|alert_data rest IH]; intros w H;
    [exact H|].
  rewrite store_cons. apply IH. now apply covered_after_store_one.
Qed.

Lemma store_covered (feed : list AlertData) (w : World) :
  Forall (fun alert_data => covered alert_data w = true) feed ->
  store_alerts feed w = (Return tt, w).
Proof.
  induction feed as [|alert_data rest IH]; intro H; [reflexivity|].
  inversion H as [|? ? Hc Hrest]; subst.
  rewrite store_cons, store_one, Hc. cbn [snd]. now apply IH.
Qed.

Lemma all_covered_after_store (feed : list AlertData) (w : World) :
  Forall (fun alert_data => ad_source alert_data = "incois") feed ->
  Forall (fun alert_data =>
            covered alert_data (snd (store_alerts feed w)) = true) feed.
Proof.
  revert w. induction feed as [|alert_data rest IH]; intros w H;
    [constructor|].
  inversion H as [|? ? Hsrc Hrest]; subst.
  rewrite store_cons. constructor; [|now apply IH].
  apply covered_after_store. now apply covered_by_store_one.
Qed.

(** X18: storing a feed is idempotent: after [store_alerts] has run on a
    feed whose items have the source [incois] (as every item of
    [_process_incois_data] has), running it again on the same feed changes
    nothing at all; and an item whose type and title match a stored
    INCOIS alert is skipped even when that alert is inactive. *)
Theorem storing_a_feed_twice_changes_nothing (feed : list AlertData)
    (w : World) :
  Forall (fun alert_data => ad_source alert_data = "incois") feed ->
  store_alerts feed (Py.run (store_alerts feed) w)
  = (Return tt, Py.run (store_alerts feed) w)
  /\ (forall alert_data row w0,
        In row (alerts w0) -> same_feed_alert alert_data row = true ->
        is_active row = false ->
        store_alerts [alert_data] w0 = (Return tt, w0)).
Proof.
  intro Hsrc. split.
  - apply store_covered. now apply all_covered_after_store.
  - intros alert_data row w0 Hin Hrow _. rewrite store_one.
    replace (covered alert_data w0) with true; [reflexivity|].
    symmetry. apply existsb_exists. now exists row.
Qed.

Lemma store_alerts_appends (feed : list AlertData) (w : World) :
  exists added,
    alerts (snd (store_alerts feed w)) = alerts w ++ added
    /\ List.length added <= List.length feed
    /\ Forall (fun row =>
                 is_active row = true
                 /\ exists alert_data,
                      In alert_data feed
                      /\ alert_type row = ad_alert_type alert_data
                      /\ title row = ad_title alert_data
                      /\ alert_severity row = ad_severity alert_data)
              added
    /\ user_alerts (snd (store_alerts feed w)) = user_alerts w
    /\ users (snd (store_alerts feed w)) = users w
    /\ fst (store_alerts feed w) = Return tt.
Proof.
  revert w. induction feed as [|alert_data rest IH]; intro w.
  - exists []. simpl. rewrite app_nil_r. repeat split; constructor.
  - rewrite store_cons.
    destruct (IH (snd (store_alerts [alert_data] w)))
      as [added [Hrows [Hlen [Hall [Hua [Hus Hret]]]]]].
    rewrite Hrows, Hua, Hus, Hret. rewrite store_one. cbn [snd].
    assert (Hmore : Forall (fun row =>
                 is_active row = true
                 /\ exists alert_data0,
                      In alert_data0 (alert_data :: rest)
                      /\ alert_type row = ad_alert_type alert_data0
                      /\ title row = ad_title alert_data0
                      /\ alert_severity row = ad_severity alert_data0)
              added).
    { revert Hall. apply Forall_impl. intros row [Hact [d [Hd H]]].
      split; [exact Hact|]. exists d. split; [now right|exact H]. }
    destruct (covered alert_data w).
    + exists added. repeat split; try assumption. simpl. lia.
    + exists (feed_alert alert_data w :: added). cbn.
      rewrite <- app_assoc. repeat split; try (simpl; lia).
      constructor; [|exact Hmore].
      split; [reflexivity|]. exists alert_data.
      split; [now left|]. repeat split.
Qed.

(** X19: alerts of the feed never reach the users: [store_alerts] returns
    normally and only appends active alerts made from items of the feed,
    at most one per item, but it creates no [UserAlert] row, because the
    class [UserAlert] is not imported in this module: with at least one
    user in the database the notification of every new alert ends in a
    [NameError] that is printed. *)
Theorem feed_alerts_get_no_user_rows (feed : list AlertData) (w : World) :
  let w' := Py.run (store_alerts feed) w in
  Py.value (store_alerts feed) w = Return tt
  /\ user_alerts w' = user_alerts w
  /\ (exists added,
        alerts w' = alerts w ++ added
        /\ List.length added <= List.length feed
        /\ Forall (fun row =>
                     is_active row = true
                     /\ exists alert_data,
                          In alert_data feed
                          /\ alert_type row = ad_alert_type alert_data
                          /\ title row = ad_title alert_data
                          /\ alert_severity row = ad_severity alert_data)
                  added)
  /\ (forall alert_data user rest,
        users w = user :: rest -> covered alert_data w = false ->
        stdout (Py.run (store_alerts [alert_data]) w)
        = stdout w
          ++ ["Error notifying users: name 'UserAlert' is not defined"]).
Proof.
  intro w'. subst w'. unfold Py.run, Py.value.
  destruct (store_alerts_appends feed w)
    as [added [Hrows [Hlen [Hall [Hua [Hus Hret]]]]]].
  split; [exact Hret|]. split; [exact Hua|]. split.
  - now exists added.
  - intros alert_data user rest Hu Hc. rewrite store_one, Hc. cbn.
    unfold notify_line. cbn. now rewrite Hu.
Qed.

End IncoisFeedFacts.

(* ================================================================== *)
(** * Further properties of the alert summary and of the risk of an alert *)

Section SummaryMore.
Import Py Models Incois IncoisFeed CountingVocabulary.

Lemma count_of_cases (k : string) (d : list (string * nat)) :
  count_of k d = 0 \/ In (k, count_of k d) d.
Proof.
  unfold count_of.
  destruct (find (fun kv => String.eqb (fst kv) k) d) as [[k' n]|] eqn:Hf;
    [right|now left].
  apply find_some in Hf. destruct Hf as [Hin Hk]. simpl in Hk.
  apply String.eqb_eq in Hk. now subst.
Qed.

(** The returned summary, with the most common type as [max] finds it. *)
Lemma summary_returned (row : Alert) (rest : list Alert) (summary : Summary) :
  generate_alert_summary (row :: rest) = Return summary ->
  total_alerts summary = List.length (row :: rest)
  /\ by_severity summary = tally (map alert_severity (row :: rest)) []
  /\ by_type summary = tally (map alert_type (row :: rest)) []
  /\ exists kv,
       most_common_type summary = Some (fst kv)
       /\ In kv (by_type summary)
       /\ forall other, In other (by_type summary) -> snd other <= snd kv.
Proof.
  unfold generate_alert_summary.
  destruct (tally (map alert_type (row :: rest)) []) as [|t ts] eqn:Ht.
  { exfalso. revert Ht. apply tally_nonempty. }
  destruct (py_max_returns (fun kv : string * nat => Return (snd kv))
              (t :: ts)) as [kv [n [Hmax [Hn [Hin Hall]]]]];
    [discriminate|intros x _; now exists (snd x)|].
  rewrite Hmax.
  destruct (tally (map alert_severity (row :: rest)) []) as [|v vs] eqn:Hs.
  { exfalso. revert Hs. apply tally_nonempty. }
  destruct (py_max (list_index severity_order) (map fst (v :: vs)));
    [|discriminate].
  intro H. injection H as <-. cbn.
  repeat split. exists kv. split; [reflexivity|]. split; [exact Hin|].
  intros other Ho. destruct (Hall other Ho) as [m [Hm Hle]].
  injection Hm as <-. injection Hn as <-. exact Hle.
Qed.

(** X20: in a summary that [generate_alert_summary] returns the counts
    add up: the counts by severity and the counts by type both sum to the
    number of alerts, every type is counted as often as it occurs, and for
    a non-empty list the most common type is a type that no other type
    outnumbers. *)
Theorem summary_counts_add_up (rows : list Alert) (summary : Summary) :
  generate_alert_summary rows = Return summary ->
  total_alerts summary = List.length rows
  /\ total_count (by_severity summary) = List.length rows
  /\ total_count (by_type summary) = List.length rows
  /\ (forall k, count_of k (by_type summary)
                = occurrences k (map alert_type rows))
  /\ (forall k, count_of k (by_severity summary)
                = occurrences k (map alert_severity rows))
  /\ (rows <> [] ->
      exists t, most_common_type summary = Some t
                /\ In t (map alert_type rows)
                /\ forall k, count_of k (by_type summary)
                             <= count_of t (by_type summary)).
Proof.
  destruct rows as [|row rest].
  - intro H. injection H as <-. cbn. repeat split. congruence.
  - intro H.
    destruct (summary_returned row rest summary H)
      as [Htot [Hsev [Htyp [kv [Hmost [Hin Hmax]]]]]].
    rewrite Htot, Hsev, Htyp. rewrite Htyp in Hin, Hmax.
    rewrite !total_count_tally, !length_map. cbn [total_count fold_right].
    split; [reflexivity|]. split; [lia|]. split; [lia|].
    split; [intro k; now rewrite count_of_tally|].
    split; [intro k; now rewrite count_of_tally|].
    intros _. exists (fst kv). split; [exact Hmost|].
    assert (Hnodup : NoDup (map fst (tally (map alert_type (row :: rest)) [])))
      by (apply tally_nodup; constructor).
    split.
    + assert (Hk : In (fst kv)
                      (map fst (tally (map alert_type (row :: rest)) [])))
        by now apply in_map.
      apply tally_keys in Hk. now destruct Hk as [Hk|[]].
    + intro k.
      rewrite (count_of_entry (fst kv) (snd kv) _ Hnodup)
        by now destruct kv.
      destruct (count_of_cases k (tally (map alert_type (row :: rest)) []))
        as [H0|Hk]; [lia|].
      exact (Hmax _ Hk).
Qed.

(** X21: a summary of alerts whose severities all come out of
    [_map_severity], as those of the feed do, never raises. *)
Theorem summary_of_feed_alerts_never_raises (rows : list Alert) :
  (forall row, In row rows ->
               exists s, alert_severity row = _map_severity s) ->
  exists summary, generate_alert_summary rows = Return summary.
Proof.
  intro Hfeed. destruct rows as [|row rest]; [now eexists|].
  destruct (summary_steps row rest) as [most_common Hsteps].
  destruct (py_max_returns (list_index severity_order)
              (map fst (tally (map alert_severity (row :: rest)) [])))
    as [s [j [Hmax _]]].
  - intro H. apply map_eq_nil in H. revert H. apply tally_nonempty.
  - intros x Hx. apply summary_keys in Hx. apply in_map_iff in Hx.
    destruct Hx as [r [<- Hr]]. destruct (Hfeed r Hr) as [s ->].
    apply (proj1 (index_from_spec 0 (_map_severity s) severity_order)).
    apply map_severity_in_order.
  - rewrite Hmax in Hsteps. eexists. exact Hsteps.
Qed.

Lemma base_risk_cases (severity : string) :
  In (base_risk_of severity) [0.3; 0.5; 0.7; 0.9]%float.
Proof.
  unfold base_risk_of, risk_thresholds. cbn [find fst snd].
  repeat (destruct (String.eqb _ severity); [cbn; tauto|]).
  cbn. tauto.
Qed.

(** X22: the risk of an alert lies between 0.3 and 1.0, and recent
    verified reports of the alert's hazard type never lower it: the risk
    with such reports is at least the risk without any report. *)
Theorem alert_risk_in_range (alert : Alert)
    (recent_reports : list HazardReport) :
  Processors.between 0.3 1 (analyze_alert_risk alert recent_reports) = true
  /\ PrimFloat.leb (analyze_alert_risk alert [])
       (analyze_alert_risk alert recent_reports) = true.
Proof.
  unfold analyze_alert_risk. cbn [filter].
  pose proof (base_risk_cases (alert_severity alert)) as Hb.
  destruct (filter (matching_report alert) recent_reports);
    cbn [In] in Hb;
    repeat (destruct Hb as [<-|Hb]; [split; vm_compute; reflexivity|]);
    destruct Hb.
Qed.

End SummaryMore.

(* ================================================================== *)
(** * Properties of the verification of a report *)

Section Verification.
Import Py Models Reports ReportVocabulary.

Variable clock : nat -> datetime.







End Verification.

(* ================================================================== *)
(** * A further property of report creation *)

Section ReportCreationMore.
Import Py Models BackendMain.

Variable clock : nat -> datetime.
Variable hotspots_up : bool.
Variable timestamp_text : datetime -> string.
Variable uploads_writable : bool.
Variable convert : Schemas.annotation -> Schemas.value -> option Schemas.value.

(** X24: publishing a new report is not best effort: when Redis does not
    answer, a request with an allowed hazard type (whose upload, if it has
    one, was saved) raises the connection error, but the report is
    committed already and stays stored: the caller sees a failure and the
    database has the row. *)
Theorem report_is_stored_though_publishing_fails (title description
    hazard_type severity : string) (latitude longitude : float)
    (file : option UploadFile) (current_user : User) (w : World) :
  In hazard_type valid_hazard_types ->
  file = None \/ uploads_writable = true ->
  let request :=
    create_hazard_report clock false hotspots_up timestamp_text
      uploads_writable convert title description hazard_type severity
      latitude longitude file current_user in
  Py.value request w = Raise (ConnectionError "redis")
  /\ hazard_reports (Py.run request w)
     = hazard_reports w
       ++ [new_report clock timestamp_text w title description hazard_type
             severity latitude longitude file current_user]
  /\ published (Py.run request w) = published w.
Proof.
  intros Hin Hfile request. subst request.
  apply str_in_spec in Hin.
  destruct (create_accepted clock false hotspots_up timestamp_text
              uploads_writable convert title description hazard_type
              severity latitude longitude file current_user w Hin Hfile)
    as [Hrows Hvalue].
  split; [exact Hvalue|]. split; [exact Hrows|].
  unfold Py.run, create_hazard_report, generate_hotspots_async, save_upload.
  rewrite Hin. cbn [negb].
  destruct file as [f|].
  - destruct Hfile as [Hfile|Hfile]; [discriminate Hfile|]. rewrite Hfile.
    now destruct hotspots_up.
  - now destruct hotspots_up.
Qed.

End ReportCreationMore.

(* ================================================================== *)
(** * The further properties on concrete inputs *)

Lemma preprocess_text_alphabet_witness :
  Vocabulary.all_chars Vocabulary.is_ascii MoreFixtures.tagged_text = true
  /\ Vocabulary.all_chars Vocabulary.clean_char
       (Processors.preprocess_text MoreFixtures.tagged_text) = true
  /\ Processors.preprocess_text MoreFixtures.tagged_text
     = "tsunami warning see  stay safe!".
Proof.
  assert (H : Vocabulary.all_chars Vocabulary.is_ascii
                MoreFixtures.tagged_text = true) by reflexivity.
  split; [exact H|].
  split; [exact (preprocess_text_alphabet MoreFixtures.tagged_text H)|].
  reflexivity.
Defined.

Lemma trending_keywords_ranked_witness :
  (0 <= 1)%Z
  /\ List.length (Trends.extract_trending_keywords MoreFixtures.views 1)
     <= Z.to_nat 1.
Proof.
  assert (H : (0 <= 1)%Z) by (intro C; discriminate C).
  split; [exact H|].
  exact (proj1 (proj2 (proj2 (proj2
           (trending_keywords_ranked MoreFixtures.views 1)))) H).
Defined.

Lemma new_alert_is_unread_until_marked_witness :
  In Fixtures.asha (Models.users Fixtures.small_world)
  /\ exists row,
       find (AlertService.same_user_alert
               (Models.user_id_of Fixtures.asha)
               (Models.next_alert_id Fixtures.small_world))
            (Models.user_alerts
               (Py.run
                  (AlertService.mark_alert_read
                     (Models.user_id_of Fixtures.asha)
                     (Models.next_alert_id Fixtures.small_world))
                  (Py.run
                     (AlertService.create_alert (Fixtures.ticking_clock 0%Z)
                        true Fixtures.all_channels_up "flooding"
                        "Coastal Flooding Alert" "Avoid low-lying areas."
                        "high" None "system")
                     Fixtures.small_world))) = Some row
       /\ Models.is_read row = true.
Proof.
  assert (Hin : In Fixtures.asha (Models.users Fixtures.small_world))
    by (left; reflexivity).
  split; [exact Hin|].
  refine (proj2 (new_alert_is_unread_until_marked
                   (Fixtures.ticking_clock 0%Z) true Fixtures.all_channels_up
                   "flooding" "Coastal Flooding Alert"
                   "Avoid low-lying areas." "high" None "system"
                   Fixtures.small_world Fixtures.asha Hin _)).
  intros row [<-|[]] C. discriminate C.
Defined.

Lemma alert_identifiers_stay_distinct_witness :
  AlertVocabulary.alert_ids_ok Fixtures.small_world
  /\ AlertVocabulary.alert_ids_ok
       (Py.run
          (System.perform_all (Fixtures.constant_sentiment 0%float)
             (Fixtures.ticking_clock 0%Z) true Fixtures.all_channels_up true
             (fun _ => "0") true (fun _ _ => None)
             [ System.CreateAlert "flooding" "Coastal Flooding Alert"
                 "Avoid low-lying areas." "high" None "system";
               System.StoreAlerts MoreFixtures.feed;
               System.CleanupExpiredAlerts ])
          Fixtures.small_world).
Proof.
  assert (H : AlertVocabulary.alert_ids_ok Fixtures.small_world).
  { split; cbn.
    - constructor; [intros []|constructor].
    - constructor; [|constructor].
      apply Nat.ltb_lt. reflexivity. }
  split; [exact H|].
  exact (alert_identifiers_stay_distinct (Fixtures.constant_sentiment 0%float)
           (Fixtures.ticking_clock 0%Z) true Fixtures.all_channels_up true
           (fun _ => "0") true (fun _ _ => None) _ Fixtures.small_world H).
Defined.

Lemma storing_a_feed_twice_changes_nothing_witness :
  Forall (fun alert_data => Incois.ad_source alert_data = "incois")
         MoreFixtures.feed
  /\ Incois.store_alerts MoreFixtures.feed
       (Py.run (Incois.store_alerts MoreFixtures.feed) Fixtures.small_world)
     = (Py.Return tt,
        Py.run (Incois.store_alerts MoreFixtures.feed) Fixtures.small_world).
Proof.
  assert (H : Forall (fun alert_data =>
                        Incois.ad_source alert_data = "incois")
                     MoreFixtures.feed)
    by (repeat constructor).
  split; [exact H|].
  exact (proj1 (storing_a_feed_twice_changes_nothing MoreFixtures.feed
                  Fixtures.small_world H)).
Defined.

Lemma summary_counts_add_up_witness :
  Incois.generate_alert_summary
    [ Fixtures.alert_of_severity 1 "low";
      Fixtures.alert_of_severity 2 "critical";
      Fixtures.alert_of_severity 3 "low" ]
  = Py.Return
      (Incois.mkSummary 3 [("low", 2); ("critical", 1)] [("high_waves", 3)]
         (Some "high_waves") (Some "critical"))
  /\ CountingVocabulary.total_count [("low", 2); ("critical", 1)] = 3.
Proof.
  assert (H : Incois.generate_alert_summary
                [ Fixtures.alert_of_severity 1 "low";
                  Fixtures.alert_of_severity 2 "critical";
                  Fixtures.alert_of_severity 3 "low" ]
              = Py.Return
                  (Incois.mkSummary 3 [("low", 2); ("critical", 1)]
                     [("high_waves", 3)] (Some "high_waves")
                     (Some "critical")))
    by reflexivity.
  split; [exact H|].
  exact (proj1 (proj2 (summary_counts_add_up _ _ H))).
Defined.

Lemma summary_of_feed_alerts_never_raises_witness :
  (forall row,
      In row [ Fixtures.alert_of_severity 1 (Incois._map_severity "Extreme");
               Fixtures.alert_of_severity 2 (Incois._map_severity "n/a") ] ->
      exists s, Models.alert_severity row = Incois._map_severity s)
  /\ exists summary,
       Incois.generate_alert_summary
         [ Fixtures.alert_of_severity 1 (Incois._map_severity "Extreme");
           Fixtures.alert_of_severity 2 (Incois._map_severity "n/a") ]
       = Py.Return summary.
Proof.
  assert (H : forall row,
      In row [ Fixtures.alert_of_severity 1 (Incois._map_severity "Extreme");
               Fixtures.alert_of_severity 2 (Incois._map_severity "n/a") ] ->
      exists s, Models.alert_severity row = Incois._map_severity s).
  { intros row [<-|[<-|[]]]; eexists; reflexivity. }
  split; [exact H|].
  exact (summary_of_feed_alerts_never_raises _ H).
Defined.


Lemma report_is_stored_though_publishing_fails_witness :
  In "flooding" BackendMain.valid_hazard_types
  /\ (Some (BackendMain.mkUploadFile "street.jpg" "JFIF") = None
      \/ true = true)
  /\ Py.value
       (BackendMain.create_hazard_report (Fixtures.ticking_clock 0%Z) false
          true (fun _ => "0") true (fun _ _ => None)
          "Water in the streets" "Knee deep" "flooding" "high"
          13.05%float 80.28%float
          (Some (BackendMain.mkUploadFile "street.jpg" "JFIF"))
          Fixtures.asha)
       Fixtures.small_world = Py.Raise (Py.ConnectionError "redis").
Proof.
  assert (Hin : In "flooding" BackendMain.valid_hazard_types)
    by (simpl; tauto).
  assert (Hfile : Some (BackendMain.mkUploadFile "street.jpg" "JFIF") = None
                  \/ true = true)
    by (right; reflexivity).
  split; [exact Hin|]. split; [exact Hfile|].
  exact (proj1 (report_is_stored_though_publishing_fails
                  (Fixtures.ticking_clock 0%Z) true (fun _ => "0") true
                  (fun _ _ => None) "Water in the streets" "Knee deep"
                  "flooding" "high" 13.05%float 80.28%float
                  (Some (BackendMain.mkUploadFile "street.jpg" "JFIF"))
                  Fixtures.asha Fixtures.small_world Hin Hfile)).
Defined.

(** The verification of the report of the fixture by the analyst, and the
    trending keywords of the three posts. *)
Example verification_and_trends_examples :
  map Models.is_verified (Models.hazard_reports MoreFixtures.report_world)
  = [false]
  /\ map (fun r => (Models.is_verified r, Models.verified_by r,
                     Models.verified_at r, Models.report_updated_at r))
         (Models.hazard_reports
            (Py.run (Reports.verify_hazard_report (Fixtures.ticking_clock 7%Z)
                       5 MoreFixtures.analyst) MoreFixtures.report_world))
     = [(true, Some 44, Some 7%Z, 8%Z)]
  /\ map (fun t => (Trends.keyword t, Trends.count t))
         (Trends.extract_trending_keywords MoreFixtures.views 5)
     = [("tsunami", 2); ("general_hazard", 1); ("flooding", 1)].
Proof. repeat split. Qed.
